(** * Verbum real-time microphone client: a shallow embedding

    Source: [python-real-time/microphone_transcription.py], the class
    [MicrophoneTranscriptionClient] and its helpers.

    Conventions of the embedding.
    - A Python call that may raise returns [res A]; an exception keeps the
      state changes made before it, so stateful code runs in the monad [M]
      (client state, event trace, result).
    - Python [float] is IEEE binary64, as [PrimFloat.float]; [int] is [Z].
    - Python [str] is [string], one character per code point below 256.
      A log record is its level and the values its message interpolates;
      printed text is exact, its glyphs written as their UTF-8 bytes.
    - The operating system, PortAudio, asyncio and the socket are a record
      of oracles, [world]; every theorem quantifies over it.
    - [scipy.signal.resample] is the library's contract (shape and
      failure) around an abstract Fourier kernel for the sample values.
    - A coroutine runs in the monad [P]: the client, the shutdown event,
      standard output and a script of what the event loop runs at each
      [await] that suspends; [None] is a run that does not return. *)

From Stdlib Require Import ZArith List Bool String Ascii Lia Floats Uint63.
From Stdlib Require Import Strings.Byte DecimalString.
Import ListNotations.
Open Scope Z_scope.

(** ** Exceptions and results *)

Inductive exn : Set :=
| ValueError
| ZeroDivisionError
| OverflowError
| RuntimeError
| KeyError
| IndexError
| TypeError
| AttributeError
| OSError.

Inductive res (A : Type) : Type :=
| Ok (a : A)
| Raise (e : exn).
Arguments Ok {A} a.
Arguments Raise {A} e.

Definition rbind {A B} (r : res A) (k : A -> res B) : res B :=
  match r with
  | Ok a => k a
  | Raise e => Raise e
  end.

Declare Scope res_scope.
Delimit Scope res_scope with res.
Notation "x <-r a ;; b" := (rbind a (fun x => b))
  (at level 61, a at next level, right associativity) : res_scope.

Definition is_ok {A} (r : res A) : bool :=
  match r with Ok _ => true | Raise _ => false end.

(** ** Python numbers *)

Module PyNum.

(** [float(z)] for an integer of magnitude below 2^53 (exact there). *)
Definition float_of_Z (z : Z) : float :=
  if z <? 0 then PrimFloat.opp (PrimFloat.of_uint63 (Uint63.of_Z (- z)))
  else PrimFloat.of_uint63 (Uint63.of_Z z).

(** The integer part of a finite float [m * 2^e], rounding toward zero
    (a shift by a negative count is a shift to the right). *)
Definition trunc_float (f : float) : option Z :=
  match Prim2SF f with
  | S754_zero _ => Some 0
  | S754_finite s m e =>
      let v := Z.shiftl (Z.pos m) e in
      Some (if s then - v else v)
  | S754_infinity _ => None
  | S754_nan => None
  end.

(** The integer a float is, when it is one. *)
Definition integral (f : float) : option Z :=
  match Prim2SF f with
  | S754_zero _ => Some 0
  | S754_finite s m e =>
      if (0 <=? e) || (Z.land (Z.pos m) (Z.ones (- e)) =? 0)
      then trunc_float f
      else None
  | S754_infinity _ => None
  | S754_nan => None
  end.

(** [int(f)]: truncation; infinities and NaN raise. *)
Definition int_of_float (f : float) : res Z :=
  match Prim2SF f with
  | S754_infinity _ => Raise OverflowError
  | S754_nan => Raise ValueError
  | _ => match trunc_float f with Some z => Ok z | None => Raise ValueError end
  end.

(** [a / b] on integers: true division. *)
Definition true_div (a b : Z) : res float :=
  if b =? 0 then Raise ZeroDivisionError
  else Ok (PrimFloat.div (float_of_Z a) (float_of_Z b)).

End PyNum.

(** ** 16-bit PCM buffers (numpy [int16]) *)

Module Pcm.

Definition int16_min : Z := -32768.
Definition int16_max : Z := 32767.

Definition is_int16 (z : Z) : Prop := int16_min <= z <= int16_max.

Definition wrap16 (z : Z) : Z := (z + 32768) mod 65536 - 32768.

Definition byte_to_Z (b : byte) : Z := Z.of_N (Byte.to_N b).

Definition byte_of_Z (z : Z) : byte :=
  match Byte.of_N (Z.to_N (z mod 256)) with
  | Some b => b
  | None => x00
  end.

(** One little-endian sample. *)
Definition sample_of_bytes (lo hi : byte) : Z :=
  wrap16 (byte_to_Z lo + 256 * byte_to_Z hi).

Definition bytes_of_sample (x : Z) : list byte :=
  [byte_of_Z (x mod 256); byte_of_Z ((x / 256) mod 256)].

(** [np.frombuffer(raw, dtype=np.int16)] on a little-endian host: a
    buffer whose size is not a multiple of the element size is refused. *)
Fixpoint frombuffer (raw : list byte) : res (list Z) :=
  match raw with
  | [] => Ok []
  | [_] => Raise ValueError
  | lo :: hi :: rest =>
      match frombuffer rest with
      | Ok xs => Ok (sample_of_bytes lo hi :: xs)
      | Raise e => Raise e
      end
  end.

(** [a.tobytes()] of an int16 array. *)
Definition tobytes (xs : list Z) : list byte := flat_map bytes_of_sample xs.

(** [a.astype(np.int16)] on one float64 value: truncation toward zero.
    Outside the int16 range C leaves the conversion undefined; the model
    wraps a finite value and maps NaN and infinities to 0.  Only the
    in-range behaviour is used after [np.clip]. *)
Definition astype_int16 (f : float) : Z :=
  match PyNum.trunc_float f with
  | Some z => wrap16 z
  | None => 0
  end.

(** [np.clip(f, lo, hi)] on one float64 value. *)
Definition clip (f lo hi : float) : float :=
  if PrimFloat.ltb f lo then lo
  else if PrimFloat.ltb hi f then hi
  else f.

End Pcm.

(** ** Python text *)

Module PyStr.

Open Scope string_scope.
Open Scope Z_scope.

Definition dq : ascii := "034"%char.
Definition sq : ascii := "039"%char.
Definition backslash : ascii := "092"%char.

Definition char (c : ascii) : string := String c EmptyString.

Definition code (c : ascii) : Z := Z.of_N (N_of_ascii c).

Fixpoint join (sep : string) (l : list string) : string :=
  match l with
  | [] => ""
  | [x] => x
  | x :: rest => x ++ sep ++ join sep rest
  end.

Fixpoint repeat_str (s : string) (n : nat) : string :=
  match n with
  | O => ""
  | S n' => s ++ repeat_str s n'
  end.

(** [needle in hay]. *)
Fixpoint str_in (needle hay : string) : bool :=
  if prefix needle hay then true
  else match hay with
       | EmptyString => false
       | String _ rest => str_in needle rest
       end.

Fixpoint has_char (c : ascii) (s : string) : bool :=
  match s with
  | EmptyString => false
  | String d rest => if Ascii.eqb c d then true else has_char c rest
  end.

(** [c.lower()] on one code point below 256. *)
Definition lower_char (c : ascii) : ascii :=
  let n := code c in
  if ((65 <=? n) && (n <=? 90)) || ((192 <=? n) && (n <=? 222) && negb (n =? 215))
  then ascii_of_N (Z.to_N (n + 32))
  else c.

Fixpoint lower (s : string) : string :=
  match s with
  | EmptyString => EmptyString
  | String c rest => String (lower_char c) (lower rest)
  end.

Definition dec (z : Z) : string := NilZero.string_of_int (Z.to_int z).

Definition hex_digit (upper : bool) (n : Z) : ascii :=
  if n <? 10 then ascii_of_N (Z.to_N (48 + n))
  else ascii_of_N (Z.to_N ((if upper then 55 else 87) + n)).

Definition hex2 (upper : bool) (n : Z) : string :=
  String (hex_digit upper ((n / 16) mod 16)) (char (hex_digit upper (n mod 16))).

(** [str.isprintable] on one code point below 256. *)
Definition printable (n : Z) : bool :=
  ((32 <=? n) && (n <? 127)) || ((161 <=? n) && negb (n =? 173)).

(** [repr(s)] for a string. *)
Definition repr_char (quote c : ascii) : string :=
  let n := code c in
  if Ascii.eqb c quote || Ascii.eqb c backslash then String backslash (char c)
  else if n =? 9 then String backslash "t"
  else if n =? 10 then String backslash "n"
  else if n =? 13 then String backslash "r"
  else if printable n then char c
  else String backslash ("x" ++ hex2 false n).

Fixpoint repr_body (quote : ascii) (s : string) : string :=
  match s with
  | EmptyString => EmptyString
  | String c rest => repr_char quote c ++ repr_body quote rest
  end.

Definition repr_str (s : string) : string :=
  let quote := if has_char sq s && negb (has_char dq s) then dq else sq in
  String quote (repr_body quote s ++ char quote).

(** The string escapes of [json.dumps] (with [ensure_ascii]). *)
Definition json_char (c : ascii) : string :=
  let n := code c in
  if Ascii.eqb c dq || Ascii.eqb c backslash then String backslash (char c)
  else if n =? 10 then String backslash "n"
  else if n =? 13 then String backslash "r"
  else if n =? 9 then String backslash "t"
  else if n =? 8 then String backslash "b"
  else if n =? 12 then String backslash "f"
  else if (32 <=? n) && (n <? 127) then char c
  else String backslash ("u00" ++ hex2 false n).

Fixpoint json_body (s : string) : string :=
  match s with
  | EmptyString => EmptyString
  | String c rest => json_char c ++ json_body rest
  end.

Definition json_str (s : string) : string := String dq (json_body s ++ char dq).

(** [urllib.parse.quote_plus] on one code point: unreserved characters
    stay, a space becomes a plus sign, the rest is the percent-encoded
    UTF-8 form. *)
Definition unreserved (n : Z) : bool :=
  ((65 <=? n) && (n <=? 90)) || ((97 <=? n) && (n <=? 122)) ||
  ((48 <=? n) && (n <=? 57)) ||
  (n =? 95) || (n =? 46) || (n =? 45) || (n =? 126).

Definition percent (n : Z) : string := String "%" (hex2 true n).

Definition quote_plus_char (c : ascii) : string :=
  let n := code c in
  if unreserved n then char c
  else if n =? 32 then "+"
  else if n <? 128 then percent n
  else percent (192 + n / 64) ++ percent (128 + n mod 64).

Fixpoint quote_plus (s : string) : string :=
  match s with
  | EmptyString => EmptyString
  | String c rest => quote_plus_char c ++ quote_plus rest
  end.

(** [urllib.parse.urlencode] of a dict of strings. *)
Definition urlencode (params : list (string * string)) : string :=
  join "&" (map (fun kv => quote_plus (fst kv) ++ "=" ++ quote_plus (snd kv)) params).

(** [s[:n]]. *)
Definition take (n : nat) (s : string) : string := substring 0 n s.

End PyStr.

(** ** [repr] of a float: the shortest decimal that reads back *)

Module FloatRepr.

Import PyStr.
Open Scope string_scope.
Open Scope Z_scope.

(** The rounding interval of a positive finite float [m * 2^e], as
    integers over the common denominator [den]: every real strictly
    inside (or on the border when [m] is even) rounds to the float. *)
Record interval : Set := {
  lo : Z;
  mid : Z;
  hi : Z;
  den : Z;
  closed : bool
}.

Definition interval_of (m : positive) (e : Z) : interval :=
  let below := if (Z.pos m =? 2 ^ 52) && (-1074 <? e) then 1 else 2 in
  let num := 2 ^ Z.max (e - 2) 0 in
  {| lo := (4 * Z.pos m - below) * num;
     mid := 4 * Z.pos m * num;
     hi := (4 * Z.pos m + 2) * num;
     den := 2 ^ Z.max (2 - e) 0;
     closed := Z.even (Z.pos m) |}.

(** The decimal [c * 10^k] against the interval. *)
Definition scaled (I : interval) (c k : Z) : Z := c * 10 ^ Z.max k 0 * den I.
Definition bound (x k : Z) : Z := x * 10 ^ Z.max (- k) 0.

Definition inside (I : interval) (c k : Z) : bool :=
  let x := scaled I c k in
  if closed I then (bound (lo I) k <=? x) && (x <=? bound (hi I) k)
  else (bound (lo I) k <? x) && (x <? bound (hi I) k).

Definition dist (I : interval) (c k : Z) : Z :=
  Z.abs (scaled I c k - bound (mid I) k).

Definition floor_at (I : interval) (k : Z) : Z :=
  bound (mid I) k / (10 ^ Z.max k 0 * den I).

(** The decimal exponent [p] with [10^p <= value < 10^(p+1)]. *)
Fixpoint settle (I : interval) (p : Z) (fuel : nat) : Z :=
  match fuel with
  | O => p
  | S fuel' =>
      if floor_at I p <? 1 then settle I (p - 1) fuel'
      else if 10 <=? floor_at I p then settle I (p + 1) fuel'
      else p
  end.

Definition exponent10 (I : interval) (m : positive) (e : Z) : Z :=
  settle I (((Z.log2 (Z.pos m) + e) * 30103) / 100000) 4.

(** The fewest digits that fall inside the interval; of two the nearer. *)
Fixpoint shortest (I : interval) (p : Z) (ns : list Z) : Z * Z :=
  match ns with
  | [] => (floor_at I (p - 16), p - 16)
  | n :: rest =>
      let k := p - n + 1 in
      let dl := floor_at I k in
      let dh := dl + 1 in
      match inside I dl k, inside I dh k with
      | true, true =>
          if dist I dh k <? dist I dl k then (dh, k)
          else if dist I dl k <? dist I dh k then (dl, k)
          else if Z.even dl then (dl, k) else (dh, k)
      | true, false => (dl, k)
      | false, true => (dh, k)
      | false, false => shortest I p rest
      end
  end.

Fixpoint strip_zeros (c k : Z) (fuel : nat) : Z * Z :=
  match fuel with
  | O => (c, k)
  | S fuel' =>
      if (c mod 10 =? 0) && negb (c =? 0) then strip_zeros (c / 10) (k + 1) fuel'
      else (c, k)
  end.

Definition digits (m : positive) (e : Z) : string * Z :=
  let I := interval_of m e in
  let p := exponent10 I m e in
  let '(c, k) := shortest I p (map Z.of_nat (seq 1 17)) in
  let '(c', k') := strip_zeros c k 20 in
  let ds := dec c' in
  (ds, Z.of_nat (String.length ds) + k').

Definition pad2 (n : Z) : string := if n <? 10 then "0" ++ dec n else dec n.

(** Fixed notation while the decimal point falls in (-4, 16], else
    scientific notation. *)
Definition layout (ds : string) (decpt : Z) : string :=
  let nd := Z.of_nat (String.length ds) in
  if (-4 <? decpt) && (decpt <=? 16) then
    if decpt <=? 0 then "0." ++ repeat_str "0" (Z.to_nat (- decpt)) ++ ds
    else if nd <=? decpt then ds ++ repeat_str "0" (Z.to_nat (decpt - nd)) ++ ".0"
    else substring 0 (Z.to_nat decpt) ds ++ "." ++
         substring (Z.to_nat decpt) (Z.to_nat (nd - decpt)) ds
  else
    let ex := decpt - 1 in
    substring 0 1 ds ++
    (if 1 <? nd then "." ++ substring 1 (Z.to_nat (nd - 1)) ds else "") ++
    "e" ++ (if ex <? 0 then "-" else "+") ++ pad2 (Z.abs ex).

Definition float_repr (f : float) : string :=
  match Prim2SF f with
  | S754_nan => "nan"
  | S754_infinity s => if s then "-inf" else "inf"
  | S754_zero s => if s then "-0.0" else "0.0"
  | S754_finite s m e =>
      let '(ds, decpt) := digits m e in
      (if s then "-" else "") ++ layout ds decpt
  end.

End FloatRepr.

(** ** Python values (JSON-shaped: what a config or an event holds) *)

Module PyVal.

Import PyStr.
Open Scope string_scope.
Open Scope Z_scope.

(** A dict is its items in insertion order, keyed by strings. *)
#[local] Set Warnings "-register-all".
Inductive pyval : Type :=
| VNone
| VBool (b : bool)
| VInt (z : Z)
| VFloat (f : float)
| VStr (s : string)
| VList (items : list pyval)
| VDict (items : list (string * pyval)).

(** [bool(v)]. *)
Definition truthy (v : pyval) : bool :=
  match v with
  | VNone => false
  | VBool b => b
  | VInt z => negb (z =? 0)
  | VFloat f => negb (PrimFloat.eqb f 0%float)
  | VStr s => negb (String.eqb s "")
  | VList items => match items with [] => false | _ => true end
  | VDict items => match items with [] => false | _ => true end
  end.

(** [a or b]. *)
Definition py_or (a b : pyval) : pyval := if truthy a then a else b.

(** [repr(v)]. *)
Fixpoint repr (v : pyval) : string :=
  match v with
  | VNone => "None"
  | VBool b => if b then "True" else "False"
  | VInt z => dec z
  | VFloat f => FloatRepr.float_repr f
  | VStr s => repr_str s
  | VList items => "[" ++ join ", " (map repr items) ++ "]"
  | VDict items =>
      "{" ++ join ", " (map (fun kv => repr_str (fst kv) ++ ": " ++ repr (snd kv)) items) ++ "}"
  end.

(** [str(v)], also what an f-string field shows. *)
Definition str (v : pyval) : string :=
  match v with
  | VStr s => s
  | _ => repr v
  end.

Definition json_float (f : float) : string :=
  match Prim2SF f with
  | S754_nan => "NaN"
  | S754_infinity s => if s then "-Infinity" else "Infinity"
  | _ => FloatRepr.float_repr f
  end.

(** [json.dumps(v)] with the default separators. *)
Fixpoint json_dumps (v : pyval) : string :=
  match v with
  | VNone => "null"
  | VBool b => if b then "true" else "false"
  | VInt z => dec z
  | VFloat f => json_float f
  | VStr s => json_str s
  | VList items => "[" ++ join ", " (map json_dumps items) ++ "]"
  | VDict items =>
      "{" ++ join ", " (map (fun kv => json_str (fst kv) ++ ": " ++ json_dumps (snd kv)) items)
          ++ "}"
  end.

(** [d.get(key)]: the value, [None] when the key is missing. *)
Fixpoint lookup {A} (key : string) (d : list (string * A)) : option A :=
  match d with
  | [] => None
  | (k, v) :: rest => if String.eqb k key then Some v else lookup key rest
  end.

Definition get (d : list (string * pyval)) (key : string) : pyval :=
  match lookup key d with Some v => v | None => VNone end.

Definition get_default (d : list (string * pyval)) (key : string) (dflt : pyval) : pyval :=
  match lookup key d with Some v => v | None => dflt end.

(** [d[key]]. *)
Definition item (d : list (string * pyval)) (key : string) : res pyval :=
  match lookup key d with Some v => Ok v | None => Raise KeyError end.

(** [v[key]] with a string key. *)
Definition subscript (v : pyval) (key : string) : res pyval :=
  match v with
  | VDict d => item d key
  | _ => Raise TypeError
  end.

(** The items a [for] loop visits. *)
Definition iterate (v : pyval) : res (list pyval) :=
  match v with
  | VList items => Ok items
  | VDict items => Ok (map (fun kv => VStr (fst kv)) items)
  | VStr s => Ok (map (fun c => VStr (char c)) (list_ascii_of_string s))
  | _ => Raise TypeError
  end.

(** A number as an exact integer when it is one. *)
Definition as_integer (v : pyval) : option Z :=
  match v with
  | VBool b => Some (if b then 1 else 0)
  | VInt z => Some z
  | VFloat f => PyNum.integral f
  | _ => None
  end.

Definition is_float (v : pyval) : bool :=
  match v with VFloat _ => true | _ => false end.

(** [a == b], structurally: numbers by value, dicts as unordered maps. *)
Fixpoint py_eq (a b : pyval) : bool :=
  match a, b with
  | VNone, VNone => true
  | VStr s, VStr t => String.eqb s t
  | VFloat f, VFloat g => PrimFloat.eqb f g
  | VList xs, VList ys =>
      (fix all2 (xs ys : list pyval) : bool :=
         match xs, ys with
         | [], [] => true
         | x :: xs', y :: ys' => py_eq x y && all2 xs' ys'
         | _, _ => false
         end) xs ys
  | VDict d, VDict e =>
      Nat.eqb (List.length d) (List.length e) &&
      (fix sub (d : list (string * pyval)) : bool :=
         match d with
         | [] => true
         | (k, x) :: d' =>
             match lookup k e with
             | Some y => py_eq x y && sub d'
             | None => false
             end
         end) d
  | _, _ =>
      match as_integer a, as_integer b with
      | Some x, Some y => x =? y
      | _, _ => false
      end
  end.

(** [d[key] = v]: an existing key keeps its place. *)
Fixpoint setitem {A} (d : list (string * A)) (key : string) (v : A) : list (string * A) :=
  match d with
  | [] => [(key, v)]
  | (k, w) :: rest =>
      if String.eqb k key then (k, v) :: rest else (k, w) :: setitem rest key v
  end.

End PyVal.

(** ** The client object, the outside world and the effect monad *)

Module Client.

Import PyStr PyVal PyNum Pcm.
Open Scope string_scope.
Open Scope list_scope.
Open Scope Z_scope.

(** [CONFIG]: the keys the client reads.  [sttOptions] may be absent
    ([config.get('sttOptions', {})]). *)
Record session_config : Type := {
  serverUrl : string;
  apiKey : string;
  sttOptions : option (list (string * pyval));
  chunkSize : Z
}.

(** The stream object [pyaudio_instance.open] with the stream parameters returns. *)
Record stream : Set := {
  stream_rate : Z;
  stream_device : option nat;
  stream_frames : Z
}.

(** The attributes of [MicrophoneTranscriptionClient]. *)
Record client : Type := {
  config : session_config;
  is_connected : bool;
  is_recording : bool;
  audio_stream : option stream;
  pyaudio_instance : option unit;
  loop : option unit;
  audio_queue : list (list byte);
  sample_rate : Z;
  channels : Z;
  sample_width : Z;
  chunk_size : Z;
  input_sample_rate : Z;
  is_windows : bool;
  frames_per_buffer : Z
}.

(** [__init__]; [platform.system() == "Windows"] is the argument. *)
Definition init (cfg : session_config) (windows : bool) : client :=
  {| config := cfg;
     is_connected := false;
     is_recording := false;
     audio_stream := None;
     pyaudio_instance := None;
     loop := None;
     audio_queue := [];
     sample_rate := 8000;
     channels := 1;
     sample_width := 2;
     chunk_size := chunkSize cfg;
     input_sample_rate := 44100;
     is_windows := windows;
     frames_per_buffer :=
       if windows then Z.max 512 (chunkSize cfg / 4) else chunkSize cfg / 2 |}.

Definition set_is_connected (b : bool) (c : client) : client :=
  {| config := config c; is_connected := b; is_recording := is_recording c;
     audio_stream := audio_stream c; pyaudio_instance := pyaudio_instance c;
     loop := loop c; audio_queue := audio_queue c; sample_rate := sample_rate c;
     channels := channels c; sample_width := sample_width c;
     chunk_size := chunk_size c; input_sample_rate := input_sample_rate c;
     is_windows := is_windows c; frames_per_buffer := frames_per_buffer c |}.

Definition set_is_recording (b : bool) (c : client) : client :=
  {| config := config c; is_connected := is_connected c; is_recording := b;
     audio_stream := audio_stream c; pyaudio_instance := pyaudio_instance c;
     loop := loop c; audio_queue := audio_queue c; sample_rate := sample_rate c;
     channels := channels c; sample_width := sample_width c;
     chunk_size := chunk_size c; input_sample_rate := input_sample_rate c;
     is_windows := is_windows c; frames_per_buffer := frames_per_buffer c |}.

Definition set_audio_stream (s : option stream) (c : client) : client :=
  {| config := config c; is_connected := is_connected c;
     is_recording := is_recording c;
     audio_stream := s; pyaudio_instance := pyaudio_instance c;
     loop := loop c; audio_queue := audio_queue c; sample_rate := sample_rate c;
     channels := channels c; sample_width := sample_width c;
     chunk_size := chunk_size c; input_sample_rate := input_sample_rate c;
     is_windows := is_windows c; frames_per_buffer := frames_per_buffer c |}.

Definition set_pyaudio_instance (p : option unit) (c : client) : client :=
  {| config := config c; is_connected := is_connected c;
     is_recording := is_recording c;
     audio_stream := audio_stream c; pyaudio_instance := p;
     loop := loop c; audio_queue := audio_queue c; sample_rate := sample_rate c;
     channels := channels c; sample_width := sample_width c;
     chunk_size := chunk_size c; input_sample_rate := input_sample_rate c;
     is_windows := is_windows c; frames_per_buffer := frames_per_buffer c |}.

Definition set_loop (l : option unit) (c : client) : client :=
  {| config := config c; is_connected := is_connected c;
     is_recording := is_recording c;
     audio_stream := audio_stream c; pyaudio_instance := pyaudio_instance c;
     loop := l; audio_queue := audio_queue c; sample_rate := sample_rate c;
     channels := channels c; sample_width := sample_width c;
     chunk_size := chunk_size c; input_sample_rate := input_sample_rate c;
     is_windows := is_windows c; frames_per_buffer := frames_per_buffer c |}.

Definition set_input_sample_rate (r : Z) (c : client) : client :=
  {| config := config c; is_connected := is_connected c;
     is_recording := is_recording c;
     audio_stream := audio_stream c; pyaudio_instance := pyaudio_instance c;
     loop := loop c; audio_queue := audio_queue c; sample_rate := sample_rate c;
     channels := channels c; sample_width := sample_width c;
     chunk_size := chunk_size c; input_sample_rate := r;
     is_windows := is_windows c; frames_per_buffer := frames_per_buffer c |}.

(** What [sio.connect] is called with. *)
Record connect_request : Type := {
  url : string;
  namespaces : list string;
  socketio_path : string;
  transports : list string;
  auth : list (string * string)
}.

(** One entry of [get_device_info_by_index]. *)
Record device_info : Set := {
  name : string;
  maxInputChannels : Z;
  defaultSampleRate : float
}.

(** The outside world: how asyncio, PortAudio and the socket answer.
    [pa_open k rate device] is the answer to the [k]-th call of [open]. *)
Record world : Type := {
  loop_open : bool;
  thread_has_loop : bool;
  pa_init : res unit;
  get_device_count : res nat;
  get_device_info_by_index : nat -> res device_info;
  is_format_supported : Z -> nat -> res bool;
  pa_open : nat -> Z -> option nat -> res unit;
  start_stream : res unit;
  stop_stream : res unit;
  close_stream : res unit;
  terminate : res unit;
  sio_connect : connect_request -> res unit;
  sio_emit : string -> res unit;
  sio_disconnect : res unit
}.

Inductive level : Set := Info | Warning | Error.

(** How an emission reaches the event loop from the audio thread. *)
Inductive scheduler : Set := CallSoonThreadsafe | CreateTask.

(** A value interpolated into a log message. *)
Inductive field : Set :=
| FStr (s : string)
| FInt (z : Z)
| FExn (e : exn).

(** Calls on the outside world, in the order they are made.  A log record
    is its level and the values its message interpolates. *)
Inductive event : Type :=
| Log (l : level) (fields : list field)
| PaInit
| PaOpen (rate : Z) (device : option nat)
| StreamStart
| StreamStop
| StreamClose
| PaTerminate
| Schedule (how : scheduler) (ev : string) (payload : list byte)
| Emit (ev : string)
| SioConnect (req : connect_request)
| SioDisconnect.

(** A method: from the client before to the result, the client after and
    the calls made.  A raised exception keeps both. *)
Definition M (A : Type) : Type := client -> res A * client * list event.

Definition ret {A} (a : A) : M A := fun c => (Ok a, c, []).
Definition raise {A} (e : exn) : M A := fun c => (Raise e, c, []).

Definition bind {A B} (m : M A) (k : A -> M B) : M B :=
  fun c =>
    match m c with
    | (Ok a, c1, t1) =>
        match k a c1 with
        | (r, c2, t2) => (r, c2, t1 ++ t2)
        end
    | (Raise e, c1, t1) => (Raise e, c1, t1)
    end.

(** [try: m  except Exception as e: handler e]. *)
Definition catch {A} (m : M A) (handler : exn -> M A) : M A :=
  fun c =>
    match m c with
    | (Ok a, c1, t1) => (Ok a, c1, t1)
    | (Raise e, c1, t1) =>
        match handler e c1 with
        | (r, c2, t2) => (r, c2, t1 ++ t2)
        end
    end.

Definition tell (e : event) : M unit := fun c => (Ok tt, c, [e]).
Definition log (l : level) (fields : list field) : M unit := tell (Log l fields).
Definition read {A} (f : client -> A) : M A := fun c => (Ok (f c), c, []).
Definition modify (f : client -> client) : M unit := fun c => (Ok tt, f c, []).
Definition lift {A} (r : res A) : M A := fun c => (r, c, []).

(** A call on the outside world: recorded, then answered. *)
Definition call {A} (e : event) (answer : res A) : M A :=
  fun c => (answer, c, [e]).

Definition when (b : bool) (m : M unit) : M unit := if b then m else ret tt.

Declare Scope m_scope.
Delimit Scope m_scope with M.
Notation "x <- a ;; b" := (bind a (fun x => b))
  (at level 61, a at next level, right associativity) : m_scope.
Notation "a ;; b" := (bind a (fun _ => b))
  (at level 61, right associativity) : m_scope.

Definition result {A} (x : res A * client * list event) : res A := fst (fst x).
Definition after {A} (x : res A * client * list event) : client := snd (fst x).
Definition calls {A} (x : res A * client * list event) : list event := snd x.

End Client.

(** ** Audio Transformer: [_resample_audio], [_process_audio_chunk] *)

Module Transformer.

Import PyNum Pcm Client.
Open Scope Z_scope.
Open Scope res_scope.

Section WithKernel.

(** [fourier x num k]: sample [k] of the [num]-point Fourier resampling of
    [x], the float64 value [scipy.signal.resample] computes. *)
Variable fourier : list Z -> nat -> nat -> float.

(** [scipy.signal.resample(x, num)] along one axis: [num] samples; the
    transform of zero points is refused, so an empty input or [num = 0]
    raises (the theorems do not depend on which exception). *)
Definition scipy_resample (x : list Z) (num : Z) : res (list float) :=
  if (Nat.eqb (List.length x) 0) || (num <=? 0) then Raise ValueError
  else Ok (map (fourier x (Z.to_nat num)) (seq 0 (Z.to_nat num))).

(** [int(len(audio_data) * ratio)] with [ratio = target_rate / original_rate]. *)
Definition resampled_length (n original_rate target_rate : Z) : res Z :=
  ratio <-r true_div target_rate original_rate ;;
  int_of_float (PrimFloat.mul (float_of_Z n) ratio).

Definition resample_audio (audio_data : list Z) (original_rate target_rate : Z)
  : res (list Z) :=
  if original_rate =? target_rate then Ok audio_data
  else
    num <-r resampled_length (Z.of_nat (List.length audio_data)) original_rate target_rate ;;
    resampled_data <-r scipy_resample audio_data num ;;
    Ok (map astype_int16 resampled_data).

(** The float64 nearest to 1.1, the volume boost. *)
Definition gain : float := 0x1.199999999999ap+0%float.

(** [np.clip(x * 1.1, -32768, 32767).astype(np.int16)] on one sample. *)
Definition boost (x : Z) : Z :=
  astype_int16 (clip (PrimFloat.mul (float_of_Z x) gain) (-32768)%float 32767%float).

(** The array after decoding and, when the rates differ, resampling. *)
Definition prepared (self : client) (raw_audio : list byte) : res (list Z) :=
  audio_array <-r frombuffer raw_audio ;;
  if negb (input_sample_rate self =? sample_rate self)
  then resample_audio audio_array (input_sample_rate self) (sample_rate self)
  else Ok audio_array.

Definition process_audio_chunk (self : client) (raw_audio : list byte)
  : res (list byte) :=
  audio_array <-r prepared self raw_audio ;;
  Ok (tobytes (map boost audio_array)).

End WithKernel.

(** The sample count the spec asks for: [round(n * target / source)],
    ties to even as Python rounds. *)
Definition rounded_length (n original_rate target_rate : Z) : Z :=
  let q := (n * target_rate) / original_rate in
  let r := (n * target_rate) mod original_rate in
  if 2 * r <? original_rate then q
  else if original_rate <? 2 * r then q + 1
  else if Z.even q then q else q + 1.

(** Exact arithmetic: eleven tenths, toward zero, then saturated. *)
Definition saturate (z : Z) : Z := Z.max int16_min (Z.min int16_max z).
Definition boost_exact (x : Z) : Z := saturate (Z.quot (11 * x) 10).

(** A crude kernel (sample and hold), for concrete runs. *)
Definition hold (x : list Z) (num k : nat) : float :=
  float_of_Z (nth (Nat.div (Nat.mul k (List.length x)) num) x 0).

End Transformer.

(** ** Device Selector: [_find_best_microphone] *)

Module Devices.

Import PyStr PyVal Client.
Open Scope string_scope.
Open Scope list_scope.
Open Scope Z_scope.
Open Scope m_scope.

(** An entry of [microphone_devices]. *)
Record candidate : Set := {
  index : nat;
  cname : string;
  priority : Z;
  default_sample_rate : float;
  supported_rates : list Z;
  cchannels : Z
}.

Definition test_rates : list Z := [44100; 48000; 16000; 8000].

Definition priority_of (device_name : string) : Z :=
  if str_in "logitech" device_name || str_in "logitec" device_name then 3
  else if str_in "microphone" device_name || str_in "mic" device_name then 2
  else if str_in "headset" device_name || str_in "headphone" device_name then 1
  else 0.

Definition mem (r : Z) (rates : list Z) : bool := existsb (Z.eqb r) rates.

(** The sort key and Python's order on such tuples. *)
Definition key (d : candidate) : Z * bool * Z :=
  (priority d, mem 44100 (supported_rates d), Z.of_nat (List.length (supported_rates d))).

Definition key_lt (a b : Z * bool * Z) : bool :=
  match a, b with
  | (p1, h1, n1), (p2, h2, n2) =>
      if p1 <? p2 then true
      else if p2 <? p1 then false
      else if negb h1 && h2 then true
      else if h1 && negb h2 then false
      else n1 <? n2
  end.

(** [sort(key=..., reverse=True)]: descending and stable. *)
Fixpoint insert_desc (x : candidate) (l : list candidate) : list candidate :=
  match l with
  | [] => [x]
  | y :: rest =>
      if key_lt (key y) (key x) then x :: y :: rest
      else y :: insert_desc x rest
  end.

Definition sort_desc (l : list candidate) : list candidate :=
  fold_left (fun acc x => insert_desc x acc) l [].

Section WithWorld.

Variable w : world.

(** The rates of [test_rates] the device accepts; a failing query counts
    as a refusal. *)
Definition probe_rates (i : nat) : list Z :=
  filter (fun rate =>
            match is_format_supported w rate i with
            | Ok b => b
            | Raise _ => false
            end) test_rates.

(** One round of the enumeration loop: the entry appended, if any. *)
Definition probe_device (i : nat) : option candidate :=
  match get_device_info_by_index w i with
  | Raise _ => None
  | Ok device_info =>
      if 0 <? maxInputChannels device_info then
        let rates := probe_rates i in
        match rates with
        | [] => None
        | _ => Some {| index := i;
                       cname := name device_info;
                       priority := priority_of (lower (name device_info));
                       default_sample_rate := defaultSampleRate device_info;
                       supported_rates := rates;
                       cchannels := maxInputChannels device_info |}
        end
      else None
  end.

Definition enumerate (device_count : nat) : list candidate :=
  flat_map (fun i => match probe_device i with Some d => [d] | None => [] end)
           (seq 0 device_count).

Definition rates_str (rates : list Z) : string :=
  (join ", " (map dec (firstn 3 rates)) ++
   (if (3 <? List.length rates)%nat
    then ", +" ++ dec (Z.of_nat (List.length rates) - 3) ++ " more"
    else ""))%string.

Definition log_device (d : candidate) : M unit :=
  log Info [FInt (Z.of_nat (index d)); FStr (cname d); FStr (rates_str (supported_rates d));
            FInt (cchannels d); FInt (priority d)].

Fixpoint log_devices (l : list candidate) : M unit :=
  match l with
  | [] => ret tt
  | d :: rest => log_device d ;; log_devices rest
  end.

(** The rate chosen for the best device. *)
Definition choose_rate (best : candidate) : M unit :=
  if mem 44100 (supported_rates best) then modify (set_input_sample_rate 44100)
  else if mem 48000 (supported_rates best) then modify (set_input_sample_rate 48000)
  else match supported_rates best with
       | r :: _ => modify (set_input_sample_rate r)
       | [] => ret tt
       end.

Definition find_best_microphone : M (option nat) :=
  self <- read (fun c => c) ;;
  match pyaudio_instance self with
  | None => ret None
  | Some _ =>
      catch
        (device_count <- lift (get_device_count w) ;;
         let microphone_devices := enumerate device_count in
         match microphone_devices with
         | [] => log Warning [] ;; ret None
         | _ :: _ =>
             let microphone_devices := sort_desc microphone_devices in
             log Info [] ;;
             log_devices (firstn 5 microphone_devices) ;;
             match microphone_devices with
             | [] => raise IndexError
             | best_device :: _ =>
                 choose_rate best_device ;;
                 r <- read input_sample_rate ;;
                 log Info [FInt r; FInt (Z.of_nat (index best_device))] ;;
                 ret (Some (index best_device))
             end
         end)
        (fun e => log Warning [FExn e] ;; ret None)
  end.

End WithWorld.

End Devices.

(** ** Capture Driver: [_audio_callback], [start_recording],
    [stop_recording] *)

Module Capture.

Import PyStr PyVal Client.
Open Scope string_scope.
Open Scope list_scope.
Open Scope Z_scope.
Open Scope m_scope.

Inductive pa_flag : Set := paContinue | paComplete | paAbort.

Definition is_runtime_error (e : exn) : bool :=
  match e with RuntimeError => true | _ => false end.

Definition some {A} (o : option A) : bool :=
  match o with Some _ => true | None => false end.

Section WithWorld.

Variable fourier : list Z -> nat -> nat -> float.
Variable w : world.

(** [self.loop.call_soon_threadsafe(...)]: a closed loop refuses. *)
Definition call_soon_threadsafe (payload : list byte) : M unit :=
  if loop_open w then tell (Schedule CallSoonThreadsafe "audioStream" payload)
  else raise RuntimeError.

(** [asyncio.create_task(...)]: needs a running loop in the calling thread. *)
Definition create_task (payload : list byte) : M unit :=
  if thread_has_loop w then tell (Schedule CreateTask "audioStream" payload)
  else raise RuntimeError.

Definition audio_callback (in_data : list byte) (status : Z)
  : M (list byte * pa_flag) :=
  when (negb (status =? 0)) (log Warning [FInt status]) ;;
  self <- read (fun c => c) ;;
  (if is_recording self && is_connected self then
     catch
       (processed_audio <- lift (Transformer.process_audio_chunk fourier self in_data) ;;
        if is_windows self && some (loop self) then
          catch (call_soon_threadsafe processed_audio)
                (fun e => if is_runtime_error e then ret tt else raise e)
        else create_task processed_audio)
       (fun e => log Error [FExn e])
   else ret tt) ;;
  ret (in_data, paContinue).

Definition fallback_rates (r : Z) : list Z := [r; 44100; 48000; 16000].

(** The loop over the candidate rates; [k] counts the calls of [open]. *)
Fixpoint open_with_fallback (rates : list Z) (k : nat) (device : option nat) : M unit :=
  match rates with
  | [] => ret tt
  | attempt_rate :: rest =>
      log Info [FInt attempt_rate] ;;
      opened <-
        catch
          (call (PaOpen attempt_rate device) (pa_open w k attempt_rate device) ;;
           self <- read (fun c => c) ;;
           modify (set_audio_stream
                     (Some {| stream_rate := attempt_rate;
                              stream_device := device;
                              stream_frames := frames_per_buffer self |})) ;;
           when (negb (attempt_rate =? input_sample_rate self))
                (log Info [FInt attempt_rate] ;;
                 modify (set_input_sample_rate attempt_rate)) ;;
           ret true)
          (fun e =>
             log Warning [FInt attempt_rate; FExn e] ;;
             if attempt_rate =? 16000 then raise e else ret false) ;;
      if opened : bool then ret tt else open_with_fallback rest (S k) device
  end.

Definition start_recording : M unit :=
  self <- read (fun c => c) ;;
  if is_recording self then log Warning []
  else
    log Info [] ;;
    log Info [FInt (sample_rate self); FInt (channels self)] ;;
    log Info [FInt (input_sample_rate self)] ;;
    log Info [FInt (chunk_size self)] ;;
    log Info [] ;;
    catch
      (call PaInit (pa_init w) ;;
       modify (set_pyaudio_instance (Some tt)) ;;
       input_device_index <- Devices.find_best_microphone w ;;
       match input_device_index with
       | Some i =>
           device_info <- lift (get_device_info_by_index w i) ;;
           log Info [FStr (name device_info); FInt (Z.of_nat i)] ;;
           r <- read input_sample_rate ;;
           log Info [FInt r]
       | None =>
           log Info [] ;;
           r <- read input_sample_rate ;;
           log Info [FInt r]
       end ;;
       r <- read input_sample_rate ;;
       open_with_fallback (fallback_rates r) 0 input_device_index ;;
       s <- read audio_stream ;;
       match s with
       | Some _ => call StreamStart (start_stream w)
       | None => raise AttributeError
       end ;;
       modify (set_is_recording true) ;;
       log Info [] ;;
       log Info [])
      (fun e =>
         log Error [FExn e] ;;
         self <- read (fun c => c) ;;
         when (is_windows self) (log Error [] ;; log Error [] ;; log Error [] ;; log Error []) ;;
         raise e).

Definition stop_recording : M unit :=
  self <- read (fun c => c) ;;
  if negb (is_recording self) then ret tt
  else
    log Info [] ;;
    modify (set_is_recording false) ;;
    catch
      (self <- read (fun c => c) ;;
       match audio_stream self with
       | Some _ =>
           call StreamStop (stop_stream w) ;;
           call StreamClose (close_stream w) ;;
           modify (set_audio_stream None)
       | None => ret tt
       end ;;
       self <- read (fun c => c) ;;
       match pyaudio_instance self with
       | Some _ =>
           call PaTerminate (terminate w) ;;
           modify (set_pyaudio_instance None)
       | None => ret tt
       end ;;
       self <- read (fun c => c) ;;
       when (is_connected self)
            (call (Emit "streamEnd") (sio_emit w "streamEnd") ;; log Info []) ;;
       log Info [])
      (fun e => log Error [FExn e]).

End WithWorld.

End Capture.

(** ** Transport Session: the socket handlers, [connect], [disconnect] *)

Module Transport.

Import PyStr PyVal Client.
Open Scope string_scope.
Open Scope list_scope.
Open Scope Z_scope.
Open Scope m_scope.

(** The [connect], [connect_error] and [disconnect] handlers (both
    namespaces do the same). *)
Definition on_connect : M unit :=
  log Info [] ;; log Info [] ;; modify (set_is_connected true).

Definition on_connect_error (data : string) : M unit :=
  log Error [FStr data] ;; modify (set_is_connected false).

Definition on_disconnect : M unit :=
  log Info [] ;; modify (set_is_connected false).

(** One option of [sttOptions] as its query value. *)
Definition query_value (key : string) (value : pyval) : string :=
  match value with
  | VList items => join "," (map str items)
  | VDict _ => if String.eqb key "tags" then json_dumps value else str value
  | _ => str value
  end.

(** The loop filling [query_params]. *)
Definition build_query_params (stt_options : list (string * pyval))
  : list (string * string) :=
  fold_left (fun query_params kv => setitem query_params (fst kv) (query_value (fst kv) (snd kv)))
            stt_options [].

Definition stt_options_of (cfg : session_config) : list (string * pyval) :=
  match sttOptions cfg with Some d => d | None => [] end.

Definition query_string (cfg : session_config) : string :=
  urlencode (build_query_params (stt_options_of cfg)).

Definition server_url (cfg : session_config) : string :=
  (serverUrl cfg ++ "/listen")%string.

Definition full_url (cfg : session_config) : string :=
  (server_url cfg ++ "?" ++ query_string cfg)%string.

(** The arguments of [sio.connect]. *)
Definition request (cfg : session_config) : connect_request :=
  {| url := full_url cfg;
     namespaces := ["/listen"];
     socketio_path := "/v1/socket.io";
     transports := ["websocket"];
     auth := [("token", apiKey cfg)] |}.

Section WithWorld.

Variable w : world.

Definition connect : M unit :=
  log Info [] ;;
  modify (set_loop (Some tt)) ;;
  catch
    (cfg <- read config ;;
     log Info [FStr (server_url cfg)] ;;
     log Info [FStr (full_url cfg)] ;;
     log Info [FStr (take 10 (apiKey cfg))] ;;
     log Info [FStr (repr (VDict (map (fun kv => (fst kv, VStr (snd kv)))
                                      (build_query_params (stt_options_of cfg)))))] ;;
     call (SioConnect (request cfg)) (sio_connect w (request cfg)) ;;
     log Info [])
    (fun e => log Error [FExn e] ;; raise e).

Definition disconnect : M unit :=
  log Info [] ;;
  Capture.stop_recording w ;;
  self <- read (fun c => c) ;;
  when (is_connected self) (call SioDisconnect (sio_disconnect w)) ;;
  log Info [].

End WithWorld.

End Transport.

(** ** Result Presenter: [_handle_speech_result] *)

Module Presenter.

Import PyStr PyVal.
Open Scope string_scope.
Open Scope list_scope.

(** What was written to standard output, and how the call ended. *)
Definition out : Type := res unit * list string.

Definition print_end (s end_ : string) : out := (Ok tt, [(s ++ end_)%string]).
Definition print (s : string) : out := print_end s (char "010").
Definition skip : out := (Ok tt, []).
Definition fail (e : exn) : out := (Raise e, []).

Definition then_ (a b : out) : out :=
  match a with
  | (Ok _, la) => (fst b, la ++ snd b)
  | (Raise e, la) => (Raise e, la)
  end.

Definition with_value (r : res pyval) (k : pyval -> out) : out :=
  match r with
  | Ok v => k v
  | Raise e => fail e
  end.

Declare Scope out_scope.
Delimit Scope out_scope with out.
Notation "a ;> b" := (then_ a b) (at level 62, right associativity) : out_scope.
Open Scope out_scope.

(** The glyphs of the messages, as the UTF-8 bytes standard output gets. *)
Definition glyph_refresh : string :=
  String "240" (String "159" (String "148" (String "132" EmptyString))).
Definition glyph_sparkles : string :=
  String "226" (String "156" (String "168" EmptyString)).
Definition glyph_rule : string :=
  String "226" (String "148" (String "128" EmptyString)).

Definition quoted (s : string) : string := (char dq ++ s ++ char dq)%string.

Definition sentinel : pyval := VStr "N/A".

Definition confidence_line (confidence : pyval) : string :=
  ("   Confidence: " ++ str (py_or confidence sentinel))%string.

Definition duration_line (duration : pyval) : string :=
  ("   Duration: " ++ str (py_or duration sentinel) ++ "ms")%string.

Definition print_translation (translation : pyval) : out :=
  with_value (subscript translation "to") (fun to =>
  with_value (subscript translation "text") (fun text =>
  print ("     " ++ str to ++ ": " ++ quoted (str text))%string)).

Fixpoint print_translations (l : list pyval) : out :=
  match l with
  | [] => skip
  | t :: rest => print_translation t ;> print_translations rest
  end.

Definition handle_speech_result (data : list (string * pyval)) : out :=
  let status := get data "status" in
  let message_id := get data "messageId" in
  let text := get_default data "text" (VStr "") in
  let confidence := get data "confidence" in
  let duration := get data "duration" in
  if py_eq status (VStr "recognizing") then
    print_end (char "013" ++ glyph_refresh ++ " Recognizing: " ++ str (py_or text (VStr "...")))%string ""
  else if py_eq status (VStr "recognized") then
    print (char "010" ++ glyph_sparkles ++ " Final Result [" ++ str message_id ++ "]:")%string ;>
    print ("   Text: " ++ quoted (str text))%string ;>
    print (confidence_line confidence) ;>
    print (duration_line duration) ;>
    (if truthy (get data "translations") then
       print "   Translations:" ;>
       match iterate (get data "translations") with
       | Ok l => print_translations l
       | Raise e => fail e
       end
     else skip) ;>
    (if truthy (get data "sentiment") then
       let sentiment := get data "sentiment" in
       with_value (subscript sentiment "label") (fun label =>
       with_value (subscript sentiment "score") (fun score =>
       print ("   Sentiment: " ++ str label ++ " (" ++ str score ++ ")")%string))
     else skip) ;>
    (if truthy (get data "redactedText") && negb (py_eq (get data "redactedText") text) then
       print ("   Redacted: " ++ quoted (str (get data "redactedText")))%string
     else skip) ;>
    print (repeat_str glyph_rule 60)
  else skip.

End Presenter.

(** ** What the theorems observe *)

Module Observe.

Import PyStr PyVal Client.
Open Scope string_scope.
Open Scope list_scope.
Open Scope Z_scope.

(** Runs a method body down to its result, client and calls. *)
Ltac run :=
  unfold result, after, calls, bind, catch, when, log, tell, read, modify, lift,
    call, ret, raise in *;
  cbn [fst snd app] in *.

(** [lo, lo+1, ..., lo+n-1]. *)
Fixpoint zrange (lo : Z) (n : nat) : list Z :=
  match n with
  | O => []
  | S n' => lo :: zrange (lo + 1) n'
  end.

(** The frames handed to the transport as [audioStream] emissions. *)
Fixpoint scheduled (t : list event) : list (list byte) :=
  match t with
  | [] => []
  | Schedule _ _ payload :: rest => payload :: scheduled rest
  | _ :: rest => scheduled rest
  end.

(** The rates [open] was called with, in order. *)
Fixpoint opens (t : list event) : list Z :=
  match t with
  | [] => []
  | PaOpen rate _ :: rest => rate :: opens rest
  | _ :: rest => opens rest
  end.

Definition is_log (e : event) : bool :=
  match e with Log _ _ => true | _ => false end.

(** The calls other than log records. *)
Definition io (t : list event) : list event := filter (fun e => negb (is_log e)) t.

(** The requests [sio.connect] was called with. *)
Fixpoint requests (t : list event) : list connect_request :=
  match t with
  | [] => []
  | SioConnect req :: rest => req :: requests rest
  | _ :: rest => requests rest
  end.

(** Whether the audio thread can hand a frame to the event loop. *)
Definition can_schedule (w : world) (self : client) : bool :=
  if is_windows self && Capture.some (loop self) then loop_open w
  else thread_has_loop w.

(** The shutdown sequence of the code, and the one the specification
    words: stop, end of stream, disconnect, release. *)
Definition shutdown_steps : list event :=
  [StreamStop; StreamClose; PaTerminate; Emit "streamEnd"].

Definition specified_shutdown : list event :=
  [StreamStop; Emit "streamEnd"; SioDisconnect; StreamClose; PaTerminate].

(** The serialization the specification words: by the value's shape only. *)
Definition value_by_shape (value : pyval) : string :=
  match value with
  | VList items => join "," (map str items)
  | VDict _ => json_dumps value
  | _ => str value
  end.

(** The rate [_find_best_microphone] settles on for a device. *)
Definition chosen_rate (old : Z) (rates : list Z) : Z :=
  if Devices.mem 44100 rates then 44100
  else if Devices.mem 48000 rates then 48000
  else match rates with r :: _ => r | [] => old end.

Definition is_dict (v : pyval) : bool :=
  match v with VDict _ => true | _ => false end.

Definition with_api_key (k : string) (cfg : session_config) : session_config :=
  {| serverUrl := serverUrl cfg; apiKey := k;
     sttOptions := sttOptions cfg; chunkSize := chunkSize cfg |}.

(** [CONFIG] of the script. *)
Definition CONFIG : session_config :=
  {| serverUrl := "wss://sdk.verbum.ai";
     apiKey := "API_KEY";
     sttOptions :=
       Some [("language", VStr "es-MX");
             ("encoding", VStr "PCM");
             ("sampleRate", VInt 8000);
             ("tags", VStr (json_dumps (VDict [("session", VStr "microphone-demo")])))];
     chunkSize := 1024 |}.

(** A world in which every call succeeds and no device is listed. *)
Definition calm : world :=
  {| loop_open := true;
     thread_has_loop := true;
     pa_init := Ok tt;
     get_device_count := Ok 0%nat;
     get_device_info_by_index := fun _ => Raise OSError;
     is_format_supported := fun _ _ => Ok false;
     pa_open := fun _ _ _ => Ok tt;
     start_stream := Ok tt;
     stop_stream := Ok tt;
     close_stream := Ok tt;
     terminate := Ok tt;
     sio_connect := fun _ => Ok tt;
     sio_emit := fun _ => Ok tt;
     sio_disconnect := Ok tt |}.

(** A client that is connected and recording on an open stream. *)
Definition live (windows : bool) : client :=
  set_loop (Some tt)
    (set_is_connected true
       (set_is_recording true
          (set_audio_stream
             (Some {| stream_rate := 44100; stream_device := None; stream_frames := 512 |})
             (set_pyaudio_instance (Some tt) (init CONFIG windows))))).

(** The call that carries a frame to the event loop. *)
Definition route (self : client) : scheduler :=
  if is_windows self && Capture.some (loop self) then CallSoonThreadsafe else CreateTask.

(** The fallback the specification words: the rates in order, up to and
    including the first one accepted; failure only when none is. *)
Fixpoint specified_open (w : world) (device : option nat) (rates : list Z) (k : nat)
  : list Z * option Z :=
  match rates with
  | [] => ([], None)
  | r :: rest =>
      match pa_open w k r device with
      | Ok _ => ([r], Some r)
      | Raise _ =>
          let '(tried, accepted) := specified_open w device rest (S k) in
          (r :: tried, accepted)
      end
  end.

(** How far the stop sequence gets: the number of steps attempted. *)
Definition reached (w : world) : nat :=
  if negb (is_ok (stop_stream w)) then 1
  else if negb (is_ok (close_stream w)) then 2
  else if negb (is_ok (terminate w)) then 3
  else 4.

(** The same client configured with another API key. *)
Definition rekey (k : string) (c : client) : client :=
  {| config := with_api_key k (config c); is_connected := is_connected c;
     is_recording := is_recording c;
     audio_stream := audio_stream c; pyaudio_instance := pyaudio_instance c;
     loop := loop c; audio_queue := audio_queue c; sample_rate := sample_rate c;
     channels := channels c; sample_width := sample_width c;
     chunk_size := chunk_size c; input_sample_rate := input_sample_rate c;
     is_windows := is_windows c; frames_per_buffer := frames_per_buffer c |}.

(** [calm] with the event loop closed. *)
Definition closed_loop : world :=
  {| loop_open := false;
     thread_has_loop := thread_has_loop calm;
     pa_init := pa_init calm;
     get_device_count := get_device_count calm;
     get_device_info_by_index := get_device_info_by_index calm;
     is_format_supported := is_format_supported calm;
     pa_open := pa_open calm;
     start_stream := start_stream calm;
     stop_stream := stop_stream calm;
     close_stream := close_stream calm;
     terminate := terminate calm;
     sio_connect := sio_connect calm;
     sio_emit := sio_emit calm;
     sio_disconnect := sio_disconnect calm |}.

(** [calm] seen from a thread that runs no event loop. *)
Definition no_loop_in_thread : world :=
  {| loop_open := loop_open calm;
     thread_has_loop := false;
     pa_init := pa_init calm;
     get_device_count := get_device_count calm;
     get_device_info_by_index := get_device_info_by_index calm;
     is_format_supported := is_format_supported calm;
     pa_open := pa_open calm;
     start_stream := start_stream calm;
     stop_stream := stop_stream calm;
     close_stream := close_stream calm;
     terminate := terminate calm;
     sio_connect := sio_connect calm;
     sio_emit := sio_emit calm;
     sio_disconnect := sio_disconnect calm |}.

(** One input device, probed as supporting the given rates, while [open]
    accepts the rate 44100 only. *)
Definition one_device (probed : list Z) : world :=
  {| loop_open := true;
     thread_has_loop := true;
     pa_init := Ok tt;
     get_device_count := Ok 1%nat;
     get_device_info_by_index := fun _ =>
       Ok {| name := "USB Audio"; maxInputChannels := 1; defaultSampleRate := 16000%float |};
     is_format_supported := fun rate _ => Ok (Devices.mem rate probed);
     pa_open := fun _ rate _ => if rate =? 44100 then Ok tt else Raise OSError;
     start_stream := Ok tt;
     stop_stream := Ok tt;
     close_stream := Ok tt;
     terminate := Ok tt;
     sio_connect := fun _ => Ok tt;
     sio_emit := fun _ => Ok tt;
     sio_disconnect := Ok tt |}.

End Observe.

(** ** Further observations *)

Module Ranking.

Import Devices.

(** The better of the best device so far and the next one: the next
    one wins only with a strictly larger key. *)
Definition pick (best : option candidate) (x : candidate) : option candidate :=
  match best with
  | None => Some x
  | Some b => if key_lt (key b) (key x) then Some x else Some b
  end.

Definition first_best (l : list candidate) : option candidate :=
  fold_left pick l None.

(** Device indices grow along the list. *)
Fixpoint increasing (l : list candidate) : Prop :=
  match l with
  | [] => True
  | x :: rest => (forall d, In d rest -> (index x < index d)%nat) /\ increasing rest
  end.

End Ranking.

Module Shapes.

Import PyStr PyVal Client Presenter.
Open Scope string_scope.
Open Scope list_scope.

(** A translation entry the presenter can print: a dict with the keys
    [to] and [text]. *)
Definition well_formed_translation (t : pyval) : Prop :=
  exists d to text,
    t = VDict d /\ lookup "to" d = Some to /\ lookup "text" d = Some text.

Definition ill_formed_translation (t : pyval) (e : exn) : Prop :=
  subscript t "to" = Raise e \/
  (exists to, subscript t "to" = Ok to /\ subscript t "text" = Raise e).

(** A sentiment the presenter can print: a dict with [label] and [score]. *)
Definition well_formed_sentiment (v : pyval) : Prop :=
  exists d label score,
    v = VDict d /\ lookup "label" d = Some label /\ lookup "score" d = Some score.

(** A printed line: the text and a line feed. *)
Definition line (s : string) : string := (s ++ char "010")%string.

(** The line printed for a translation entry. *)
Definition translation_line (t : pyval) : string :=
  match subscript t "to", subscript t "text" with
  | Ok to, Ok text => line ("     " ++ str to ++ ": " ++ quoted (str text))
  | _, _ => ""
  end.

(** The last line of a complete block. *)
Definition rule_line : string := line (repeat_str glyph_rule 60).

(** The first four lines of the block of a final result. *)
Definition head_lines (data : list (string * pyval)) : list string :=
  [line (char "010" ++ glyph_sparkles ++ " Final Result [" ++ str (get data "messageId") ++ "]:");
   line ("   Text: " ++ quoted (str (get_default data "text" (VStr ""))));
   line (confidence_line (get data "confidence"));
   line (duration_line (get data "duration"))].

(** Characters a query string may hold besides the separators. *)
Definition url_safe (c : ascii) : bool :=
  unreserved (code c) || Ascii.eqb c "%" || Ascii.eqb c "+".

Fixpoint all_chars (f : ascii -> bool) (s : string) : bool :=
  match s with
  | EmptyString => true
  | String c rest => f c && all_chars f rest
  end.

Definition is_open (e : event) : bool :=
  match e with PaOpen _ _ => true | _ => false end.

(** The calls that give audio resources back. *)
Definition is_release (e : event) : bool :=
  match e with
  | StreamStop => true
  | StreamClose => true
  | PaTerminate => true
  | _ => false
  end.

Definition keeps_resources (e : event) : bool := negb (is_release e).

(** A character of a query string: an encoded one or a separator. *)
Definition query_char (c : ascii) : bool :=
  url_safe c || Ascii.eqb c "&" || Ascii.eqb c "=".

Fixpoint count_emits (t : list event) : nat :=
  match t with
  | [] => 0
  | Emit _ :: rest => S (count_emits rest)
  | _ :: rest => count_emits rest
  end.

(** Closes goals about a trace that has been computed. *)
Ltac settle :=
  repeat split; intros; cbn in *; try lia; try discriminate; try reflexivity;
  repeat match goal with
         | H : _ \/ _ |- _ => destruct H
         | H : False |- _ => destruct H
         end;
  try discriminate; try lia; auto 10.



(** Two input devices: a built-in microphone, then a webcam of the
    preferred brand that accepts 16000 Hz only. *)
Definition two_devices : world :=
  {| loop_open := true;
     thread_has_loop := true;
     pa_init := Ok tt;
     get_device_count := Ok 2%nat;
     get_device_info_by_index := fun i =>
       Ok {| name := if Nat.eqb i 0 then "Built-in Microphone" else "Logitech Webcam";
             maxInputChannels := 2;
             defaultSampleRate := 44100%float |};
     is_format_supported := fun rate i =>
       Ok (if Nat.eqb i 0 then Devices.mem rate [44100; 48000] else rate =? 16000)%Z;
     pa_open := fun _ _ _ => Ok tt;
     start_stream := Ok tt;
     stop_stream := Ok tt;
     close_stream := Ok tt;
     terminate := Ok tt;
     sio_connect := fun _ => Ok tt;
     sio_emit := fun _ => Ok tt;
     sio_disconnect := Ok tt |}.

End Shapes.

Module Logic.

Import Client.

(** What holds of a run of [m] from the client [c]: a postcondition on
    its result, the client after and the calls made. *)
Definition post {A} (m : M A) (c : client)
  (Q : res A -> client -> list event -> Prop) : Prop :=
  Q (result (m c)) (after (m c)) (calls (m c)).

End Logic.

(** ** Orchestrator: the socket handlers at the await points, [main] *)

Module Orchestrator.

Import PyStr PyVal Client.
Open Scope string_scope.
Open Scope list_scope.
Open Scope Z_scope.

(** What the event loop runs while [main] is suspended at an [await]:
    one of the handlers of [_setup_event_handlers] (the handlers of the
    default namespace and of [/listen] do the same), or the
    [signal_handler] of [main] for a signal it was registered for.  A
    signal that arrives while [main] runs is taken with the batch of the
    next [await]: the handler only prints and sets the event, which
    [main] reads in its wait loop alone.  The callbacks of the capture
    thread are not among the happenings: [_audio_callback] leaves the
    client as it is. *)
Inductive happening : Type :=
| Connected
| ConnectError (data : string)
| Disconnected
| SpeechRecognized (data : list (string * pyval))
| SocketError (data : pyval)
| Message (data : pyval)
| Signal.

(** The program while [main] runs: the client object, the
    [shutdown_event], what was printed, and what is still to happen, one
    batch for each [await] that suspends. *)
Record app : Type := {
  instance : client;
  shutdown_event : bool;
  stdout : list string;
  pending : list (list happening)
}.

Definition with_instance (c : client) (s : app) : app :=
  {| instance := c; shutdown_event := shutdown_event s;
     stdout := stdout s; pending := pending s |}.

Definition with_shutdown_event (b : bool) (s : app) : app :=
  {| instance := instance s; shutdown_event := b;
     stdout := stdout s; pending := pending s |}.

Definition with_stdout (l : list string) (s : app) : app :=
  {| instance := instance s; shutdown_event := shutdown_event s;
     stdout := l; pending := pending s |}.

Definition with_pending (p : list (list happening)) (s : app) : app :=
  {| instance := instance s; shutdown_event := shutdown_event s;
     stdout := stdout s; pending := p |}.

(** A coroutine: as a method, on the whole program; [None] when it does
    not return. *)
Definition P (A : Type) : Type := app -> option (res A * app * list event).

Definition done {A} (a : A) : P A := fun s => Some (Ok a, s, []).
Definition throw {A} (e : exn) : P A := fun s => Some (Raise e, s, []).
Definition never {A} : P A := fun _ => None.

Definition next {A B} (m : P A) (k : A -> P B) : P B :=
  fun s =>
    match m s with
    | Some (Ok a, s1, t1) =>
        match k a s1 with
        | Some (r, s2, t2) => Some (r, s2, t1 ++ t2)
        | None => None
        end
    | Some (Raise e, s1, t1) => Some (Raise e, s1, t1)
    | None => None
    end.

(** [try: m  except Exception as e: handler e]. *)
Definition try_except {A} (m : P A) (handler : exn -> P A) : P A :=
  fun s =>
    match m s with
    | Some (Ok a, s1, t1) => Some (Ok a, s1, t1)
    | Some (Raise e, s1, t1) =>
        match handler e s1 with
        | Some (r, s2, t2) => Some (r, s2, t1 ++ t2)
        | None => None
        end
    | None => None
    end.

(** [try: m  finally: cleanup]: the cleanup runs however [m] ended; an
    exception of the cleanup replaces the outcome of [m]. *)
Definition try_finally {A} (m : P A) (cleanup : P unit) : P A :=
  fun s =>
    match m s with
    | Some (r, s1, t1) =>
        match cleanup s1 with
        | Some (Ok _, s2, t2) => Some (r, s2, t1 ++ t2)
        | Some (Raise e, s2, t2) => Some (Raise e, s2, t1 ++ t2)
        | None => None
        end
    | None => None
    end.

(** A piece of code without [await], run on the client. *)
Definition method {A} (m : M A) : P A :=
  fun s =>
    match m (instance s) with
    | (r, c, t) => Some (r, with_instance c s, t)
    end.

Definition get : P app := fun s => Some (Ok s, s, []).

(** What [print] calls write. *)
Definition write (chunks : list string) : P unit :=
  fun s => Some (Ok tt, with_stdout (stdout s ++ chunks) s, []).

Definition print (text : string) : P unit := write [(text ++ char "010")%string].

Definition branch (b : bool) (m : P unit) : P unit := if b then m else done tt.

Declare Scope p_scope.
Delimit Scope p_scope with P.
Notation "x <- a ;; b" := (next a (fun x => b))
  (at level 61, a at next level, right associativity) : p_scope.
Notation "a ;; b" := (next a (fun _ => b))
  (at level 61, right associativity) : p_scope.
Open Scope p_scope.

Definition glyph_rocket : string :=
  String "240" (String "159" (String "154" (String "128" EmptyString))).
Definition glyph_phone : string :=
  String "240" (String "159" (String "147" (String "177" EmptyString))).
Definition glyph_bulb : string :=
  String "240" (String "159" (String "146" (String "161" EmptyString))).
Definition glyph_stop : string :=
  String "240" (String "159" (String "155" (String "145" EmptyString))).

(** [json.dumps(v, indent=2)]. *)
Definition newline_indent (depth : nat) : string :=
  (char "010" ++ repeat_str " " (2 * depth))%string.

Fixpoint json_dumps_indent (depth : nat) (v : pyval) : string :=
  match v with
  | VList items =>
      match items with
      | [] => "[]"
      | _ =>
          ("[" ++ newline_indent (S depth) ++
           join ("," ++ newline_indent (S depth)) (map (json_dumps_indent (S depth)) items) ++
           newline_indent depth ++ "]")%string
      end
  | VDict items =>
      match items with
      | [] => "{}"
      | _ =>
          ("{" ++ newline_indent (S depth) ++
           join ("," ++ newline_indent (S depth))
                (map (fun kv => json_str (fst kv) ++ ": " ++ json_dumps_indent (S depth) (snd kv))
                     items) ++
           newline_indent depth ++ "}")%string
      end
  | _ => json_dumps v
  end.

(** The [speechRecognized] handler. *)
Definition speechRecognized (data : list (string * pyval)) : P unit :=
  method (log Info [FStr (json_dumps_indent 0 (VDict data))]) ;;
  match Presenter.handle_speech_result data with
  | (Ok _, printed) => write printed
  | (Raise e, printed) => write printed ;; throw e
  end.

(** The [signal_handler] of [main]. *)
Definition signal_handler : P unit :=
  print (char "010" ++ char "010" ++ glyph_stop ++ " Shutting down gracefully...")%string ;;
  fun s => Some (Ok tt, with_shutdown_event true s, []).

Definition handler_of (h : happening) : P unit :=
  match h with
  | Connected => method Transport.on_connect
  | ConnectError data => method (Transport.on_connect_error data)
  | Disconnected => method Transport.on_disconnect
  | SpeechRecognized data => speechRecognized data
  | SocketError data => method (log Error [FStr (str data)])
  | Message data => method (log Info [FStr (str data)])
  | Signal => signal_handler
  end.

(** The event loop runs a handler in a task of its own: what the
    handler raises does not reach [main]. *)
Definition dispatch (h : happening) : P unit :=
  try_except (handler_of h) (fun _ => done tt).

Fixpoint run_batch (batch : list happening) : P unit :=
  match batch with
  | [] => done tt
  | h :: rest => dispatch h ;; run_batch rest
  end.

(** [main] is suspended: the next batch happens. *)
Definition suspend : P unit :=
  fun s =>
    match pending s with
    | [] => Some (Ok tt, s, [])
    | batch :: rest => run_batch batch (with_pending rest s)
    end.

(** [await] of a call on the outside world: the call is made, [main] is
    suspended, the answer arrives. *)
Definition await {A} (e : event) (answer : res A) : P A :=
  method (tell e) ;; suspend ;; method (lift answer).

Section WithWorld.

Variable w : world.

Definition connect : P unit :=
  method (log Info [] ;; modify (set_loop (Some tt)))%M ;;
  try_except
    (cfg <- method (read config) ;;
     method (log Info [FStr (Transport.server_url cfg)] ;;
             log Info [FStr (Transport.full_url cfg)] ;;
             log Info [FStr (take 10 (apiKey cfg))] ;;
             log Info [FStr (repr (VDict (map (fun kv => (fst kv, VStr (snd kv)))
                                              (Transport.build_query_params
                                                 (Transport.stt_options_of cfg)))))])%M ;;
     await (SioConnect (Transport.request cfg)) (sio_connect w (Transport.request cfg)) ;;
     method (log Info []))
    (fun e => method (log Error [FExn e]) ;; throw e).

Definition stop_recording : P unit :=
  s <- get ;;
  if negb (is_recording (instance s)) then done tt
  else
    method (log Info [] ;; modify (set_is_recording false))%M ;;
    try_except
      (method (self <- read (fun c => c) ;;
               match audio_stream self with
               | Some _ =>
                   call StreamStop (stop_stream w) ;;
                   call StreamClose (close_stream w) ;;
                   modify (set_audio_stream None)
               | None => ret tt
               end ;;
               self <- read (fun c => c) ;;
               match pyaudio_instance self with
               | Some _ =>
                   call PaTerminate (terminate w) ;;
                   modify (set_pyaudio_instance None)
               | None => ret tt
               end)%M ;;
       s <- get ;;
       branch (is_connected (instance s))
              (await (Emit "streamEnd") (sio_emit w "streamEnd") ;; method (log Info [])) ;;
       method (log Info []))
      (fun e => method (log Error [FExn e])).

Definition disconnect : P unit :=
  method (log Info []) ;;
  stop_recording ;;
  s <- get ;;
  branch (is_connected (instance s)) (await SioDisconnect (sio_disconnect w)) ;;
  method (log Info []).

(** The loop of [main]: one round for each [wait_for], which returns
    when the event is set and times out otherwise. *)
Fixpoint wait_for_shutdown (rounds : nat) : P unit :=
  match rounds with
  | O => never
  | S rounds' =>
      s <- get ;;
      if is_connected (instance s) && is_recording (instance s)
         && negb (shutdown_event s) then
        suspend ;;
        s <- get ;;
        if shutdown_event s then done tt else wait_for_shutdown rounds'
      else done tt
  end.

(** [main] after the client and the event are created; [system] is
    [platform.system()].  The [return] of the not-connected branch
    leaves the [try] for the [finally] clause, as the end of the body
    does.  With [signal_handler] registered for SIGINT, no
    [KeyboardInterrupt] is raised in [main]: that clause has no run. *)
Definition main_body (system : string) (rounds : nat) : P unit :=
  try_finally
    (try_except
       (connect ;;
        suspend ;;
        s <- get ;;
        if negb (is_connected (instance s)) then
          method (log Error [] ;; log Error [] ;; log Error [] ;; log Error [] ;;
                  log Error [])%M
        else
          method (Capture.start_recording w) ;;
          print (char "010" ++ glyph_bulb ++ " Press Ctrl+C to stop recording and exit")%string ;;
          wait_for_shutdown rounds)
       (fun error =>
          method (log Error [FExn error]) ;;
          branch (String.eqb system "Windows")
                 (method (log Error [] ;; log Error [] ;; log Error [] ;; log Error [])%M)))
    disconnect.

Definition main (system : string) (rounds : nat) (script : list (list happening))
  : option (res unit * app * list event) :=
  (print (glyph_rocket ++ " WebSocket Speech-to-Text Microphone Example")%string ;;
   print (glyph_phone ++ " Platform: " ++ system)%string ;;
   print (repeat_str "=" 60) ;;
   main_body system rounds)
    {| instance := init Observe.CONFIG (String.eqb system "Windows");
       shutdown_event := false;
       stdout := [];
       pending := script |}.

End WithWorld.

End Orchestrator.

(** ** What the theorems observe of [main] *)

Module Outcome.

Import Client Orchestrator.
Open Scope list_scope.

(** What holds of a coroutine when it returns; with [total], it also
    says that the coroutine returns. *)
Definition ends {A} (total : bool) (m : P A) (s : app)
  (Q : res A -> app -> list event -> Prop) : Prop :=
  match m s with
  | Some (r, s', t) => Q r s' t
  | None => total = false
  end.

(** The connection flag after a handler, from the flag before. *)
Definition link (b : bool) (h : happening) : bool :=
  match h with
  | Connected => true
  | ConnectError _ => false
  | Disconnected => false
  | _ => b
  end.

Definition linked (batch : list happening) (b : bool) : bool := fold_left link batch b.

(** The connection flag a fresh client has after the first two batches:
    those of [sio.connect] and of the settle delay. *)
Definition settled (script : list (list happening)) : bool :=
  linked (hd [] (tl script)) (linked (hd [] script) false).

Definition is_signal (h : happening) : bool :=
  match h with Signal => true | _ => false end.

(** The event is set, or a signal is still to come. *)
Definition signal_due (s : app) : Prop :=
  shutdown_event s = true \/ existsb (existsb is_signal) (pending s) = true.

(** A batch after which the client is flagged disconnected, whatever
    the flag was: its last connection handler is not [connect]. *)
Definition drops (batch : list happening) : bool := negb (linked batch true).

(** A batch that ends the wait loop of [main]. *)
Definition leaving (batch : list happening) : bool :=
  existsb is_signal batch || drops batch.

(** The wait loop is sure to be left: the client is flagged
    disconnected, the event is set, or a batch that ends the loop is
    still to come. *)
Definition exit_due (s : app) : Prop :=
  is_connected (instance s) = false \/
  shutdown_event s = true \/
  existsb leaving (pending s) = true.

(** What the handlers leave of the client: all but the connection
    flag, the attributes of the capture among them. *)
Definition same_capture (c c' : client) : Prop :=
  is_recording c' = is_recording c /\
  audio_stream c' = audio_stream c /\
  pyaudio_instance c' = pyaudio_instance c /\
  c' = set_is_connected (is_connected c') c.

(** The client when [main] calls [start_recording]: created by
    [__init__], with the loop [connect] recorded, flagged connected. *)
Definition ready (c : client) : client :=
  set_is_connected true (set_loop (Some tt) c).

(** The calls on the audio library. *)
Definition audio_call (e : event) : bool :=
  match e with
  | PaInit => true
  | PaOpen _ _ => true
  | StreamStart => true
  | StreamStop => true
  | StreamClose => true
  | PaTerminate => true
  | _ => false
  end.

(** The calls of [connect]. *)
Definition connect_call (e : event) : bool :=
  match e with
  | Log _ _ => true
  | SioConnect _ => true
  | _ => false
  end.

(** The calls [main] makes before the shutdown. *)
Definition body_call (e : event) : bool :=
  match e with
  | Log _ _ => true
  | SioConnect _ => true
  | PaInit => true
  | PaOpen _ _ => true
  | StreamStart => true
  | _ => false
  end.

(** The calls of a shutdown. *)
Definition shutdown_call (e : event) : bool :=
  match e with
  | Log _ _ => true
  | StreamStop => true
  | StreamClose => true
  | PaTerminate => true
  | Emit _ => true
  | SioDisconnect => true
  | _ => false
  end.

(** The calls of the loop over the candidate rates. *)
Definition open_call (e : event) : bool :=
  match e with
  | Log _ _ => true
  | PaOpen _ _ => true
  | _ => false
  end.

(** The calls of a start of the capture. *)
Definition start_call (e : event) : bool :=
  match e with
  | Log _ _ => true
  | PaInit => true
  | PaOpen _ _ => true
  | StreamStart => true
  | _ => false
  end.

(** [main] goes on to start the capture: [sio.connect] returned and,
    after the batches of [sio.connect] and of the settle delay, the
    client [c] is flagged connected. *)
Definition capture_due (w : world) (c : client) (script : list (list happening)) : Prop :=
  sio_connect w (Transport.request (config c)) = Ok tt /\
  linked (hd [] (tl script)) (linked (hd [] script) (is_connected c)) = true.

(** The shape of a run of [main] from the client [c]: the calls before
    the shutdown, then those of the shutdown; [started] tells whether
    the capture was started. *)
Definition main_shape (w : world) (c : client) (script : list (list happening))
  (r : res unit) (s' : app) (t : list event) : Prop :=
  exists tb td (started : bool),
    t = tb ++ td /\
    forallb body_call tb = true /\
    forallb shutdown_call td = true /\
    is_recording (instance s') = false /\
    (r = Ok tt \/ (r = sio_disconnect w /\ In SioDisconnect td)) /\
    (In PaInit tb <-> capture_due w c script) /\
    (In PaInit tb \/ forallb connect_call tb = true) /\
    (started = true -> result (Capture.start_recording w (ready c)) = Ok tt) /\
    if started then
      In StreamStart tb /\ start_stream w = Ok tt /\ In StreamStop td
    else
      forallb Shapes.keeps_resources td = true /\
      (In PaInit tb -> pa_init w = Ok tt -> pyaudio_instance (instance s') = Some tt) /\
      (In StreamStart tb -> start_stream w <> Ok tt).

End Outcome.

(** * Properties *)

(** ** PCM encoding *)

Module PcmFacts.

Import Pcm.
Open Scope Z_scope.

Lemma wrap16_range (z : Z) : is_int16 (wrap16 z).
Proof.
  unfold is_int16, wrap16, int16_min, int16_max.
  pose proof (Z.mod_pos_bound (z + 32768) 65536 ltac:(lia)). lia.
Qed.

Lemma wrap16_id (z : Z) : is_int16 z -> wrap16 z = z.
Proof.
  unfold is_int16, wrap16, int16_min, int16_max. intros H.
  rewrite Z.mod_small by lia. lia.
Qed.

Lemma byte_to_Z_range (b : byte) : 0 <= byte_to_Z b <= 255.
Proof.
  unfold byte_to_Z. pose proof (Byte.to_N_bounded b). lia.
Qed.

Lemma byte_to_of_Z (z : Z) : byte_to_Z (byte_of_Z z) = z mod 256.
Proof.
  unfold byte_to_Z, byte_of_Z.
  pose proof (Z.mod_pos_bound z 256 ltac:(lia)) as Hb.
  destruct (Byte.of_N (Z.to_N (z mod 256))) as [b|] eqn:E.
  - apply Byte.to_of_N in E. rewrite E. apply Z2N.id. lia.
  - apply Byte.of_N_None_iff in E. lia.
Qed.

(** Decoding what was encoded gives the sample back. *)
Lemma sample_roundtrip (x : Z) :
  is_int16 x ->
  match bytes_of_sample x with
  | [lo; hi] => sample_of_bytes lo hi = x
  | _ => False
  end.
Proof.
  intros Hx. unfold bytes_of_sample, sample_of_bytes.
  rewrite !byte_to_of_Z, !Z.mod_mod by lia.
  assert (E : x mod 256 + 256 * ((x / 256) mod 256) = x mod 65536).
  { change 65536 with (256 * 256).
    rewrite (Z.rem_mul_r x 256 256) by lia. reflexivity. }
  rewrite E.
  unfold wrap16, is_int16, int16_min, int16_max in *.
  destruct (Z_lt_le_dec x 0) as [Hn|Hp].
  - replace (x mod 65536) with (x + 65536).
    + replace (x + 65536 + 32768) with (x + 32768 + 1 * 65536) by lia.
      rewrite Z.mod_add by lia. rewrite Z.mod_small by lia. lia.
    + apply Z.mod_unique with (q := -1); lia.
  - rewrite (Z.mod_small x) by lia. rewrite Z.mod_small by lia. lia.
Qed.

Lemma frombuffer_tobytes (xs : list Z) :
  Forall is_int16 xs -> frombuffer (tobytes xs) = Ok xs.
Proof.
  induction 1 as [|x xs Hx _ IH]; [reflexivity|].
  pose proof (sample_roundtrip x Hx) as R.
  unfold tobytes in *. cbn [flat_map]. unfold bytes_of_sample in *.
  cbn [app frombuffer]. rewrite IH, R. reflexivity.
Qed.

Lemma tobytes_length (xs : list Z) :
  List.length (tobytes xs) = (2 * List.length xs)%nat.
Proof.
  induction xs as [|x xs IH]; [reflexivity|].
  unfold tobytes in *. cbn [flat_map bytes_of_sample app List.length].
  rewrite IH. lia.
Qed.

Lemma frombuffer_even :
  forall (n : nat) (raw : list byte), (List.length raw <= n)%nat ->
    forall xs, frombuffer raw = Ok xs ->
      List.length raw = (2 * List.length xs)%nat /\ Forall is_int16 xs.
Proof.
  induction n as [|n IH]; intros raw Hn xs H.
  - destruct raw; [|cbn in Hn; lia]. cbn in H. injection H as <-. split; [reflexivity|constructor].
  - destruct raw as [|lo [|hi rest]].
    + cbn in H. injection H as <-. split; [reflexivity|constructor].
    + cbn in H. discriminate.
    + cbn [frombuffer] in H.
      destruct (frombuffer rest) as [ys|e] eqn:E; [|discriminate].
      injection H as <-.
      destruct (IH rest ltac:(cbn in Hn; lia) ys E) as [Hl Hf].
      split; [cbn [List.length]; lia|].
      constructor; [apply wrap16_range|exact Hf].
Qed.

Lemma frombuffer_ok (raw : list byte) (xs : list Z) :
  frombuffer raw = Ok xs ->
  List.length raw = (2 * List.length xs)%nat /\ Forall is_int16 xs.
Proof. apply (frombuffer_even (List.length raw)). lia. Qed.


End PcmFacts.

(** ** Audio Transformer *)

Module TransformerFacts.

Import PyNum Pcm Client Transformer Observe PcmFacts.
Open Scope Z_scope.

Lemma zrange_In (n : nat) :
  forall lo x, lo <= x < lo + Z.of_nat n -> In x (zrange lo n).
Proof.
  induction n as [|n IH]; intros lo x H.
  - lia.
  - cbn [zrange]. destruct (Z.eq_dec lo x) as [->|Hne]; [left; reflexivity|].
    right. apply IH. lia.
Qed.

Lemma saturate_range (z : Z) : is_int16 (saturate z).
Proof. unfold saturate, is_int16, int16_min, int16_max. lia. Qed.

(** Every int16 sample, one by one: the float computation agrees with
    exact arithmetic. *)
Lemma boost_table :
  forallb (fun x => boost x =? boost_exact x) (zrange (-32768) (Z.to_nat 65536)) = true.
Proof. vm_compute. reflexivity. Qed.

Lemma boost_is_exact (x : Z) : is_int16 x -> boost x = boost_exact x.
Proof.
  intros Hx. apply Z.eqb_eq.
  pose proof boost_table as T. rewrite forallb_forall in T. apply T.
  apply zrange_In. unfold is_int16, int16_min, int16_max in Hx.
  rewrite Z2Nat.id by lia. lia.
Qed.

Lemma boost_all_exact (xs : list Z) :
  Forall is_int16 xs -> map boost xs = map boost_exact xs.
Proof.
  induction 1 as [|x xs Hx _ IH]; [reflexivity|].
  cbn [map]. rewrite IH, (boost_is_exact x Hx). reflexivity.
Qed.

Lemma boost_exact_all_in_range (xs : list Z) : Forall is_int16 (map boost_exact xs).
Proof.
  induction xs as [|x xs IH]; cbn [map]; constructor; [apply saturate_range | exact IH].
Qed.


Section WithKernel.

Variable fourier : list Z -> nat -> nat -> float.



(** With equal rates every even-sized block is accepted as it is. *)
Lemma prepared_same_rate (self : client) (raw : list byte) (xs : list Z) :
  input_sample_rate self = sample_rate self ->
  frombuffer raw = Ok xs -> prepared fourier self raw = Ok xs.
Proof.
  intros Hr H. unfold prepared. rewrite H. cbn [rbind].
  rewrite Hr, Z.eqb_refl. reflexivity.
Qed.


(** C2, as the code has it.  With differing rates a non-empty block of
    [n] samples is resampled to [int(n * (target / source))] samples, the
    float product cut toward zero (not rounded); when that count [m] is
    positive the transform returns a frame of exactly [m] samples,
    [2 * m] bytes. *)
Theorem resampled_frame_length (self : client) (raw : list byte) (xs : list Z) (m : Z) :
  input_sample_rate self <> sample_rate self ->
  frombuffer raw = Ok xs ->
  xs <> [] ->
  resampled_length (Z.of_nat (List.length xs)) (input_sample_rate self) (sample_rate self)
    = Ok m ->
  0 < m ->
  exists out,
    process_audio_chunk fourier self raw = Ok out /\
    Z.of_nat (List.length out) = 2 * m.
Proof.
  intros Hr Hraw Hne Hm Hpos.
  unfold process_audio_chunk, prepared. rewrite Hraw. cbn [rbind].
  apply Z.eqb_neq in Hr. rewrite Hr. cbn [negb].
  unfold resample_audio. rewrite Hr, Hm. cbn [rbind].
  unfold scipy_resample.
  destruct xs as [|x xs']; [contradiction|].
  cbn [List.length Nat.eqb orb].
  destruct (m <=? 0) eqn:Em; [apply Z.leb_le in Em; lia|].
  cbn [rbind]. eexists. split; [reflexivity|].
  rewrite tobytes_length, !length_map, length_seq. lia.
Qed.

(** C5, as the code has it.  An empty block comes back empty when the
    rates are equal; when they differ the resampler is asked to transform
    zero points and the transform raises. *)
Theorem empty_block (self : client) :
  if input_sample_rate self =? sample_rate self
  then process_audio_chunk fourier self [] = Ok []
  else exists e, process_audio_chunk fourier self [] = Raise e.
Proof.
  unfold process_audio_chunk, prepared. cbn [frombuffer rbind].
  destruct (input_sample_rate self =? sample_rate self) eqn:E; cbn [negb].
  - reflexivity.
  - unfold resample_audio. rewrite E. cbn [List.length].
    destruct (resampled_length (Z.of_nat 0) (input_sample_rate self) (sample_rate self))
      as [m|e]; cbn [rbind].
    + exists ValueError. reflexivity.
    + exists e. reflexivity.
Qed.

End WithKernel.

(** For blocks of up to 4096 samples at the three fallback rates the
    float computation is the exact floor of [n * 8000 / source]. *)
Lemma resampled_length_table :
  forallb (fun source =>
    forallb (fun n =>
      match resampled_length n source 8000 with
      | Ok m => m =? n * 8000 / source
      | Raise _ => false
      end) (zrange 0 (Z.to_nat 4097)))
    [44100; 48000; 16000] = true.
Proof. vm_compute. reflexivity. Qed.

Lemma resampled_length_floor (n source : Z) :
  0 <= n <= 4096 -> In source [44100; 48000; 16000] ->
  resampled_length n source 8000 = Ok (n * 8000 / source).
Proof.
  intros Hn Hs. pose proof resampled_length_table as T.
  rewrite forallb_forall in T. specialize (T source Hs).
  rewrite forallb_forall in T.
  assert (Hin : In n (zrange 0 (Z.to_nat 4097))).
  { apply zrange_In. rewrite Z2Nat.id by lia. lia. }
  specialize (T n Hin).
  destruct (resampled_length n source 8000) as [m|e]; [|discriminate].
  apply Z.eqb_eq in T. subst. reflexivity.
Qed.

Lemma resampled_length_floor_witness :
  resampled_length 512 44100 8000 = Ok (512 * 8000 / 44100).
Proof.
  apply (resampled_length_floor 512 44100); [lia | left; reflexivity].
Defined.


Lemma resampled_frame_length_witness :
  exists out,
    process_audio_chunk hold (init CONFIG false) (repeat x00 1024) = Ok out /\
    Z.of_nat (List.length out) = 2 * 92.
Proof.
  apply (resampled_frame_length hold (init CONFIG false) (repeat x00 1024) (repeat 0 512) 92).
  - cbn. lia.
  - vm_compute. reflexivity.
  - cbn. discriminate.
  - vm_compute. reflexivity.
  - lia.
Defined.

(** C2 as worded fails at the block of the specification's scenario: the
    1024-byte block at 44100 Hz yields 92 samples, 184 bytes, where
    rounding asks for 93 samples, 186 bytes. *)
Lemma block_of_1024_bytes_yields_184 :
  process_audio_chunk hold (init CONFIG false) (repeat x00 1024) = Ok (repeat x00 184) /\
  resampled_length 512 44100 8000 = Ok 92 /\
  2 * rounded_length 512 44100 8000 = 186.
Proof. vm_compute. repeat split; reflexivity. Qed.

(** C5 as worded fails for the client as constructed (44100 Hz in, 8000 Hz
    out): the empty block raises. *)
Lemma empty_block_raises_at_default_rates :
  input_sample_rate (init CONFIG false) = 44100 /\
  sample_rate (init CONFIG false) = 8000 /\
  is_ok (process_audio_chunk hold (init CONFIG false) []) = false /\
  process_audio_chunk hold (init CONFIG false) [] <> Ok [].
Proof. repeat split; try reflexivity. discriminate. Qed.


End TransformerFacts.

(** ** Capture Driver *)

Module CaptureFacts.

Import PyStr PyVal Client Capture Observe.
Open Scope string_scope.
Open Scope list_scope.
Open Scope Z_scope.

(** The callback, for every answer of asyncio.  It never raises, returns
    the block with [paContinue] and leaves the client (its queue
    included) as it was.  Its only call on the outside world is at most
    one scheduling of an [audioStream] emission, made exactly when the
    client is recording and connected, the transform of the block
    succeeds and the hand-off does not raise; the frame scheduled is the
    transform of the block.  In every other case the block is dropped. *)
Theorem callback_emission
  (fourier : list Z -> nat -> nat -> float) (w : world) (self : client)
  (in_data : list byte) (status : Z) :
  let r := audio_callback fourier w in_data status self in
  result r = Ok (in_data, paContinue) /\
  after r = self /\
  io (calls r) =
    (if is_recording self && is_connected self then
       match Transformer.process_audio_chunk fourier self in_data with
       | Ok frame =>
           if can_schedule w self then [Schedule (route self) "audioStream" frame] else []
       | Raise _ => []
       end
     else []) /\
  scheduled (calls r) =
    (if is_recording self && is_connected self then
       match Transformer.process_audio_chunk fourier self in_data with
       | Ok frame => if can_schedule w self then [frame] else []
       | Raise _ => []
       end
     else []).
Proof.
  unfold audio_callback, call_soon_threadsafe, create_task, can_schedule, route, io.
  run.
  destruct (status =? 0); cbn;
    destruct (is_recording self), (is_connected self); cbn; auto;
    destruct (Transformer.process_audio_chunk fourier self in_data) as [frame|e]; cbn; auto;
    destruct (is_windows self), (loop self) as [[]|]; cbn;
    try (destruct (loop_open w)); try (destruct (thread_has_loop w)); cbn; auto.
Qed.

(** C1, the defect.  Off Windows the callback hands the frame over with
    [asyncio.create_task], which needs a running event loop in the
    calling thread.  The callback runs in a thread of the audio library,
    which has none: the call raises [RuntimeError], the error is logged
    and the block is dropped.  So off Windows no block is ever scheduled,
    although the client is recording and connected and the transform
    succeeds. *)
Theorem never_scheduled_off_windows
  (fourier : list Z -> nat -> nat -> float) (w : world) (self : client)
  (in_data : list byte) (status : Z) :
  is_windows self = false ->
  thread_has_loop w = false ->
  let r := audio_callback fourier w in_data status self in
  scheduled (calls r) = [] /\
  io (calls r) = [] /\
  (is_recording self = true -> is_connected self = true ->
   is_ok (Transformer.process_audio_chunk fourier self in_data) = true ->
   In (Log Error [FExn RuntimeError]) (calls r)).
Proof.
  intros Hwin Hloop.
  unfold audio_callback, call_soon_threadsafe, create_task, io. run.
  destruct (status =? 0); cbn;
    destruct (is_recording self), (is_connected self); cbn;
    try (repeat split; try reflexivity; intros; discriminate);
    destruct (Transformer.process_audio_chunk fourier self in_data) as [frame|e]; cbn;
    rewrite ?Hwin, ?Hloop; cbn;
    repeat split; try reflexivity; intros; try discriminate; auto.
Qed.

(** The sibling branch reaches the loop: on Windows, with the loop that
    [connect] recorded still open, the frame is scheduled. *)
Lemma scheduled_on_windows
  (fourier : list Z -> nat -> nat -> float) (w : world) (self : client)
  (in_data : list byte) (status : Z) (frame : list byte) :
  is_windows self = true ->
  loop self = Some tt ->
  loop_open w = true ->
  is_recording self = true ->
  is_connected self = true ->
  Transformer.process_audio_chunk fourier self in_data = Ok frame ->
  scheduled (calls (audio_callback fourier w in_data status self)) = [frame].
Proof.
  intros Hwin Hl Hopen Hrec Hcon Hframe.
  unfold audio_callback, call_soon_threadsafe, create_task. run.
  destruct (status =? 0); cbn; rewrite Hrec, Hcon; cbn; rewrite Hframe; cbn;
    rewrite Hwin, Hl; cbn; rewrite Hopen; reflexivity.
Qed.

Lemma never_scheduled_off_windows_witness :
  let r := audio_callback Transformer.hold no_loop_in_thread (repeat x00 1024) 0 (live false) in
  is_recording (live false) = true /\
  is_connected (live false) = true /\
  Transformer.process_audio_chunk Transformer.hold (live false) (repeat x00 1024)
    = Ok (repeat x00 184) /\
  scheduled (calls r) = [] /\
  io (calls r) = [] /\
  In (Log Error [FExn RuntimeError]) (calls r).
Proof.
  pose proof (never_scheduled_off_windows Transformer.hold no_loop_in_thread (live false)
                (repeat x00 1024) 0 eq_refl eq_refl) as H.
  cbv zeta in H. destruct H as (H1 & H2 & H3).
  split; [reflexivity|]. split; [reflexivity|].
  split; [vm_compute; reflexivity|].
  split; [exact H1|]. split; [exact H2|].
  apply H3; vm_compute; reflexivity.
Defined.

(** A block delivered while recording and connected, whose transform
    succeeds, is not scheduled when the hand-off raises.  On Windows a
    closed event loop refuses [call_soon_threadsafe] and the
    [RuntimeError] is passed over; elsewhere [create_task] finds no
    running loop in the thread of the audio library. *)
Lemma block_dropped_while_recording_and_connected :
  is_recording (live true) = true /\
  is_connected (live true) = true /\
  Transformer.process_audio_chunk Transformer.hold (live true) (repeat x00 1024)
    = Ok (repeat x00 184) /\
  scheduled (calls (audio_callback Transformer.hold closed_loop (repeat x00 1024) 0 (live true)))
    = [] /\
  is_recording (live false) = true /\
  is_connected (live false) = true /\
  scheduled (calls (audio_callback Transformer.hold no_loop_in_thread
                      (repeat x00 1024) 0 (live false)))
    = [].
Proof. vm_compute. repeat split; reflexivity. Qed.

(** C3 at the failing input: the selected rate is 16000, [open] refuses
    16000 and would accept 44100; the first failure is taken for the last
    candidate and raised, so 44100 and 48000 are never tried. *)
Lemma selected_rate_16000_gets_no_fallback :
  let w := one_device [16000] in
  let r := start_recording w (init CONFIG false) in
  result r = Raise OSError /\
  opens (calls r) = [16000] /\
  input_sample_rate (after r) = 16000 /\
  is_recording (after r) = false /\
  pa_open w 1 44100 (Some 0%nat) = Ok tt /\
  specified_open w (Some 0%nat) (fallback_rates 16000) 0 = ([16000; 44100], Some 44100).
Proof. vm_compute. repeat split; reflexivity. Qed.

Section Fallback.

Variable w : world.

(** One round of the loop, by the answer of [open]. *)
Lemma open_round_accepted (a : Z) (rest : list Z) (k : nat) (device : option nat)
  (self : client) :
  pa_open w k a device = Ok tt ->
  open_with_fallback w (a :: rest) k device self =
    (Ok tt,
     (if a =? input_sample_rate self then fun c => c else set_input_sample_rate a)
       (set_audio_stream (Some {| stream_rate := a;
                                  stream_device := device;
                                  stream_frames := frames_per_buffer self |}) self),
     Log Info [FInt a] :: PaOpen a device ::
       (if a =? input_sample_rate self then [] else [Log Info [FInt a]])).
Proof.
  intros H. cbn [open_with_fallback]. run. rewrite H. cbn.
  destruct (a =? input_sample_rate self); reflexivity.
Qed.

Lemma open_round_refused (a : Z) (rest : list Z) (k : nat) (device : option nat)
  (self : client) (e : exn) :
  pa_open w k a device = Raise e ->
  open_with_fallback w (a :: rest) k device self =
    if a =? 16000
    then (Raise e, self,
          [Log Info [FInt a]; PaOpen a device; Log Warning [FInt a; FExn e]])
    else
      (result (open_with_fallback w rest (S k) device self),
       after (open_with_fallback w rest (S k) device self),
       Log Info [FInt a] :: PaOpen a device :: Log Warning [FInt a; FExn e] ::
         calls (open_with_fallback w rest (S k) device self)).
Proof.
  intros H. cbn [open_with_fallback]. run. rewrite H. cbn.
  destruct (a =? 16000); cbn; [reflexivity|].
  destruct (open_with_fallback w rest (S k) device self) as [[r c] t]. reflexivity.
Qed.

(** When the selected rate is not 16000, the loop is the specified
    fallback: the rates are tried in the order [r, 44100, 48000, 16000]
    up to the first one accepted, which becomes the stream's rate and the
    active input rate; it raises only when all four were refused. *)
Lemma fallback_in_order (r : Z) (device : option nat) (self : client) :
  r <> 16000 ->
  input_sample_rate self = r ->
  let run := open_with_fallback w (fallback_rates r) 0 device self in
  opens (calls run) = fst (specified_open w device (fallback_rates r) 0) /\
  match snd (specified_open w device (fallback_rates r) 0) with
  | Some rate =>
      result run = Ok tt /\
      input_sample_rate (after run) = rate /\
      option_map stream_rate (audio_stream (after run)) = Some rate
  | None => exists e, result run = Raise e /\ audio_stream (after run) = audio_stream self
  end.
Proof.
  intros Hr Hself. apply Z.eqb_neq in Hr.
  unfold fallback_rates. cbn [specified_open].
  destruct (pa_open w 0 r device) as [[]|e0] eqn:E0.
  { rewrite (open_round_accepted _ _ _ _ _ E0), Hself, Z.eqb_refl.
    cbn. repeat split; auto. }
  rewrite (open_round_refused _ _ _ _ _ _ E0), Hr.
  destruct (pa_open w 1 44100 device) as [[]|e1] eqn:E1.
  { rewrite (open_round_accepted _ _ _ _ _ E1).
    destruct (44100 =? input_sample_rate self) eqn:E; cbn; repeat split; auto.
    apply Z.eqb_eq in E. auto. }
  rewrite (open_round_refused _ _ _ _ _ _ E1). cbn [Z.eqb Pos.eqb].
  destruct (pa_open w 2 48000 device) as [[]|e2] eqn:E2.
  { rewrite (open_round_accepted _ _ _ _ _ E2).
    destruct (48000 =? input_sample_rate self) eqn:E; cbn; repeat split; auto.
    apply Z.eqb_eq in E. auto. }
  rewrite (open_round_refused _ _ _ _ _ _ E2). cbn [Z.eqb Pos.eqb].
  destruct (pa_open w 3 16000 device) as [[]|e3] eqn:E3.
  { rewrite (open_round_accepted _ _ _ _ _ E3).
    destruct (16000 =? input_sample_rate self) eqn:E; cbn; repeat split; auto.
    apply Z.eqb_eq in E. auto. }
  rewrite (open_round_refused _ _ _ _ _ _ E3). cbn.
  split; [reflexivity|]. exists e3. split; reflexivity.
Qed.

(** Whatever the selected rate: if the loop returns, a stream is open
    at the active input rate and nothing else of the client moved. *)
Lemma open_accepted_state (r : Z) (device : option nat) (self : client) :
  input_sample_rate self = r ->
  let run := open_with_fallback w (fallback_rates r) 0 device self in
  result run = Ok tt ->
  (exists s, audio_stream (after run) = Some s /\
             stream_rate s = input_sample_rate (after run)) /\
  pyaudio_instance (after run) = pyaudio_instance self /\
  is_recording (after run) = is_recording self /\
  is_connected (after run) = is_connected self.
Proof.
  intros Hself. unfold fallback_rates.
  destruct (pa_open w 0 r device) as [[]|e0] eqn:E0.
  { rewrite (open_round_accepted _ _ _ _ _ E0), Hself, Z.eqb_refl.
    cbn. intros _. rewrite Hself. repeat split; eauto. }
  rewrite (open_round_refused _ _ _ _ _ _ E0).
  destruct (r =? 16000); [cbn; discriminate|].
  destruct (pa_open w 1 44100 device) as [[]|e1] eqn:E1.
  { rewrite (open_round_accepted _ _ _ _ _ E1).
    destruct (44100 =? input_sample_rate self) eqn:E; cbn; intros _; repeat split; eauto.
    apply Z.eqb_eq in E. eauto. }
  rewrite (open_round_refused _ _ _ _ _ _ E1). cbn [Z.eqb Pos.eqb].
  destruct (pa_open w 2 48000 device) as [[]|e2] eqn:E2.
  { rewrite (open_round_accepted _ _ _ _ _ E2).
    destruct (48000 =? input_sample_rate self) eqn:E; cbn; intros _; repeat split; eauto.
    apply Z.eqb_eq in E. eauto. }
  rewrite (open_round_refused _ _ _ _ _ _ E2). cbn [Z.eqb Pos.eqb].
  destruct (pa_open w 3 16000 device) as [[]|e3] eqn:E3.
  { rewrite (open_round_accepted _ _ _ _ _ E3).
    destruct (16000 =? input_sample_rate self) eqn:E; cbn; intros _; repeat split; eauto.
    apply Z.eqb_eq in E. eauto. }
  rewrite (open_round_refused _ _ _ _ _ _ E3). cbn. discriminate.
Qed.

End Fallback.

Lemma fallback_in_order_witness :
  let run := open_with_fallback (one_device [48000]) (fallback_rates 48000) 0 None
               (set_input_sample_rate 48000 (init CONFIG false)) in
  opens (calls run) = [48000; 44100] /\
  result run = Ok tt /\
  input_sample_rate (after run) = 44100 /\
  option_map stream_rate (audio_stream (after run)) = Some 44100.
Proof.
  exact (fallback_in_order (one_device [48000]) 48000 None
           (set_input_sample_rate 48000 (init CONFIG false))
           ltac:(discriminate) eq_refl).
Defined.

End CaptureFacts.

(** ** Transport Session *)

Module TransportFacts.

Import PyStr PyVal Client Capture Transport Observe.
Open Scope string_scope.
Open Scope list_scope.
Open Scope Z_scope.

Section WithWorld.

Variable w : world.

(** [stop_recording] on a connected, recording client with its stream
    and PortAudio instance: the steps attempted, in order. *)
Lemma stop_recording_steps (self : client) (s : stream) :
  is_recording self = true ->
  is_connected self = true ->
  audio_stream self = Some s ->
  pyaudio_instance self = Some tt ->
  let run := stop_recording w self in
  result run = Ok tt /\
  io (calls run) = firstn (reached w) shutdown_steps /\
  is_connected (after run) = true /\
  is_recording (after run) = false /\
  (reached w = 4%nat ->
   audio_stream (after run) = None /\ pyaudio_instance (after run) = None).
Proof.
  intros Hrec Hcon Hs Hp. unfold stop_recording, reached, shutdown_steps, io. run.
  rewrite Hrec. cbn. rewrite Hs.
  destruct (stop_stream w) as [[]|e1]; cbn; [|repeat split; auto; discriminate].
  destruct (close_stream w) as [[]|e2]; cbn; [|repeat split; auto; discriminate].
  rewrite Hp.
  destruct (terminate w) as [[]|e3]; cbn; [|repeat split; auto; discriminate].
  rewrite Hcon.
  destruct (sio_emit w "streamEnd") as [[]|e4]; cbn; repeat split; auto.
Qed.

(** C4, as the code has it.  Shutting down a connected, recording client
    calls, in this order: stop the stream, close the stream, terminate
    PortAudio, emit [streamEnd], disconnect the socket; the audio
    resources are released before the end of stream is sent, not after
    the disconnect.  A failure among the first four is logged and skips
    the rest of those four; the disconnect is attempted in every case, and
    its outcome is the outcome of the shutdown. *)
Theorem shutdown_order (self : client) (s : stream) :
  is_recording self = true ->
  is_connected self = true ->
  audio_stream self = Some s ->
  pyaudio_instance self = Some tt ->
  let run := disconnect w self in
  io (calls run) = firstn (reached w) shutdown_steps ++ [SioDisconnect] /\
  result run = sio_disconnect w /\
  is_recording (after run) = false /\
  (reached w = 4%nat ->
   audio_stream (after run) = None /\ pyaudio_instance (after run) = None).
Proof.
  intros Hrec Hcon Hs Hp.
  destruct (stop_recording_steps self s Hrec Hcon Hs Hp) as (Hr & Hio & Hc & Hrec' & Hrel).
  unfold disconnect. run.
  destruct (stop_recording w self) as [[r c] t]. cbn in *. subst r.
  rewrite Hc. cbn. unfold io in *.
  destruct (sio_disconnect w) as [[]|e]; cbn;
    rewrite filter_app, Hio; cbn; repeat split; auto; apply Hrel; assumption.
Qed.

(** C7.  The request handed to [sio.connect] is [request] of the
    configuration; changing only the API key leaves its URL, query
    string, namespaces, path and transports as they were, and the key is
    the [token] of the handshake [auth] payload, nothing else of the
    request. *)
Theorem api_key_only_in_auth (self : client) (k : string) :
  requests (calls (connect w self)) = [request (config self)] /\
  requests (calls (connect w (rekey k self))) = [request (with_api_key k (config self))] /\
  url (request (with_api_key k (config self))) = url (request (config self)) /\
  query_string (with_api_key k (config self)) = query_string (config self) /\
  namespaces (request (with_api_key k (config self))) = namespaces (request (config self)) /\
  socketio_path (request (with_api_key k (config self)))
    = socketio_path (request (config self)) /\
  transports (request (with_api_key k (config self))) = transports (request (config self)) /\
  auth (request (with_api_key k (config self))) = [("token", k)].
Proof.
  assert (H : forall c, requests (calls (connect w c)) = [request (config c)]).
  { intros c. unfold connect. run.
    change (config (set_loop (Some tt) c)) with (config c).
    destruct (sio_connect w (request (config c))) as [[]|e]; reflexivity. }
  split; [apply H|]. split; [apply (H (rekey k self))|].
  repeat split; reflexivity.
Qed.

End WithWorld.

Lemma shutdown_order_witness :
  let run := disconnect calm (live false) in
  io (calls run) = firstn (reached calm) shutdown_steps ++ [SioDisconnect] /\
  result run = sio_disconnect calm /\
  is_recording (after run) = false /\
  (reached calm = 4%nat ->
   audio_stream (after run) = None /\ pyaudio_instance (after run) = None).
Proof.
  exact (shutdown_order calm (live false)
           {| stream_rate := 44100; stream_device := None; stream_frames := 512 |}
           eq_refl eq_refl eq_refl eq_refl).
Defined.

(** C4 as worded fails: with every call succeeding, the stream is closed
    and PortAudio terminated before [streamEnd] is emitted and before the
    socket is disconnected. *)
Lemma resources_released_before_stream_end :
  io (calls (disconnect calm (live false)))
    = [StreamStop; StreamClose; PaTerminate; Emit "streamEnd"; SioDisconnect] /\
  io (calls (disconnect calm (live false))) <> specified_shutdown.
Proof. split; [reflexivity|]. vm_compute. discriminate. Qed.

(** A fresh key is appended. *)
Lemma setitem_fresh {A} (d : list (string * A)) (key : string) (v : A) :
  ~ In key (map fst d) -> setitem d key v = d ++ [(key, v)].
Proof.
  induction d as [|[k x] d IH]; intros H; [reflexivity|].
  cbn [setitem]. destruct (String.eqb k key) eqn:E.
  - apply String.eqb_eq in E. subst. exfalso. apply H. left. reflexivity.
  - cbn [app]. rewrite IH; [reflexivity|]. intros Hin. apply H. right. exact Hin.
Qed.

Lemma fill_params (opts : list (string * pyval)) :
  forall acc : list (string * string),
    NoDup (map fst acc ++ map fst opts) ->
    fold_left (fun query_params kv =>
                 setitem query_params (fst kv) (query_value (fst kv) (snd kv))) opts acc
    = acc ++ map (fun kv => (fst kv, query_value (fst kv) (snd kv))) opts.
Proof.
  induction opts as [|[k v] opts IH]; intros acc Hnd.
  - cbn. rewrite app_nil_r. reflexivity.
  - cbn [fold_left map fst snd] in *.
    rewrite setitem_fresh.
    + rewrite IH.
      * rewrite <- app_assoc. reflexivity.
      * rewrite map_app. cbn [map fst]. rewrite <- app_assoc. exact Hnd.
    + intros Hin. apply NoDup_remove_2 in Hnd. apply Hnd.
      apply in_or_app. left. exact Hin.
Qed.

(** C8, as the code has it.  For an options dict (distinct keys) the
    query parameters are the options in order, each serialized by the
    shape of its value: a list as its elements joined by commas, a dict
    as JSON, anything else as its string form; except that a dict is
    serialized as JSON only under the key [tags], and under any other
    key as its string form.  The query string is their URL encoding. *)
Theorem query_serialization (opts : list (string * pyval)) :
  NoDup (map fst opts) ->
  let serialized :=
    map (fun kv =>
           (fst kv,
            if is_dict (snd kv) && negb (String.eqb (fst kv) "tags")
            then str (snd kv)
            else value_by_shape (snd kv))) opts in
  build_query_params opts = serialized /\
  forall cfg : session_config,
    sttOptions cfg = Some opts -> query_string cfg = urlencode serialized.
Proof.
  intros Hnd serialized.
  assert (H : build_query_params opts = serialized).
  { unfold build_query_params. rewrite fill_params by exact Hnd.
    cbn [app]. apply map_ext. intros [k v]. cbn [fst snd]. f_equal.
    destruct v; cbn; try reflexivity.
    destruct (String.eqb k "tags"); reflexivity. }
  split; [exact H|].
  intros cfg Hcfg. unfold query_string, stt_options_of. rewrite Hcfg, H. reflexivity.
Qed.

Lemma query_serialization_witness :
  build_query_params
    [("translateTo", VList [VStr "en-US"; VStr "es-ES"]);
     ("tags", VDict [("session", VStr "demo")]);
     ("sampleRate", VInt 8000)]
  = [("translateTo", "en-US,es-ES");
     ("tags", json_dumps (VDict [("session", VStr "demo")]));
     ("sampleRate", "8000")].
Proof.
  apply (query_serialization
           [("translateTo", VList [VStr "en-US"; VStr "es-ES"]);
            ("tags", VDict [("session", VStr "demo")]);
            ("sampleRate", VInt 8000)]).
  repeat constructor; cbn; intuition discriminate.
Defined.

(** C8 as worded fails: a dict under a key other than [tags] is written
    in its string form (single quotes), not as JSON. *)
Lemma dict_outside_tags_is_not_json :
  build_query_params [("meta", VDict [("a", VInt 1)])] = [("meta", "{'a': 1}")] /\
  value_by_shape (VDict [("a", VInt 1)]) = ("{" ++ char dq ++ "a" ++ char dq ++ ": 1}")%string /\
  snd (hd ("", "") (build_query_params [("meta", VDict [("a", VInt 1)])]))
    <> value_by_shape (VDict [("a", VInt 1)]).
Proof. repeat split; try reflexivity. vm_compute. discriminate. Qed.

End TransportFacts.

(** ** Device Selector *)

Module DevicesFacts.

Import PyStr PyVal Client Devices Observe.
Open Scope string_scope.
Open Scope list_scope.
Open Scope Z_scope.

Lemma In_insert_desc (x y : candidate) (l : list candidate) :
  In y (insert_desc x l) -> y = x \/ In y l.
Proof.
  induction l as [|z l IH]; cbn [insert_desc]; intros H.
  - destruct H as [<-|[]]. left. reflexivity.
  - destruct (key_lt (key z) (key x)).
    + destruct H as [<-|H]; [left; reflexivity|right; exact H].
    + destruct H as [<-|H]; [right; left; reflexivity|].
      destruct (IH H) as [->|Hin]; [left; reflexivity|right; right; exact Hin].
Qed.

Lemma In_fold_insert (l : list candidate) :
  forall acc y,
    In y (fold_left (fun acc x => insert_desc x acc) l acc) -> In y acc \/ In y l.
Proof.
  induction l as [|x l IH]; intros acc y H; cbn [fold_left] in H.
  - left. exact H.
  - destruct (IH _ _ H) as [Hacc|Hl].
    + destruct (In_insert_desc _ _ _ Hacc) as [->|Hin].
      * right. left. reflexivity.
      * left. exact Hin.
    + right. right. exact Hl.
Qed.

(** The sorted list holds no device that was not enumerated. *)
Lemma In_sort_desc (l : list candidate) (y : candidate) :
  In y (sort_desc l) -> In y l.
Proof.
  intros H. destruct (In_fold_insert l [] y H) as [[]|Hin]. exact Hin.
Qed.

Section WithWorld.

Variable w : world.

Lemma probe_device_index (i : nat) (d : candidate) :
  probe_device w i = Some d -> index d = i.
Proof.
  unfold probe_device.
  destruct (get_device_info_by_index w i) as [info|e]; [|discriminate].
  destruct (0 <? maxInputChannels info); [|discriminate].
  destruct (probe_rates w i); [discriminate|].
  intros H. injection H as <-. reflexivity.
Qed.

Lemma enumerate_sound (n : nat) (d : candidate) :
  In d (enumerate w n) -> probe_device w (index d) = Some d.
Proof.
  unfold enumerate. rewrite in_flat_map. intros (i & _ & Hd).
  destruct (probe_device w i) as [d'|] eqn:E; [|destruct Hd].
  destruct Hd as [->|[]]. rewrite (probe_device_index _ _ E). exact E.
Qed.

(** Listing the devices only writes log records. *)
Lemma log_devices_run (l : list candidate) (c : client) :
  exists t, log_devices l c = (Ok tt, c, t) /\ forallb is_log t = true.
Proof.
  induction l as [|d l IH]; cbn [log_devices].
  - exists []. split; reflexivity.
  - destruct IH as (t & Ht & Hlog). unfold log_device. run. rewrite Ht.
    eexists. split; [reflexivity|]. cbn. exact Hlog.
Qed.

Lemma choose_rate_run (best : candidate) (c : client) :
  choose_rate best c =
    (Ok tt,
     set_input_sample_rate (chosen_rate (input_sample_rate c) (supported_rates best)) c,
     []).
Proof.
  unfold choose_rate, chosen_rate. run.
  destruct (mem 44100 (supported_rates best)); [reflexivity|].
  destruct (mem 48000 (supported_rates best)); [reflexivity|].
  destruct (supported_rates best); [|reflexivity].
  destruct c; reflexivity.
Qed.

(** A run of the selection, in full. *)
Lemma selection_run (self : client) :
  exists (o : option nat) (rate : Z) (t : list event),
    find_best_microphone w self = (Ok o, set_input_sample_rate rate self, t) /\
    forallb is_log t = true /\
    match o with
    | None => rate = input_sample_rate self
    | Some i =>
        exists best,
          probe_device w i = Some best /\
          rate = chosen_rate (input_sample_rate self) (supported_rates best)
    end.
Proof.
  assert (Hid : set_input_sample_rate (input_sample_rate self) self = self)
    by (destruct self; reflexivity).
  unfold find_best_microphone. run.
  destruct (pyaudio_instance self) as [[]|].
  2:{ exists None, (input_sample_rate self), []. rewrite Hid. auto. }
  destruct (get_device_count w) as [n|e]; cbn -[sort_desc firstn log_devices choose_rate].
  2:{ exists None, (input_sample_rate self), [Log Warning [FExn e]]. rewrite Hid. auto. }
  destruct (enumerate w n) as [|d0 ds] eqn:En;
    cbn -[sort_desc firstn log_devices choose_rate].
  { exists None, (input_sample_rate self), [Log Warning []]. rewrite Hid. auto. }
  destruct (log_devices_run (firstn 5 (sort_desc (d0 :: ds))) self) as (t & Ht & Hlog).
  rewrite Ht. cbn -[sort_desc firstn log_devices choose_rate].
  destruct (sort_desc (d0 :: ds)) as [|best rest] eqn:Es;
    cbn -[sort_desc firstn log_devices choose_rate].
  - eexists None, (input_sample_rate self), _. rewrite Hid.
    split; [reflexivity|]. split; [|reflexivity].
    cbn. rewrite !forallb_app, Hlog. reflexivity.
  - rewrite choose_rate_run. cbn -[sort_desc firstn log_devices choose_rate].
    eexists (Some (index best)), _, _. split; [reflexivity|].
    split; [cbn; rewrite !forallb_app, Hlog; reflexivity|].
    exists best. split; [|reflexivity].
    apply (enumerate_sound n). rewrite En. apply In_sort_desc. rewrite Es.
    left. reflexivity.
Qed.

(** C9, as the code has it.  Device selection never raises, opens
    nothing and makes no call on the outside world other than log
    records.  When it returns no device it leaves the client as it was.
    When it returns a device it changes one attribute, the configured
    input sample rate, which becomes 44100 if the device supports it,
    else 48000 if supported, else the first rate it supports. *)
Theorem selection_sets_only_the_input_rate (self : client) :
  let r := find_best_microphone w self in
  forallb is_log (calls r) = true /\
  match result r with
  | Ok None => after r = self
  | Ok (Some i) =>
      exists best,
        probe_device w i = Some best /\
        after r =
          set_input_sample_rate
            (chosen_rate (input_sample_rate self) (supported_rates best)) self
  | Raise _ => False
  end.
Proof.
  destruct (selection_run self) as (o & rate & t & E & Hlog & Ho).
  cbv zeta. rewrite E. unfold result, after, calls. cbn [fst snd].
  split; [exact Hlog|].
  destruct o as [i|].
  - destruct Ho as (best & Hb & ->). exists best. split; [exact Hb|reflexivity].
  - subst rate. destruct self; reflexivity.
Qed.

End WithWorld.

(** C9 as worded fails: for a device that supports 48000 but not 44100,
    selection changes the configured input sample rate from 44100 to
    48000. *)
Lemma selection_changes_the_input_rate :
  let self := set_pyaudio_instance (Some tt) (init CONFIG false) in
  let r := find_best_microphone (one_device [48000]) self in
  input_sample_rate self = 44100 /\
  result r = Ok (Some 0%nat) /\
  input_sample_rate (after r) = 48000.
Proof. vm_compute. repeat split; reflexivity. Qed.

End DevicesFacts.

(** ** Result Presenter *)

Module PresenterFacts.

Import PyStr PyVal Presenter.
Open Scope string_scope.
Open Scope list_scope.

Lemma length_append (a b : string) :
  String.length (a ++ b) = (String.length a + String.length b)%nat.
Proof. induction a as [|c a IH]; cbn; [reflexivity|]. rewrite IH. reflexivity. Qed.

Lemma append_cancel_r (c : string) :
  forall a b : string, (a ++ c = b ++ c)%string -> a = b.
Proof.
  induction a as [|x a IH]; destruct b as [|y b]; cbn; intros H.
  - reflexivity.
  - apply (f_equal String.length) in H. cbn in H. rewrite length_append in H. lia.
  - apply (f_equal String.length) in H. cbn in H. rewrite length_append in H. lia.
  - injection H as -> H. rewrite (IH b H). reflexivity.
Qed.

(** The two lines, by the truth value of the field. *)
Lemma confidence_line_cases (v : pyval) :
  confidence_line v =
    if truthy v then ("   Confidence: " ++ str v)%string else "   Confidence: N/A".
Proof. unfold confidence_line, py_or. destruct (truthy v); reflexivity. Qed.

Lemma duration_line_cases (v : pyval) :
  duration_line v =
    if truthy v then ("   Duration: " ++ str v ++ "ms")%string else "   Duration: N/Ams".
Proof. unfold duration_line, py_or. destruct (truthy v); reflexivity. Qed.

(** A missing key reads as [None], which is falsy. *)
Lemma missing_is_falsy (data : list (string * pyval)) (key : string) :
  lookup key data = None -> truthy (get data key) = false.
Proof. unfold get. intros ->. reflexivity. Qed.

(** C10.  In the block printed for a final ([recognized]) event, the
    third and fourth lines are the confidence and duration lines.  Each
    shows the ['N/A'] sentinel when its field is falsy, which covers a
    missing key, [None], [0], [0.0] and the empty string alike, and shows
    the field's own text otherwise; so, for a field whose own text is not
    ['N/A'], the sentinel is printed if and only if the field is missing,
    null or falsy. *)
Theorem final_result_sentinel (data : list (string * pyval)) :
  get data "status" = VStr "recognized" ->
  let confidence := get data "confidence" in
  let duration := get data "duration" in
  firstn 2 (skipn 2 (snd (handle_speech_result data)))
    = [(confidence_line confidence ++ char "010")%string;
       (duration_line duration ++ char "010")%string] /\
  (lookup "confidence" data = None -> confidence_line confidence = "   Confidence: N/A") /\
  (lookup "duration" data = None -> duration_line duration = "   Duration: N/Ams") /\
  (forall v : pyval,
     In v [VNone; VInt 0; VFloat 0%float; VStr ""] ->
     confidence_line v = "   Confidence: N/A" /\ duration_line v = "   Duration: N/Ams") /\
  (forall v : pyval,
     confidence_line v =
       (if truthy v then ("   Confidence: " ++ str v)%string else "   Confidence: N/A") /\
     duration_line v =
       (if truthy v then ("   Duration: " ++ str v ++ "ms")%string else "   Duration: N/Ams")) /\
  (forall v : pyval,
     str v <> "N/A" ->
     (confidence_line v = "   Confidence: N/A" <-> truthy v = false) /\
     (duration_line v = "   Duration: N/Ams" <-> truthy v = false)).
Proof.
  intros Hstatus confidence duration. repeat split.
  - unfold handle_speech_result. rewrite Hstatus.
    change (py_eq (VStr "recognized") (VStr "recognizing")) with false.
    change (py_eq (VStr "recognized") (VStr "recognized")) with true.
    cbv iota. unfold then_ at 1 2 3 4, print at 1 2 3 4, print_end.
    cbn [fst snd app skipn firstn]. reflexivity.
  - intros H. rewrite confidence_line_cases.
    unfold confidence. rewrite (missing_is_falsy _ _ H). reflexivity.
  - intros H. rewrite duration_line_cases.
    unfold duration. rewrite (missing_is_falsy _ _ H). reflexivity.
  - destruct H as [<-|[<-|[<-|[<-|[]]]]]; reflexivity.
  - destruct H as [<-|[<-|[<-|[<-|[]]]]]; reflexivity.
  - apply confidence_line_cases.
  - apply duration_line_cases.
  - rewrite confidence_line_cases. destruct (truthy v); [|reflexivity].
    intros E. cbn in E. injection E as E. contradiction.
  - rewrite confidence_line_cases. intros ->. reflexivity.
  - rewrite duration_line_cases. destruct (truthy v); [|reflexivity].
    intros E. cbn in E. injection E as E.
    apply (append_cancel_r "ms" (str v) "N/A") in E. contradiction.
  - rewrite duration_line_cases. intros ->. reflexivity.
Qed.

Lemma final_result_sentinel_witness :
  let data := [("status", VStr "recognized"); ("messageId", VInt 7);
               ("text", VStr "hola"); ("confidence", VFloat 0%float)] in
  firstn 2 (skipn 2 (snd (handle_speech_result data)))
    = ["   Confidence: N/A" ++ char "010"; "   Duration: N/Ams" ++ char "010"]%string.
Proof.
  exact (proj1 (final_result_sentinel
                  [("status", VStr "recognized"); ("messageId", VInt 7);
                   ("text", VStr "hola"); ("confidence", VFloat 0%float)] eq_refl)).
Defined.

End PresenterFacts.

(** ** Session: what a successful start leaves behind *)

Module SessionFacts.

Import PyStr PyVal Client Capture Observe.
Open Scope string_scope.
Open Scope list_scope.
Open Scope Z_scope.

Section WithWorld.

Variable w : world.

(** When [start_recording] returns, the client is recording, holds its
    PortAudio instance and an open stream, and the stream's rate is the
    active input rate, the one the transformer resamples from; the
    connection flag is untouched. *)
Lemma recording_started (self : client) :
  is_recording self = false ->
  let run := start_recording w self in
  result run = Ok tt ->
  is_recording (after run) = true /\
  pyaudio_instance (after run) = Some tt /\
  (exists s, audio_stream (after run) = Some s /\
             stream_rate s = input_sample_rate (after run)) /\
  is_connected (after run) = is_connected self.
Proof.
  intros Hrec. unfold start_recording. run. rewrite Hrec.
  cbn -[open_with_fallback Devices.find_best_microphone].
  destruct (pa_init w) as [[]|e];
    cbn -[open_with_fallback Devices.find_best_microphone].
  2:{ destruct (is_windows self); cbn; discriminate. }
  destruct (DevicesFacts.selection_run w (set_pyaudio_instance (Some tt) self))
    as (o & rate & t & E & _ & _).
  rewrite E. cbn -[open_with_fallback Devices.find_best_microphone].
  set (c1 := set_input_sample_rate rate (set_pyaudio_instance (Some tt) self)).
  assert (Hstep :
    let run := open_with_fallback w (fallback_rates rate) 0 o c1 in
    forall c2 t2 r2, run = (r2, c2, t2) ->
      r2 = Ok tt ->
      (exists s, audio_stream c2 = Some s /\ stream_rate s = input_sample_rate c2) /\
      pyaudio_instance c2 = Some tt /\ is_connected c2 = is_connected self).
  { intros run c2 t2 r2 Hrun Hr2.
    pose proof (CaptureFacts.open_accepted_state w rate o c1 eq_refl) as H.
    cbv zeta in H. fold run in H. rewrite Hrun in H. unfold result, after in H.
    cbn [fst snd] in H. destruct (H Hr2) as (Hs & Hp & _ & Hc).
    split; [exact Hs|]. split; [rewrite Hp|rewrite Hc]; reflexivity. }
  cbv zeta in Hstep.
  destruct o as [i|].
  - destruct (get_device_info_by_index w i) as [info|e];
      cbn -[open_with_fallback Devices.find_best_microphone].
    2:{ destruct (is_windows self); cbn; discriminate. }
    change (input_sample_rate c1) with rate.
    destruct (open_with_fallback w (fallback_rates rate) 0 (Some i) c1)
      as [[r2 c2] t2] eqn:Eo.
    destruct r2 as [[]|e]; cbn.
    2:{ destruct (is_windows c2); cbn; discriminate. }
    destruct (Hstep c2 t2 (Ok tt) eq_refl eq_refl) as ((s & Hs & Hrate) & Hp & Hc).
    rewrite Hs.
    destruct (start_stream w) as [[]|e]; cbn.
    2:{ destruct (is_windows c2); cbn; discriminate. }
    intros _. repeat split; eauto.
  - cbn -[open_with_fallback Devices.find_best_microphone].
    change (input_sample_rate c1) with rate.
    destruct (open_with_fallback w (fallback_rates rate) 0 None c1)
      as [[r2 c2] t2] eqn:Eo.
    destruct r2 as [[]|e]; cbn.
    2:{ destruct (is_windows c2); cbn; discriminate. }
    destruct (Hstep c2 t2 (Ok tt) eq_refl eq_refl) as ((s & Hs & Hrate) & Hp & Hc).
    rewrite Hs.
    destruct (start_stream w) as [[]|e]; cbn.
    2:{ destruct (is_windows c2); cbn; discriminate. }
    intros _. repeat split; eauto.
Qed.

(** Stopping never raises and always leaves the client not recording,
    whatever the release of the stream answered; so a second stop in a
    row does nothing: no call, no error, no second [streamEnd]. *)
Lemma stop_recording_twice (self : client) :
  result (stop_recording w self) = Ok tt /\
  is_recording (after (stop_recording w self)) = false /\
  stop_recording w (after (stop_recording w self))
    = (Ok tt, after (stop_recording w self), []).
Proof.
  assert (Hok : result (stop_recording w self) = Ok tt).
  { unfold stop_recording. run.
    destruct (is_recording self) eqn:Hrec; cbn; [|reflexivity].
    destruct (audio_stream self); cbn;
      [destruct (stop_stream w) as [[]|]; cbn; [|reflexivity];
       destruct (close_stream w) as [[]|]; cbn; [|reflexivity]|];
      (destruct (pyaudio_instance self); cbn;
       [destruct (terminate w) as [[]|]; cbn; [|reflexivity]|];
       (destruct (is_connected self); cbn;
        [destruct (sio_emit w "streamEnd") as [[]|]; cbn; reflexivity|reflexivity])). }
  split; [exact Hok|].
  assert (Hoff : is_recording (after (stop_recording w self)) = false).
  { unfold stop_recording. run.
    destruct (is_recording self) eqn:Hrec; cbn; [|exact Hrec].
    destruct (audio_stream self); cbn;
      [destruct (stop_stream w) as [[]|]; cbn; [|reflexivity];
       destruct (close_stream w) as [[]|]; cbn; [|reflexivity]|];
      (destruct (pyaudio_instance self); cbn;
       [destruct (terminate w) as [[]|]; cbn; [|reflexivity]|];
       (destruct (is_connected self); cbn;
        [destruct (sio_emit w "streamEnd") as [[]|]; cbn; reflexivity|reflexivity])). }
  split; [exact Hoff|]. clear Hok.
  generalize dependent (after (stop_recording w self)). intros c Hc.
  unfold stop_recording. run. rewrite Hc. reflexivity.
Qed.

End WithWorld.

Lemma recording_started_witness :
  let run := start_recording calm (init CONFIG false) in
  is_recording (after run) = true /\
  pyaudio_instance (after run) = Some tt /\
  (exists s, audio_stream (after run) = Some s /\
             stream_rate s = input_sample_rate (after run)) /\
  is_connected (after run) = is_connected (init CONFIG false).
Proof.
  exact (recording_started calm (init CONFIG false) eq_refl eq_refl).
Defined.

End SessionFacts.

(** ** Audio Transformer: block sizes and the gain curve *)

Module TransformerMore.

Import PyNum Pcm Client Transformer Observe PcmFacts TransformerFacts.
Open Scope Z_scope.

Lemma frombuffer_by_parity :
  forall (n : nat) (raw : list byte), (List.length raw <= n)%nat ->
    if Nat.odd (List.length raw) then frombuffer raw = Raise ValueError
    else exists xs, frombuffer raw = Ok xs.
Proof.
  induction n as [|n IH]; intros raw Hn.
  - destruct raw; [|cbn in Hn; lia]. cbn. exists []. reflexivity.
  - destruct raw as [|lo [|hi rest]].
    + cbn. exists []. reflexivity.
    + reflexivity.
    + specialize (IH rest ltac:(cbn in Hn; lia)).
      change (Nat.odd (List.length (lo :: hi :: rest))) with (Nat.odd (List.length rest)).
      cbn [frombuffer].
      destruct (Nat.odd (List.length rest)).
      * rewrite IH. reflexivity.
      * destruct IH as (xs & ->). eexists. reflexivity.
Qed.

Lemma boost_exact_nonneg (x : Z) :
  0 <= x -> boost_exact x = Z.min 32767 (11 * x / 10).
Proof.
  intros Hx. unfold boost_exact, saturate, int16_min, int16_max.
  rewrite Z.quot_div_nonneg by lia.
  pose proof (Z.div_pos (11 * x) 10 ltac:(lia) ltac:(lia)). lia.
Qed.

Lemma boost_exact_neg (x : Z) :
  x <= 0 -> boost_exact x = Z.max (-32768) (- (11 * (- x) / 10)).
Proof.
  intros Hx. unfold boost_exact, saturate, int16_min, int16_max.
  replace (11 * x) with (- (11 * - x)) by lia.
  rewrite Z.quot_opp_l by lia. rewrite Z.quot_div_nonneg by lia.
  pose proof (Z.div_pos (11 * - x) 10 ltac:(lia) ltac:(lia)). lia.
Qed.

Section WithKernel.

Variable fourier : list Z -> nat -> nat -> float.

(** A block with an odd number of bytes is no int16 array: the transform
    raises [ValueError], whatever the rates. *)
Theorem odd_block_rejected (self : client) (raw : list byte) :
  Nat.odd (List.length raw) = true ->
  process_audio_chunk fourier self raw = Raise ValueError.
Proof.
  intros Hodd. pose proof (frombuffer_by_parity _ raw (le_n _)) as H.
  rewrite Hodd in H. unfold process_audio_chunk, prepared. rewrite H. reflexivity.
Qed.

(** With equal rates the transform accepts every block of an even number
    of bytes and returns a frame of the same size: one output sample per
    input sample, each the boosted input sample. *)
Theorem same_rate_keeps_size (self : client) (raw : list byte) :
  Nat.even (List.length raw) = true ->
  input_sample_rate self = sample_rate self ->
  exists xs out,
    frombuffer raw = Ok xs /\
    process_audio_chunk fourier self raw = Ok out /\
    frombuffer out = Ok (map boost_exact xs) /\
    List.length out = List.length raw.
Proof.
  intros Heven Hrate. pose proof (frombuffer_by_parity _ raw (le_n _)) as H.
  rewrite <- Nat.negb_even, Heven in H. cbn in H. destruct H as (xs & Hxs).
  destruct (frombuffer_ok _ _ Hxs) as (Hlen & Hint).
  exists xs, (tobytes (map boost xs)). split; [exact Hxs|].
  unfold process_audio_chunk. rewrite (prepared_same_rate fourier self raw xs Hrate Hxs).
  cbn [rbind]. split; [reflexivity|].
  rewrite (boost_all_exact xs Hint). split.
  - apply frombuffer_tobytes, boost_exact_all_in_range.
  - rewrite tobytes_length, length_map. lia.
Qed.

(** With differing rates a block too short to yield one output sample
    is not resampled to an empty frame: the transform raises. *)
Theorem short_block_raises (self : client) (raw : list byte) (xs : list Z) (m : Z) :
  input_sample_rate self <> sample_rate self ->
  frombuffer raw = Ok xs ->
  resampled_length (Z.of_nat (List.length xs)) (input_sample_rate self) (sample_rate self)
    = Ok m ->
  m <= 0 ->
  exists e, process_audio_chunk fourier self raw = Raise e.
Proof.
  intros Hr Hraw Hm Hle. unfold process_audio_chunk, prepared. rewrite Hraw. cbn [rbind].
  apply Z.eqb_neq in Hr. rewrite Hr. cbn [negb].
  unfold resample_audio. rewrite Hr, Hm. cbn [rbind]. unfold scipy_resample.
  apply Z.leb_le in Hle. rewrite Hle, orb_true_r. eexists. reflexivity.
Qed.

End WithKernel.

(** The gain curve on int16 samples: it never lowers the magnitude or
    flips the sign, it is monotone, and it clips exactly the samples from
    29789 upwards to 32767 and those from -29790 downwards to -32768. *)
Theorem boost_curve (x y : Z) :
  is_int16 x -> is_int16 y -> x <= y ->
  boost x <= boost y /\
  Z.abs x <= Z.abs (boost x) /\
  Z.sgn (boost x) = Z.sgn x /\
  (boost x = 32767 <-> 29789 <= x) /\
  (boost x = -32768 <-> x <= -29790).
Proof.
  intros Hx Hy Hxy. rewrite (boost_is_exact x Hx), (boost_is_exact y Hy).
  unfold is_int16, int16_min, int16_max in *.
  assert (Hmono : boost_exact x <= boost_exact y).
  { destruct (Z_le_gt_dec 0 x) as [Hx0|Hx0].
    - rewrite (boost_exact_nonneg x), (boost_exact_nonneg y) by lia.
      pose proof (Z.div_le_mono (11 * x) (11 * y) 10 ltac:(lia) ltac:(lia)). lia.
    - destruct (Z_le_gt_dec 0 y) as [Hy0|Hy0].
      + rewrite (boost_exact_nonneg y), (boost_exact_neg x) by lia.
        pose proof (Z.div_pos (11 * y) 10 ltac:(lia) ltac:(lia)).
        pose proof (Z.div_pos (11 * - x) 10 ltac:(lia) ltac:(lia)). lia.
      + rewrite (boost_exact_neg x), (boost_exact_neg y) by lia.
        pose proof (Z.div_le_mono (11 * - y) (11 * - x) 10 ltac:(lia) ltac:(lia)). lia. }
  split; [exact Hmono|].
  destruct (Z_le_gt_dec 0 x) as [Hx0|Hx0].
  - rewrite boost_exact_nonneg by lia.
    pose proof (Z.div_mod (11 * x) 10 ltac:(lia)).
    pose proof (Z.mod_pos_bound (11 * x) 10 ltac:(lia)).
    repeat split; lia.
  - rewrite boost_exact_neg by lia.
    pose proof (Z.div_mod (11 * - x) 10 ltac:(lia)).
    pose proof (Z.mod_pos_bound (11 * - x) 10 ltac:(lia)).
    repeat split; lia.
Qed.

Lemma odd_block_rejected_witness :
  process_audio_chunk hold (init CONFIG false) [x01; x02; x03] = Raise ValueError.
Proof.
  exact (odd_block_rejected hold (init CONFIG false) [x01; x02; x03] eq_refl).
Defined.

Lemma same_rate_keeps_size_witness :
  exists xs out,
    frombuffer [xff; x7f; x0a; x00] = Ok xs /\
    process_audio_chunk hold (set_input_sample_rate 8000 (init CONFIG false))
      [xff; x7f; x0a; x00] = Ok out /\
    frombuffer out = Ok (map boost_exact xs) /\
    List.length out = 4%nat.
Proof.
  exact (same_rate_keeps_size hold (set_input_sample_rate 8000 (init CONFIG false))
           [xff; x7f; x0a; x00] eq_refl eq_refl).
Defined.

Lemma short_block_raises_witness :
  exists e, process_audio_chunk hold (init CONFIG false) (repeat x00 10) = Raise e.
Proof.
  apply (short_block_raises hold (init CONFIG false) (repeat x00 10) (repeat 0 5) 0).
  - cbn. lia.
  - reflexivity.
  - vm_compute. reflexivity.
  - lia.
Defined.

Lemma boost_curve_witness :
  boost 29788 <= boost 29789 /\
  Z.abs 29788 <= Z.abs (boost 29788) /\
  Z.sgn (boost 29788) = Z.sgn 29788 /\
  (boost 29788 = 32767 <-> 29789 <= 29788) /\
  (boost 29788 = -32768 <-> 29788 <= -29790).
Proof.
  apply (boost_curve 29788 29789); unfold is_int16, int16_min, int16_max; lia.
Defined.

End TransformerMore.

(** ** Device Selector: ranking *)

Module RankingFacts.

Import PyStr PyVal Client Devices Observe Ranking DevicesFacts.
Open Scope string_scope.
Open Scope list_scope.
Open Scope Z_scope.

(** The order on keys. *)
Ltac key_order :=
  unfold key_lt;
  repeat match goal with
         | k : (Z * bool * Z)%type |- _ => destruct k as [[? ?] ?]
         | b : bool |- _ => destruct b
         end;
  cbn [negb andb] in *;
  repeat match goal with
         | |- context [?a <? ?b] => destruct (Z.ltb_spec a b)
         | H : context [?a <? ?b] |- _ => destruct (Z.ltb_spec a b)
         end;
  try reflexivity; try discriminate; try lia.

Lemma key_lt_irrefl (a : Z * bool * Z) : key_lt a a = false.
Proof. key_order. Qed.

Lemma key_lt_asym (a b : Z * bool * Z) : key_lt a b = true -> key_lt b a = false.
Proof. key_order. Qed.

Lemma key_ge_trans (a b c : Z * bool * Z) :
  key_lt a b = false -> key_lt b c = false -> key_lt a c = false.
Proof. key_order. Qed.

Lemma key_lt_ge_trans (a b c : Z * bool * Z) :
  key_lt a b = true -> key_lt a c = false -> key_lt b c = false.
Proof. key_order. Qed.

Lemma key_ge_lt_trans (a b c : Z * bool * Z) :
  key_lt b a = false -> key_lt b c = true -> key_lt a c = true.
Proof. key_order. Qed.

(** The head of the sorted list is the running best. *)
Lemma hd_insert_desc (x : candidate) (l : list candidate) :
  hd_error (insert_desc x l) = pick (hd_error l) x.
Proof.
  destruct l as [|y l]; cbn [insert_desc hd_error pick]; [reflexivity|].
  destruct (key_lt (key y) (key x)); reflexivity.
Qed.

Lemma hd_fold_insert (l : list candidate) :
  forall acc,
    hd_error (fold_left (fun acc x => insert_desc x acc) l acc)
    = fold_left pick l (hd_error acc).
Proof.
  induction l as [|x l IH]; intros acc; cbn [fold_left]; [reflexivity|].
  rewrite IH, hd_insert_desc. reflexivity.
Qed.

Lemma hd_sort_desc (l : list candidate) : hd_error (sort_desc l) = first_best l.
Proof. apply hd_fold_insert. Qed.

(** The running best splits what was seen: strictly smaller keys before
    it, no larger key after it. *)
Lemma fold_pick_split (l : list candidate) :
  forall seen b pre post,
    seen = pre ++ b :: post ->
    (forall d, In d pre -> key_lt (key d) (key b) = true) ->
    (forall d, In d post -> key_lt (key b) (key d) = false) ->
    exists b' pre' post',
      fold_left pick l (Some b) = Some b' /\
      seen ++ l = pre' ++ b' :: post' /\
      (forall d, In d pre' -> key_lt (key d) (key b') = true) /\
      (forall d, In d post' -> key_lt (key b') (key d) = false).
Proof.
  induction l as [|x l IH]; intros seen b pre post Hseen Hpre Hpost.
  - exists b, pre, post. rewrite app_nil_r. auto.
  - cbn [fold_left pick]. destruct (key_lt (key b) (key x)) eqn:E.
    + destruct (IH (seen ++ [x]) x (pre ++ b :: post) []) as (b' & pre' & post' & H1 & H2 & H3 & H4).
      * rewrite Hseen. reflexivity.
      * intros d Hd. apply in_app_or in Hd. destruct Hd as [Hd|[<-|Hd]].
        -- eapply key_ge_lt_trans; [|exact E].
           apply key_lt_asym. apply Hpre. exact Hd.
        -- exact E.
        -- eapply key_ge_lt_trans; [|exact E]. apply Hpost. exact Hd.
      * intros d [].
      * exists b', pre', post'. rewrite <- app_assoc in H2. auto.
    + destruct (IH (seen ++ [x]) b pre (post ++ [x])) as (b' & pre' & post' & H1 & H2 & H3 & H4).
      * rewrite Hseen, <- app_assoc. reflexivity.
      * exact Hpre.
      * intros d Hd. apply in_app_or in Hd. destruct Hd as [Hd|[<-|[]]]; auto.
      * exists b', pre', post'. rewrite <- app_assoc in H2. auto.
Qed.

Lemma first_best_split (l : list candidate) (b : candidate) :
  first_best l = Some b ->
  exists pre post,
    l = pre ++ b :: post /\
    (forall d, In d pre -> key_lt (key d) (key b) = true) /\
    (forall d, In d post -> key_lt (key b) (key d) = false).
Proof.
  unfold first_best. destruct l as [|x l]; cbn [fold_left pick]; [discriminate|].
  intros H.
  destruct (fold_pick_split l [x] x [] []) as (b' & pre & post & H1 & H2 & H3 & H4);
    try reflexivity; try (intros d []).
  rewrite H1 in H. injection H as ->. exists pre, post. auto.
Qed.

Lemma increasing_app (l1 l2 : list candidate) :
  increasing l1 -> increasing l2 ->
  (forall a b, In a l1 -> In b l2 -> (index a < index b)%nat) ->
  increasing (l1 ++ l2).
Proof.
  induction l1 as [|x l1 IH]; intros H1 H2 H; cbn; [exact H2|].
  destruct H1 as [Hx H1]. split.
  - intros d Hd. apply in_app_or in Hd. destruct Hd as [Hd|Hd]; [auto|].
    apply H; [left; reflexivity|exact Hd].
  - apply IH; auto. intros a b Ha Hb. apply H; [right; exact Ha|exact Hb].
Qed.

Lemma increasing_split (pre post : list candidate) (b : candidate) :
  increasing (pre ++ b :: post) ->
  (forall d, In d pre -> (index d < index b)%nat) /\
  (forall d, In d post -> (index b < index d)%nat).
Proof.
  induction pre as [|x pre IH]; cbn; intros H.
  - destruct H as [H _]. split; [intros d []|exact H].
  - destruct H as [Hx H]. destruct (IH H) as [H1 H2]. split; [|exact H2].
    intros d [<-|Hd]; [|auto]. apply Hx. apply in_or_app. right. left. reflexivity.
Qed.

Section WithWorld.

Variable w : world.

Lemma enumerate_increasing (n : nat) :
  increasing (enumerate w n) /\ (forall d, In d (enumerate w n) -> (index d < n)%nat).
Proof.
  induction n as [|n [IH1 IH2]].
  - split; [exact I|intros d []].
  - unfold enumerate in *. rewrite seq_S, flat_map_app. cbn [flat_map Nat.add].
    rewrite app_nil_r.
    destruct (probe_device w n) as [d0|] eqn:E.
    + pose proof (probe_device_index w _ _ E) as Hi. split.
      * apply increasing_app; [exact IH1|cbn; split; [intros d []|exact I]|].
        intros a b Ha [<-|[]]. rewrite Hi. apply IH2. exact Ha.
      * intros d Hd. apply in_app_or in Hd. destruct Hd as [Hd|[<-|[]]].
        -- specialize (IH2 d Hd). lia.
        -- lia.
    + rewrite app_nil_r. split; [exact IH1|]. intros d Hd. specialize (IH2 d Hd). lia.
Qed.

Lemma enumerate_complete (n j : nat) (d : candidate) :
  (j < n)%nat -> probe_device w j = Some d -> In d (enumerate w n).
Proof.
  intros Hj Hd. unfold enumerate. apply in_flat_map. exists j. split.
  - apply in_seq. lia.
  - rewrite Hd. left. reflexivity.
Qed.

(** What the selection returns, from the sorted list. *)
Lemma selection_result (self : client) (n : nat) :
  pyaudio_instance self = Some tt ->
  get_device_count w = Ok n ->
  result (find_best_microphone w self)
    = Ok (option_map index (hd_error (sort_desc (enumerate w n)))).
Proof.
  intros Hp Hn. unfold find_best_microphone. run. rewrite Hp, Hn.
  cbn -[sort_desc firstn log_devices choose_rate].
  destruct (enumerate w n) as [|d0 ds] eqn:En;
    cbn -[sort_desc firstn log_devices choose_rate]; [reflexivity|].
  destruct (log_devices_run (firstn 5 (sort_desc (d0 :: ds))) self) as (t & Ht & _).
  rewrite Ht. cbn -[sort_desc firstn log_devices choose_rate].
  destruct (sort_desc (d0 :: ds)) as [|best rest];
    cbn -[sort_desc firstn log_devices choose_rate]; [reflexivity|].
  rewrite choose_rate_run. reflexivity.
Qed.

(** The device returned is the top-ranked one: no usable device has a
    larger key (priority, then support of 44100 Hz, then number of
    supported rates), and among devices with the same key the one with
    the lowest index is returned. *)
Theorem best_device_is_top_ranked (self : client) (n i : nat) :
  pyaudio_instance self = Some tt ->
  get_device_count w = Ok n ->
  result (find_best_microphone w self) = Ok (Some i) ->
  exists best,
    probe_device w i = Some best /\
    (i < n)%nat /\
    forall j d,
      (j < n)%nat -> probe_device w j = Some d ->
      key_lt (key best) (key d) = false /\
      ((j < i)%nat -> key_lt (key d) (key best) = true).
Proof.
  intros Hp Hn Hres. rewrite (selection_result self n Hp Hn), hd_sort_desc in Hres.
  destruct (first_best (enumerate w n)) as [best|] eqn:Eb; [|discriminate].
  cbn in Hres. injection Hres as <-.
  destruct (first_best_split _ _ Eb) as (pre & post & Hsplit & Hpre & Hpost).
  destruct (enumerate_increasing n) as [Hinc Hbound].
  rewrite Hsplit in Hinc. destruct (increasing_split _ _ _ Hinc) as [Hlow Hhigh].
  assert (Hin : In best (enumerate w n)).
  { rewrite Hsplit. apply in_or_app. right. left. reflexivity. }
  exists best. split; [apply (enumerate_sound w n); exact Hin|].
  split; [apply Hbound; exact Hin|].
  intros j d Hj Hd. pose proof (probe_device_index w _ _ Hd) as Hi.
  pose proof (enumerate_complete n j d Hj Hd) as Hdin.
  rewrite Hsplit in Hdin. apply in_app_or in Hdin.
  destruct Hdin as [Hd1|[<-|Hd3]].
  - split; [apply key_lt_asym; auto|]. intros _. auto.
  - split; [apply key_lt_irrefl|]. intros Hlt. lia.
  - split; [auto|]. intros Hlt. specialize (Hhigh d Hd3). lia.
Qed.

(** No device is returned exactly when none qualifies: every device
    either cannot be queried, has no input channel, or accepts none of
    the four test rates. *)
Theorem no_device_iff_none_qualifies (self : client) (n : nat) :
  pyaudio_instance self = Some tt ->
  get_device_count w = Ok n ->
  (result (find_best_microphone w self) = Ok None <->
   forall j, (j < n)%nat -> probe_device w j = None).
Proof.
  intros Hp Hn. rewrite (selection_result self n Hp Hn), hd_sort_desc. split.
  - intros H j Hj. destruct (probe_device w j) as [d|] eqn:E; [|reflexivity].
    pose proof (enumerate_complete n j d Hj E) as Hin.
    destruct (enumerate w n) as [|x l]; [destruct Hin|].
    unfold first_best in H. cbn [fold_left pick] in H.
    destruct (fold_pick_split l [x] x [] []) as (b' & _ & _ & H1 & _);
      try reflexivity; try (intros ? []).
    rewrite H1 in H. discriminate.
  - intros H. destruct (enumerate w n) as [|x l] eqn:E; [reflexivity|].
    assert (Hin : In x (enumerate w n)) by (rewrite E; left; reflexivity).
    pose proof (enumerate_sound w n x Hin) as Hs.
    destruct (enumerate_increasing n) as [_ Hb].
    rewrite (H (index x) (Hb x Hin)) in Hs. discriminate.
Qed.

(** The rate the selection configures is one of the four test rates,
    and one the returned device was probed to accept. *)
Theorem selected_rate_is_supported (self : client) (i : nat) :
  let r := find_best_microphone w self in
  result r = Ok (Some i) ->
  is_format_supported w (input_sample_rate (after r)) i = Ok true /\
  In (input_sample_rate (after r)) test_rates.
Proof.
  cbv zeta. destruct (selection_run w self) as (o & rate & t & E & _ & Ho).
  rewrite E. unfold result, after. cbn [fst snd]. intros H. injection H as ->.
  destruct Ho as (best & Hb & ->).
  assert (Hrates : supported_rates best = probe_rates w i /\ supported_rates best <> []).
  { unfold probe_device in Hb.
    destruct (get_device_info_by_index w i) as [info|e]; [|discriminate].
    destruct (0 <? maxInputChannels info); [|discriminate].
    destruct (probe_rates w i) as [|r0 rs] eqn:Er; [discriminate|].
    injection Hb as <-. cbn. split; [reflexivity|discriminate]. }
  destruct Hrates as [Hr Hne].
  assert (Hin : In (chosen_rate (input_sample_rate self) (supported_rates best))
                   (supported_rates best)).
  { unfold chosen_rate, mem.
    destruct (existsb (Z.eqb 44100) (supported_rates best)) eqn:E1.
    { apply existsb_exists in E1. destruct E1 as (x & Hx & Hxe).
      apply Z.eqb_eq in Hxe. subst x. exact Hx. }
    destruct (existsb (Z.eqb 48000) (supported_rates best)) eqn:E2.
    { apply existsb_exists in E2. destruct E2 as (x & Hx & Hxe).
      apply Z.eqb_eq in Hxe. subst x. exact Hx. }
    destruct (supported_rates best); [contradiction|]. left. reflexivity. }
  cbn [set_input_sample_rate input_sample_rate].
  remember (chosen_rate (input_sample_rate self) (supported_rates best)) as rate eqn:Hrate.
  clear Hrate. rewrite Hr in Hin. unfold probe_rates in Hin. apply filter_In in Hin.
  destruct Hin as [Hin Hok]. split; [|exact Hin].
  destruct (is_format_supported w rate i) as [[]|]; [reflexivity|discriminate|discriminate].
Qed.

End WithWorld.

Lemma prefix_shorter (a x h : string) :
  prefix (a ++ x) h = true -> prefix a h = true.
Proof.
  revert h. induction a as [|c a IH]; intros h H; [destruct h; reflexivity|].
  destruct h as [|d h]; cbn in *; [discriminate|].
  destruct (ascii_dec c d); [apply IH; exact H|discriminate].
Qed.

Lemma str_in_shorter (a x h : string) :
  str_in (a ++ x) h = true -> str_in a h = true.
Proof.
  induction h as [|d h IH]; cbn [str_in]; intros H.
  - destruct (prefix (a ++ x) "") eqn:E; [|discriminate].
    rewrite (prefix_shorter _ _ _ E). reflexivity.
  - destruct (prefix (a ++ x) (String d h)) eqn:E.
    + rewrite (prefix_shorter _ _ _ E). reflexivity.
    + rewrite (IH H). destruct (prefix a (String d h)); reflexivity.
Qed.

(** The keywords that decide the priority: a name with [logitech] has
    [logitec], and a name with [microphone] has [mic], so the priority is
    3 for any name containing [logitec], else 2 for any name containing
    [mic], else 1 for [headset] or [headphone], else 0. *)
Theorem priority_keywords (device_name : string) :
  priority_of device_name =
    if str_in "logitec" device_name then 3
    else if str_in "mic" device_name then 2
    else if str_in "headset" device_name || str_in "headphone" device_name then 1
    else 0.
Proof.
  unfold priority_of.
  destruct (str_in "logitec" device_name) eqn:E1.
  - rewrite orb_true_r. reflexivity.
  - destruct (str_in "logitech" device_name) eqn:E2.
    + apply (str_in_shorter "logitec" "h") in E2. congruence.
    + cbn [orb]. destruct (str_in "mic" device_name) eqn:E3.
      * rewrite orb_true_r. reflexivity.
      * destruct (str_in "microphone" device_name) eqn:E4; [|reflexivity].
        apply (str_in_shorter "mic" "rophone") in E4. congruence.
Qed.

Lemma best_device_is_top_ranked_witness :
  exists best,
    probe_device Shapes.two_devices 1 = Some best /\
    (1 < 2)%nat /\
    forall j d,
      (j < 2)%nat -> probe_device Shapes.two_devices j = Some d ->
      key_lt (key best) (key d) = false /\
      ((j < 1)%nat -> key_lt (key d) (key best) = true).
Proof.
  exact (best_device_is_top_ranked Shapes.two_devices
           (set_pyaudio_instance (Some tt) (init CONFIG false)) 2 1
           eq_refl eq_refl eq_refl).
Defined.

Lemma no_device_iff_none_qualifies_witness :
  result (find_best_microphone (one_device [])
            (set_pyaudio_instance (Some tt) (init CONFIG false)))
    = Ok None <->
  forall j, (j < 1)%nat -> probe_device (one_device []) j = None.
Proof.
  exact (no_device_iff_none_qualifies (one_device [])
           (set_pyaudio_instance (Some tt) (init CONFIG false)) 1 eq_refl eq_refl).
Defined.

Lemma selected_rate_is_supported_witness :
  is_format_supported (one_device [16000; 8000])
    (input_sample_rate
       (after (find_best_microphone (one_device [16000; 8000])
                 (set_pyaudio_instance (Some tt) (init CONFIG false))))) 0 = Ok true /\
  In (input_sample_rate
        (after (find_best_microphone (one_device [16000; 8000])
                  (set_pyaudio_instance (Some tt) (init CONFIG false))))) test_rates.
Proof.
  exact (selected_rate_is_supported (one_device [16000; 8000])
           (set_pyaudio_instance (Some tt) (init CONFIG false)) 0 eq_refl).
Defined.

End RankingFacts.

(** ** Result Presenter: the block of a final result *)

Module PresenterMore.

Import PyStr PyVal Presenter Shapes.
Open Scope string_scope.
Open Scope list_scope.

Lemma append_empty_r (s : string) : (s ++ "")%string = s.
Proof. induction s as [|c s IH]; cbn; [reflexivity|]. rewrite IH. reflexivity. Qed.

Lemma then_ok (a b : out) : fst a = Ok tt -> then_ a b = (fst b, snd a ++ snd b).
Proof. destruct a as [[[]|e] la]; cbn; [reflexivity|discriminate]. Qed.

Lemma then_raise (a b : out) (e : exn) : fst a = Raise e -> then_ a b = (Raise e, snd a).
Proof. destruct a as [[[]|e'] la]; cbn; [discriminate|]. intros H. injection H as ->. reflexivity. Qed.

Lemma print_translation_ok (t : pyval) :
  well_formed_translation t -> print_translation t = (Ok tt, [translation_line t]).
Proof.
  intros (d & to & text & -> & Hto & Htext).
  unfold print_translation, translation_line, subscript, item, with_value.
  rewrite Hto, Htext. reflexivity.
Qed.

Lemma print_translations_ok (ts : list pyval) :
  Forall well_formed_translation ts ->
  print_translations ts = (Ok tt, map translation_line ts).
Proof.
  induction 1 as [|t ts Ht _ IH]; [reflexivity|].
  cbn [print_translations map]. rewrite IH, (print_translation_ok t Ht). reflexivity.
Qed.

Lemma print_translations_stop (good rest : list pyval) (bad : pyval) (e : exn) :
  Forall well_formed_translation good ->
  ill_formed_translation bad e ->
  print_translations (good ++ bad :: rest) = (Raise e, map translation_line good).
Proof.
  intros Hgood Hbad. induction Hgood as [|t ts Ht _ IH].
  - cbn [app print_translations map].
    assert (Hpt : print_translation bad = (Raise e, [])).
    { unfold print_translation, with_value.
      destruct Hbad as [->|(to & -> & ->)]; reflexivity. }
    rewrite Hpt. reflexivity.
  - cbn [app print_translations map]. rewrite IH, (print_translation_ok t Ht). reflexivity.
Qed.

Lemma last_snoc {A} (l : list A) (x d : A) : last (l ++ [x]) d = x.
Proof.
  induction l as [|y l IH]; [reflexivity|].
  cbn [app]. destruct (l ++ [x]) eqn:E; [destruct l; discriminate|]. exact IH.
Qed.

Lemma chain_complete (h : list string) (a b c : out) (r : string) :
  fst a = Ok tt -> fst b = Ok tt -> fst c = Ok tt ->
  then_ (Ok tt, h) (then_ a (then_ b (then_ c (print r))))
  = (Ok tt, h ++ snd a ++ snd b ++ snd c ++ [line r]).
Proof.
  intros Ha Hb Hc.
  rewrite (then_ok (Ok tt, h)) by reflexivity.
  rewrite (then_ok a) by exact Ha.
  rewrite (then_ok b) by exact Hb.
  rewrite (then_ok c) by exact Hc. reflexivity.
Qed.

(** The body of the final branch, by its sections. *)
Lemma final_branch (data : list (string * pyval)) :
  get data "status" = VStr "recognized" ->
  handle_speech_result data =
    then_ (Ok tt, head_lines data)
      (then_
         (if truthy (get data "translations") then
            then_ (print "   Translations:")
              match iterate (get data "translations") with
              | Ok l => print_translations l
              | Raise e => fail e
              end
          else skip)
         (then_
            (if truthy (get data "sentiment") then
               with_value (subscript (get data "sentiment") "label") (fun label =>
               with_value (subscript (get data "sentiment") "score") (fun score =>
               print ("   Sentiment: " ++ str label ++ " (" ++ str score ++ ")")%string))
             else skip)
            (then_
               (if truthy (get data "redactedText") &&
                   negb (py_eq (get data "redactedText") (get_default data "text" (VStr "")))
                then print ("   Redacted: " ++ quoted (str (get data "redactedText")))%string
                else skip)
               (print (repeat_str glyph_rule 60))))).
Proof.
  intros Hstatus. unfold handle_speech_result. rewrite Hstatus.
  change (py_eq (VStr "recognized") (VStr "recognizing")) with false.
  change (py_eq (VStr "recognized") (VStr "recognized")) with true.
  cbv iota. unfold head_lines.
  unfold then_ at 1 2 3 4, print at 1 2 3 4, print_end. cbn [fst snd app].
  destruct (then_ _ _) as [r l]. reflexivity.
Qed.

(** A final event whose optional sections are well formed never makes
    the presenter raise, and its block is complete: the four head lines
    first, the rule line last. *)
Theorem well_formed_block_is_complete (data : list (string * pyval)) :
  get data "status" = VStr "recognized" ->
  (truthy (get data "translations") = false \/
   exists ts, get data "translations" = VList ts /\ Forall well_formed_translation ts) ->
  (truthy (get data "sentiment") = false \/ well_formed_sentiment (get data "sentiment")) ->
  fst (handle_speech_result data) = Ok tt /\
  firstn 4 (snd (handle_speech_result data)) = head_lines data /\
  last (snd (handle_speech_result data)) "" = rule_line.
Proof.
  intros Hstatus Htr Hse. rewrite (final_branch data Hstatus).
  rewrite chain_complete.
  - cbn [fst snd]. split; [reflexivity|]. split; [reflexivity|].
    rewrite !app_assoc. apply last_snoc.
  - destruct Htr as [->|(ts & Hts & Hwf)]; [reflexivity|].
    rewrite Hts. cbn [truthy iterate]. destruct ts; [reflexivity|].
    rewrite (print_translations_ok _ Hwf). reflexivity.
  - destruct Hse as [->|(d & label & score & Hd & Hl & Hs)]; [reflexivity|].
    rewrite Hd. cbn [truthy]. destruct d; [discriminate|].
    unfold subscript, item, with_value. rewrite Hl, Hs. reflexivity.
  - destruct (_ && _); reflexivity.
Qed.

(** A translation entry that is not a dict with [to] and [text] makes
    the presenter raise in the middle of the block: the head lines, the
    [Translations:] caption and the entries before the bad one are
    printed, and nothing after them (no sentiment, no redaction, no rule
    line). *)
Theorem bad_translation_cuts_the_block
  (data : list (string * pyval)) (good rest : list pyval) (bad : pyval) (e : exn) :
  get data "status" = VStr "recognized" ->
  get data "translations" = VList (good ++ bad :: rest) ->
  Forall well_formed_translation good ->
  ill_formed_translation bad e ->
  handle_speech_result data =
    (Raise e,
     head_lines data ++ line "   Translations:" :: map translation_line good).
Proof.
  intros Hstatus Hts Hgood Hbad. rewrite (final_branch data Hstatus).
  rewrite (then_ok (Ok tt, head_lines data)) by reflexivity. cbn [fst snd].
  rewrite Hts.
  assert (Ht : truthy (VList (good ++ bad :: rest)) = true) by (destruct good; reflexivity).
  rewrite Ht. cbn [iterate].
  rewrite (print_translations_stop good rest bad e Hgood Hbad).
  unfold then_ at 2, print, print_end. cbn [fst snd app].
  rewrite (then_raise _ _ e) by reflexivity. reflexivity.
Qed.

(** Events that are not final: an interim result writes one chunk that
    carries no line feed and starts with a carriage return; any other
    status is ignored.  Neither raises. *)
Theorem non_final_events (data : list (string * pyval)) :
  py_eq (get data "status") (VStr "recognized") = false ->
  handle_speech_result data =
    if py_eq (get data "status") (VStr "recognizing")
    then (Ok tt,
          [(char "013" ++ glyph_refresh ++ " Recognizing: " ++
            (if truthy (get_default data "text" (VStr ""))
             then str (get_default data "text" (VStr "")) else "..."))%string])
    else (Ok tt, []).
Proof.
  intros H. unfold handle_speech_result. rewrite H.
  destruct (py_eq (get data "status") (VStr "recognizing")); [|reflexivity].
  unfold print_end, py_or. rewrite append_empty_r.
  destruct (truthy (get_default data "text" (VStr ""))); reflexivity.
Qed.

Lemma well_formed_block_is_complete_witness :
  let data := [("status", VStr "recognized"); ("text", VStr "hola");
               ("translations", VList [VDict [("to", VStr "en"); ("text", VStr "hi")]]);
               ("sentiment", VDict [("label", VStr "positive"); ("score", VFloat 0.5%float)])] in
  fst (handle_speech_result data) = Ok tt /\
  firstn 4 (snd (handle_speech_result data)) = head_lines data /\
  last (snd (handle_speech_result data)) "" = rule_line.
Proof.
  apply (well_formed_block_is_complete
           [("status", VStr "recognized"); ("text", VStr "hola");
            ("translations", VList [VDict [("to", VStr "en"); ("text", VStr "hi")]]);
            ("sentiment", VDict [("label", VStr "positive"); ("score", VFloat 0.5%float)])]).
  - reflexivity.
  - right. eexists. split; [reflexivity|].
    constructor; [|constructor]. do 3 eexists. repeat split; reflexivity.
  - right. do 3 eexists. repeat split; reflexivity.
Defined.

Lemma bad_translation_cuts_the_block_witness :
  let data := [("status", VStr "recognized"); ("text", VStr "hola");
               ("translations", VList [VDict [("to", VStr "en"); ("text", VStr "hi")];
                                       VDict [("to", VStr "fr")]])] in
  handle_speech_result data =
    (Raise KeyError,
     head_lines data ++
       line "   Translations:" ::
       map translation_line [VDict [("to", VStr "en"); ("text", VStr "hi")]]).
Proof.
  apply (bad_translation_cuts_the_block
           [("status", VStr "recognized"); ("text", VStr "hola");
            ("translations", VList [VDict [("to", VStr "en"); ("text", VStr "hi")];
                                    VDict [("to", VStr "fr")]])]
           [VDict [("to", VStr "en"); ("text", VStr "hi")]] [] (VDict [("to", VStr "fr")])).
  - reflexivity.
  - reflexivity.
  - constructor; [|constructor]. do 3 eexists. repeat split; reflexivity.
  - right. eexists. split; reflexivity.
Defined.

Lemma non_final_events_witness :
  handle_speech_result [("status", VStr "recognizing"); ("text", VStr "")] =
    (Ok tt, [(char "013" ++ glyph_refresh ++ " Recognizing: ...")%string]).
Proof.
  exact (non_final_events [("status", VStr "recognizing"); ("text", VStr "")] eq_refl).
Defined.

End PresenterMore.

(** ** Transport Session: outcomes and the query string *)

Module TransportMore.

Import PyStr PyVal Client Capture Transport Observe Shapes.
Open Scope string_scope.
Open Scope list_scope.
Open Scope Z_scope.

Lemma all_chars_app (f : ascii -> bool) (a b : string) :
  all_chars f (a ++ b)%string = all_chars f a && all_chars f b.
Proof.
  induction a as [|c a IH]; cbn; [reflexivity|]. rewrite IH, andb_assoc. reflexivity.
Qed.

Lemma all_chars_weaken (f g : ascii -> bool) (s : string) :
  (forall c, f c = true -> g c = true) -> all_chars f s = true -> all_chars g s = true.
Proof.
  intros Hfg. induction s as [|c s IH]; cbn; [reflexivity|].
  intros H. apply andb_prop in H. destruct H as [Hc Hs].
  rewrite (Hfg c Hc), (IH Hs). reflexivity.
Qed.

(** Every code point, one by one. *)
Lemma quote_plus_char_safe (c : ascii) : all_chars url_safe (quote_plus_char c) = true.
Proof.
  destruct c as [b0 b1 b2 b3 b4 b5 b6 b7].
  destruct b0, b1, b2, b3, b4, b5, b6, b7; vm_compute; reflexivity.
Qed.

Lemma quote_plus_safe (s : string) : all_chars url_safe (quote_plus s) = true.
Proof.
  induction s as [|c s IH]; cbn [quote_plus]; [reflexivity|].
  rewrite all_chars_app, quote_plus_char_safe, IH. reflexivity.
Qed.

Lemma url_safe_is_query_char (c : ascii) : url_safe c = true -> query_char c = true.
Proof. unfold query_char. intros ->. reflexivity. Qed.

Lemma urlencode_chars (params : list (string * string)) :
  all_chars query_char (urlencode params) = true.
Proof.
  unfold urlencode.
  induction params as [|[k v] params IH]; [reflexivity|].
  assert (Hkv : all_chars query_char (quote_plus k ++ "=" ++ quote_plus v)%string = true).
  { rewrite !all_chars_app.
    rewrite (all_chars_weaken _ _ _ url_safe_is_query_char (quote_plus_safe k)).
    rewrite (all_chars_weaken _ _ _ url_safe_is_query_char (quote_plus_safe v)).
    reflexivity. }
  cbn [map join fst snd] in *.
  destruct (map _ params) as [|p ps] eqn:E; [exact Hkv|].
  rewrite all_chars_app, Hkv, all_chars_app, IH. reflexivity.
Qed.

(** Whatever the options hold, the query string built by [connect] is
    made of unreserved characters, percent escapes, plus signs and the
    separators [&] and [=] only, and the separators come from the
    builder alone: an encoded key or value holds none, nor any of
    [?], [#], [/] or a space. *)
Theorem query_string_is_escaped (cfg : session_config) :
  all_chars query_char (query_string cfg) = true /\
  (forall s, all_chars url_safe (quote_plus s) = true) /\
  (forall c, In c ["&"; "="; "?"; "#"; "/"; " "]%char -> url_safe c = false).
Proof.
  split; [apply urlencode_chars|]. split; [apply quote_plus_safe|].
  intros c H. repeat (destruct H as [<-|H]; [reflexivity|]). destruct H.
Qed.

Section WithWorld.

Variable w : world.

(** [connect] ends as [sio.connect] does, with the same exception if
    any; it records the running loop and changes nothing else of the
    client: the connection flag is left to the socket handlers. *)
Theorem connect_outcome (self : client) :
  let run := connect w self in
  result run = sio_connect w (request (config self)) /\
  after run = set_loop (Some tt) self /\
  is_connected (after run) = is_connected self /\
  io (calls run) = [SioConnect (request (config self))].
Proof.
  unfold connect, io. run.
  change (config (set_loop (Some tt) self)) with (config self).
  destruct (sio_connect w (request (config self))) as [[]|e]; cbn; repeat split; reflexivity.
Qed.

(** What [disconnect] calls, whatever the state: the socket is
    disconnected exactly when the client is connected; [streamEnd] is
    emitted at most once, and only by a client that was recording and
    connected; a client that is not recording only has its socket
    disconnected; and the client is left not recording. *)
Theorem disconnect_calls (self : client) :
  let run := disconnect w self in
  (In SioDisconnect (calls run) <-> is_connected self = true) /\
  (count_emits (calls run) <= 1)%nat /\
  (count_emits (calls run) = 1%nat -> is_recording self = true /\ is_connected self = true) /\
  (is_recording self = false ->
   io (calls run) = if is_connected self then [SioDisconnect] else []) /\
  is_recording (after run) = false.
Proof.
  unfold disconnect, stop_recording, io. run.
  destruct (is_recording self) eqn:Hrec; destruct (is_connected self) eqn:Hcon; cbn;
    rewrite ?Hcon; cbn.
  3:{ destruct (sio_disconnect w) as [[]|e]; cbn; settle. }
  3:{ settle. }
  all: destruct (audio_stream self); cbn; rewrite ?Hcon; cbn;
    [destruct (stop_stream w) as [[]|]; cbn; rewrite ?Hcon; cbn;
     [destruct (close_stream w) as [[]|]; cbn; rewrite ?Hcon; cbn|]|];
    try (destruct (pyaudio_instance self); cbn; rewrite ?Hcon; cbn;
         [destruct (terminate w) as [[]|]; cbn; rewrite ?Hcon; cbn|]);
    try (destruct (sio_emit w "streamEnd") as [[]|]; cbn; rewrite ?Hcon; cbn);
    try (destruct (sio_disconnect w) as [[]|]; cbn);
    settle.
Qed.

End WithWorld.

End TransportMore.

(** ** Rules for runs *)

Module LogicFacts.

Import Client Logic.
Open Scope list_scope.

Lemma post_bind {A B} (m : M A) (k : A -> M B) (c : client)
  (Q : res B -> client -> list event -> Prop) :
  post m c (fun r c1 t1 =>
              match r with
              | Ok a => post (k a) c1 (fun r2 c2 t2 => Q r2 c2 (t1 ++ t2))
              | Raise e => Q (Raise e) c1 t1
              end) ->
  post (bind m k) c Q.
Proof.
  unfold post, bind, result, after, calls.
  destruct (m c) as [[[a|e] c1] t1]; cbn [fst snd]; [|auto].
  destruct (k a c1) as [[r2 c2] t2]. auto.
Qed.

Lemma post_catch {A} (m : M A) (handler : exn -> M A) (c : client)
  (Q : res A -> client -> list event -> Prop) :
  post m c (fun r c1 t1 =>
              match r with
              | Ok a => Q (Ok a) c1 t1
              | Raise e => post (handler e) c1 (fun r2 c2 t2 => Q r2 c2 (t1 ++ t2))
              end) ->
  post (catch m handler) c Q.
Proof.
  unfold post, catch, result, after, calls.
  destruct (m c) as [[[a|e] c1] t1]; cbn [fst snd]; [auto|].
  destruct (handler e c1) as [[r2 c2] t2]. auto.
Qed.

Lemma post_weaken {A} (m : M A) (c : client)
  (Q Q' : res A -> client -> list event -> Prop) :
  (forall r c' t, Q r c' t -> Q' r c' t) -> post m c Q -> post m c Q'.
Proof. unfold post. auto. Qed.

Lemma post_log (l : level) (fields : list field) (c : client)
  (Q : res unit -> client -> list event -> Prop) :
  Q (Ok tt) c [Log l fields] -> post (log l fields) c Q.
Proof. unfold post. auto. Qed.

Lemma post_tell (e : event) (c : client) (Q : res unit -> client -> list event -> Prop) :
  Q (Ok tt) c [e] -> post (tell e) c Q.
Proof. unfold post. auto. Qed.

Lemma post_call {A} (e : event) (answer : res A) (c : client)
  (Q : res A -> client -> list event -> Prop) :
  Q answer c [e] -> post (call e answer) c Q.
Proof. unfold post. auto. Qed.

Lemma post_read {A} (f : client -> A) (c : client)
  (Q : res A -> client -> list event -> Prop) :
  Q (Ok (f c)) c [] -> post (read f) c Q.
Proof. unfold post. auto. Qed.

Lemma post_modify (f : client -> client) (c : client)
  (Q : res unit -> client -> list event -> Prop) :
  Q (Ok tt) (f c) [] -> post (modify f) c Q.
Proof. unfold post. auto. Qed.

Lemma post_lift {A} (r : res A) (c : client) (Q : res A -> client -> list event -> Prop) :
  Q r c [] -> post (lift r) c Q.
Proof. unfold post. auto. Qed.

Lemma post_ret {A} (a : A) (c : client) (Q : res A -> client -> list event -> Prop) :
  Q (Ok a) c [] -> post (ret a) c Q.
Proof. unfold post. auto. Qed.

Lemma post_raise {A} (e : exn) (c : client) (Q : res A -> client -> list event -> Prop) :
  Q (Raise e) c [] -> post (raise e) c Q.
Proof. unfold post. auto. Qed.

Lemma post_when (b : bool) (m : M unit) (c : client)
  (Q : res unit -> client -> list event -> Prop) :
  (if b then post m c Q else Q (Ok tt) c []) -> post (when b m) c Q.
Proof. destruct b; cbn; [auto|apply post_ret]. Qed.

(** One step through a method body. *)
Ltac step :=
  cbv beta iota;
  lazymatch goal with
  | |- post (bind _ _) _ _ => apply post_bind
  | |- post (catch _ _) _ _ => apply post_catch
  | |- post (log _ _) _ _ => apply post_log
  | |- post (tell _) _ _ => apply post_tell
  | |- post (call _ _) _ _ => apply post_call
  | |- post (read _) _ _ => apply post_read
  | |- post (modify _) _ _ => apply post_modify
  | |- post (lift _) _ _ => apply post_lift
  | |- post (ret _) _ _ => apply post_ret
  | |- post (raise _) _ _ => apply post_raise
  | |- post (when _ _) _ _ => apply post_when
  end.

End LogicFacts.

(** ** Capture Driver: what a start leaves behind, whatever its outcome *)

Module CaptureMore.

Import PyStr PyVal Client Capture Observe Shapes Logic LogicFacts.
Open Scope string_scope.
Open Scope list_scope.
Open Scope Z_scope.

Lemma forallb_weaken {A} (f g : A -> bool) (l : list A) :
  (forall x, f x = true -> g x = true) -> forallb f l = true -> forallb g l = true.
Proof.
  intros Hfg H. rewrite forallb_forall in *. intros x Hx. apply Hfg, H, Hx.
Qed.

Lemma log_keeps_resources (e : event) : is_log e = true -> keeps_resources e = true.
Proof. destruct e; cbn; intros H; try discriminate; reflexivity. Qed.

Section WithWorld.

Variable w : world.

(** The loop over the rates only logs and calls [open]; it leaves the
    flags and the PortAudio instance alone. *)
Lemma open_frame (device : option nat) (rates : list Z) :
  forall (k : nat) (self : client),
    let run := open_with_fallback w rates k device self in
    is_recording (after run) = is_recording self /\
    is_connected (after run) = is_connected self /\
    pyaudio_instance (after run) = pyaudio_instance self /\
    is_windows (after run) = is_windows self /\
    forallb keeps_resources (calls run) = true.
Proof.
  induction rates as [|a rest IH]; intros k self; cbv zeta.
  - cbn. repeat split; auto.
  - destruct (pa_open w k a device) as [[]|e] eqn:E.
    + rewrite (CaptureFacts.open_round_accepted w _ _ _ _ _ E).
      unfold result, after, calls. cbn [fst snd].
      destruct (a =? input_sample_rate self); cbn; repeat split; auto.
    + rewrite (CaptureFacts.open_round_refused w _ _ _ _ _ _ E).
      destruct (a =? 16000).
      * unfold result, after, calls. cbn. repeat split; auto.
      * specialize (IH (S k) self). cbv zeta in IH.
        destruct IH as (H1 & H2 & H3 & H4 & H5).
        unfold result, after, calls in *. cbn [fst snd] in *.
        repeat split; auto.
Qed.

(** Whatever the selected rate and the answers of [open], the rates it
    is called with are the first ones of [r, 44100, 48000, 16000], in
    that order: at least one call, at most four, none skipped. *)
Theorem opens_follow_the_fallback_list (r : Z) (device : option nat) (self : client) :
  exists n : nat,
    (1 <= n <= 4)%nat /\
    opens (calls (open_with_fallback w (fallback_rates r) 0 device self))
      = firstn n (fallback_rates r).
Proof.
  unfold fallback_rates.
  destruct (pa_open w 0 r device) as [[]|e0] eqn:E0.
  { rewrite (CaptureFacts.open_round_accepted w _ _ _ _ _ E0). exists 1%nat.
    split; [lia|]. unfold calls. cbn [snd opens].
    destruct (r =? input_sample_rate self); reflexivity. }
  rewrite (CaptureFacts.open_round_refused w _ _ _ _ _ _ E0).
  destruct (r =? 16000); [exists 1%nat; split; [lia|reflexivity]|].
  destruct (pa_open w 1 44100 device) as [[]|e1] eqn:E1.
  { rewrite (CaptureFacts.open_round_accepted w _ _ _ _ _ E1). exists 2%nat.
    split; [lia|]. unfold calls. cbn [snd opens].
    destruct (44100 =? input_sample_rate self); reflexivity. }
  rewrite (CaptureFacts.open_round_refused w _ _ _ _ _ _ E1). cbn [Z.eqb Pos.eqb].
  destruct (pa_open w 2 48000 device) as [[]|e2] eqn:E2.
  { rewrite (CaptureFacts.open_round_accepted w _ _ _ _ _ E2). exists 3%nat.
    split; [lia|]. unfold calls. cbn [snd opens].
    destruct (48000 =? input_sample_rate self); reflexivity. }
  rewrite (CaptureFacts.open_round_refused w _ _ _ _ _ _ E2). cbn [Z.eqb Pos.eqb].
  exists 4%nat. split; [lia|].
  destruct (pa_open w 3 16000 device) as [[]|e3] eqn:E3.
  { rewrite (CaptureFacts.open_round_accepted w _ _ _ _ _ E3).
    unfold calls. cbn [snd opens].
    destruct (16000 =? input_sample_rate self); reflexivity. }
  rewrite (CaptureFacts.open_round_refused w _ _ _ _ _ _ E3). reflexivity.
Qed.

Lemma post_selection (c : client) (Q : res (option nat) -> client -> list event -> Prop) :
  (forall o rate t,
     forallb is_log t = true -> Q (Ok o) (set_input_sample_rate rate c) t) ->
  post (Devices.find_best_microphone w) c Q.
Proof.
  intros H. unfold post.
  destruct (DevicesFacts.selection_run w c) as (o & rate & t & E & Hlog & _).
  rewrite E. unfold result, after, calls. cbn [fst snd]. auto.
Qed.

Lemma post_open (device : option nat) (rates : list Z) (k : nat) (c : client)
  (Q : res unit -> client -> list event -> Prop) :
  (forall r c2 t2,
     is_recording c2 = is_recording c ->
     is_connected c2 = is_connected c ->
     pyaudio_instance c2 = pyaudio_instance c ->
     is_windows c2 = is_windows c ->
     forallb keeps_resources t2 = true ->
     Q r c2 t2) ->
  post (open_with_fallback w rates k device) c Q.
Proof.
  intros H. unfold post.
  destruct (open_frame device rates k c) as (H1 & H2 & H3 & H4 & H5). auto.
Qed.

(** Closes the goal left at an exit of a method body. *)
Ltac at_exit :=
  cbv beta iota; intros;
  repeat match goal with
         | |- _ /\ _ => split
         | |- post _ _ _ => step
         | |- context [if ?b then _ else _] => destruct b
         end;
  cbv beta iota; intros;
  cbn [is_recording is_connected pyaudio_instance is_windows
       set_is_recording set_pyaudio_instance set_input_sample_rate set_audio_stream] in *;
  rewrite ?forallb_app; cbn [forallb keeps_resources is_release negb andb app];
  repeat match goal with
         | H : forallb _ _ = true |- _ => rewrite H
         end;
  cbn [andb];
  try solve [auto | congruence | right; congruence | left; reflexivity].

(** A run of [start_recording], whatever its outcome. *)
Lemma start_recording_frame (self : client) :
  is_recording self = false ->
  post (start_recording w) self (fun r c t =>
    (r = Ok tt \/ is_recording c = false) /\
    is_connected c = is_connected self /\
    forallb keeps_resources t = true /\
    (pa_init w = Ok tt -> pyaudio_instance c = Some tt)).
Proof.
  intros Hrec. unfold start_recording. step. step. cbv beta iota. rewrite Hrec.
  do 12 step.
  destruct (pa_init w) as [[]|e0] eqn:Einit; [|solve [at_exit]].
  do 4 step. apply post_selection. intros o rate t Hlog.
  apply (forallb_weaken _ _ _ log_keeps_resources) in Hlog.
  cbv beta iota. step.
  assert (Hc1 : is_recording (set_input_sample_rate rate (set_pyaudio_instance (Some tt) self))
                = false) by exact Hrec.
  set (c1 := set_input_sample_rate rate (set_pyaudio_instance (Some tt) self)) in *.
  assert (Hcon : is_connected c1 = is_connected self) by reflexivity.
  assert (Hpa : pyaudio_instance c1 = Some tt) by reflexivity.
  clearbody c1.
  destruct o as [i|].
  - do 2 step. destruct (get_device_info_by_index w i) as [info|e1]; [|solve [at_exit]].
    do 8 step. apply post_open. intros r c2 t2 G1 G2 G3 G4 G5.
    rewrite Hc1 in G1. rewrite Hcon in G2. rewrite Hpa in G3.
    destruct r as [[]|e]; [|solve [at_exit]].
    do 3 step. destruct (audio_stream c2); [|solve [at_exit]].
    step. destruct (start_stream w) as [[]|e]; solve [at_exit].
  - do 8 step. apply post_open. intros r c2 t2 G1 G2 G3 G4 G5.
    rewrite Hc1 in G1. rewrite Hcon in G2. rewrite Hpa in G3.
    destruct r as [[]|e]; [|solve [at_exit]].
    do 3 step. destruct (audio_stream c2); [|solve [at_exit]].
    step. destruct (start_stream w) as [[]|e]; solve [at_exit].
Qed.

(** A start that raises leaves the client not recording and gives no
    audio resource back: it calls neither [stop_stream], [close] nor
    [terminate], and since the client is not recording, a
    [stop_recording] afterwards does nothing either.  The PortAudio
    instance created at the beginning stays on the client. *)
Theorem failed_start_releases_nothing (self : client) (e : exn) :
  is_recording self = false ->
  let run := start_recording w self in
  result run = Raise e ->
  is_recording (after run) = false /\
  is_connected (after run) = is_connected self /\
  forallb keeps_resources (calls run) = true /\
  stop_recording w (after run) = (Ok tt, after run, []) /\
  (pa_init w = Ok tt -> pyaudio_instance (after run) = Some tt).
Proof.
  intros Hrec run Hres.
  destruct (start_recording_frame self Hrec) as (H1 & H2 & H3 & H4).
  fold run in H1, H2, H3, H4.
  assert (Hoff : is_recording (after run) = false).
  { destruct H1 as [H1|H1]; [rewrite Hres in H1; discriminate|exact H1]. }
  repeat split; auto.
  unfold stop_recording, bind, read, ret. cbn [fst snd]. rewrite Hoff. reflexivity.
Qed.

End WithWorld.

Lemma failed_start_releases_nothing_witness :
  let w := one_device [16000] in
  let run := start_recording w (init CONFIG false) in
  is_recording (after run) = false /\
  is_connected (after run) = false /\
  forallb keeps_resources (calls run) = true /\
  stop_recording w (after run) = (Ok tt, after run, []) /\
  (pa_init w = Ok tt -> pyaudio_instance (after run) = Some tt).
Proof.
  exact (failed_start_releases_nothing (one_device [16000]) (init CONFIG false) OSError
           eq_refl eq_refl).
Defined.

Section Idle.

Variable fourier : list Z -> nat -> nat -> float.
Variable w : world.

Lemma stopped_is_idle (self : client) :
  is_recording (after (stop_recording w self)) = false.
Proof.
  unfold stop_recording. run.
  destruct (is_recording self) eqn:Hrec; cbn; [|exact Hrec].
  destruct (audio_stream self); cbn;
    [destruct (stop_stream w) as [[]|]; cbn; [|reflexivity];
     destruct (close_stream w) as [[]|]; cbn; [|reflexivity]|];
    (destruct (pyaudio_instance self); cbn;
     [destruct (terminate w) as [[]|]; cbn; [|reflexivity]|];
     (destruct (is_connected self); cbn;
      [destruct (sio_emit w "streamEnd") as [[]|]; cbn; reflexivity|reflexivity])).
Qed.

(** Once [stop_recording] has run, whether or not the release of the
    stream succeeded, a block the audio library still delivers is
    dropped: the callback schedules no emission, makes no call but the
    status warning, and leaves the client as it is. *)
Theorem no_frame_after_stop (self : client) (in_data : list byte) (status : Z) :
  let stopped := after (stop_recording w self) in
  let run := audio_callback fourier w in_data status stopped in
  scheduled (calls run) = [] /\
  io (calls run) = [] /\
  result run = Ok (in_data, paContinue) /\
  after run = stopped.
Proof.
  cbv zeta. pose proof (stopped_is_idle self) as Hoff.
  generalize dependent (after (stop_recording w self)). intros c Hoff.
  unfold audio_callback, io. run.
  destruct (status =? 0); cbn; rewrite Hoff; cbn; auto.
Qed.

End Idle.

End CaptureMore.

(** ** Rules for coroutines *)

Module OutcomeRules.

Import Client Orchestrator Outcome Logic LogicFacts Observe.
Open Scope list_scope.

Lemma ends_next {A B} (total : bool) (m : P A) (k : A -> P B) (s : app)
  (Q : res B -> app -> list event -> Prop) :
  ends total m s (fun r s1 t1 =>
                    match r with
                    | Ok a => ends total (k a) s1 (fun r2 s2 t2 => Q r2 s2 (t1 ++ t2))
                    | Raise e => Q (Raise e) s1 t1
                    end) ->
  ends total (next m k) s Q.
Proof.
  unfold ends, next.
  destruct (m s) as [[[[a|e] s1] t1]|]; [|auto|auto].
  destruct (k a s1) as [[[r2 s2] t2]|]; auto.
Qed.

Lemma ends_try_except {A} (total : bool) (m : P A) (handler : exn -> P A) (s : app)
  (Q : res A -> app -> list event -> Prop) :
  ends total m s (fun r s1 t1 =>
                    match r with
                    | Ok a => Q (Ok a) s1 t1
                    | Raise e => ends total (handler e) s1 (fun r2 s2 t2 => Q r2 s2 (t1 ++ t2))
                    end) ->
  ends total (try_except m handler) s Q.
Proof.
  unfold ends, try_except.
  destruct (m s) as [[[[a|e] s1] t1]|]; [auto| |auto].
  destruct (handler e s1) as [[[r2 s2] t2]|]; auto.
Qed.

Lemma ends_try_finally {A} (total : bool) (m : P A) (cleanup : P unit) (s : app)
  (Q : res A -> app -> list event -> Prop) :
  ends total m s (fun r s1 t1 =>
                    ends total cleanup s1 (fun r2 s2 t2 =>
                      Q (match r2 with Ok _ => r | Raise e => Raise e end) s2 (t1 ++ t2))) ->
  ends total (try_finally m cleanup) s Q.
Proof.
  unfold ends, try_finally.
  destruct (m s) as [[[r s1] t1]|]; [|auto].
  destruct (cleanup s1) as [[[[[]|e] s2] t2]|]; auto.
Qed.

Lemma ends_method {A} (total : bool) (m : M A) (s : app)
  (Q : res A -> app -> list event -> Prop) :
  post m (instance s) (fun r c t => Q r (with_instance c s) t) ->
  ends total (method m) s Q.
Proof.
  unfold ends, method, post, result, after, calls.
  destruct (m (instance s)) as [[r c] t]. auto.
Qed.

Lemma ends_get (total : bool) (s : app) (Q : res app -> app -> list event -> Prop) :
  Q (Ok s) s [] -> ends total get s Q.
Proof. unfold ends. auto. Qed.

Lemma ends_write (total : bool) (chunks : list string) (s : app)
  (Q : res unit -> app -> list event -> Prop) :
  Q (Ok tt) (with_stdout (stdout s ++ chunks) s) [] -> ends total (write chunks) s Q.
Proof. unfold ends. auto. Qed.

Lemma ends_print (total : bool) (text : string) (s : app)
  (Q : res unit -> app -> list event -> Prop) :
  Q (Ok tt) (with_stdout (stdout s ++ [(text ++ PyStr.char "010")%string]) s) [] ->
  ends total (print text) s Q.
Proof. unfold ends. auto. Qed.

Lemma ends_done {A} (total : bool) (a : A) (s : app)
  (Q : res A -> app -> list event -> Prop) :
  Q (Ok a) s [] -> ends total (done a) s Q.
Proof. unfold ends. auto. Qed.

Lemma ends_throw {A} (total : bool) (e : exn) (s : app)
  (Q : res A -> app -> list event -> Prop) :
  Q (Raise e) s [] -> ends total (throw e) s Q.
Proof. unfold ends. auto. Qed.

Lemma ends_branch (total : bool) (b : bool) (m : P unit) (s : app)
  (Q : res unit -> app -> list event -> Prop) :
  (if b then ends total m s Q else Q (Ok tt) s []) -> ends total (branch b m) s Q.
Proof. unfold branch. destruct b; [auto|]. intros H. apply ends_done, H. Qed.

Lemma ends_weaken {A} (total : bool) (m : P A) (s : app)
  (Q Q' : res A -> app -> list event -> Prop) :
  (forall r s' t, Q r s' t -> Q' r s' t) -> ends total m s Q -> ends total m s Q'.
Proof. unfold ends. destruct (m s) as [[[r s'] t]|]; auto. Qed.

Lemma ends_partial {A} (total : bool) (m : P A) (s : app)
  (Q : res A -> app -> list event -> Prop) :
  ends true m s Q -> ends total m s Q.
Proof. unfold ends. destruct (m s) as [[[r s'] t]|]; [auto|discriminate]. Qed.

(** One step through a coroutine body. *)
Ltac pstep :=
  cbv beta iota;
  lazymatch goal with
  | |- ends _ (next _ _) _ _ => apply ends_next
  | |- ends _ (try_except _ _) _ _ => apply ends_try_except
  | |- ends _ (try_finally _ _) _ _ => apply ends_try_finally
  | |- ends _ (method _) _ _ => apply ends_method
  | |- ends _ get _ _ => apply ends_get
  | |- ends _ (write _) _ _ => apply ends_write
  | |- ends _ (print _) _ _ => apply ends_print
  | |- ends _ (done _) _ _ => apply ends_done
  | |- ends _ (throw _) _ _ => apply ends_throw
  | |- ends _ (branch _ _) _ _ => apply ends_branch
  | |- post _ _ _ => step
  end.

End OutcomeRules.

(** ** Orchestrator: handlers, shutdown and [main] *)

Module OrchestratorFacts.

Import PyStr PyVal Client Capture Orchestrator Outcome Logic LogicFacts OutcomeRules Observe Shapes.
Open Scope string_scope.
Open Scope list_scope.
Open Scope Z_scope.

(** A handler changes the connection flag, sets the event or prints;
    it makes no call but log records, and what it raises is dropped. *)
Lemma dispatch_run (h : happening) (s : app) :
  exists s' t,
    dispatch h s = Some (Ok tt, s', t) /\
    same_capture (instance s) (instance s') /\
    is_connected (instance s') = link (is_connected (instance s)) h /\
    shutdown_event s' = shutdown_event s || is_signal h /\
    pending s' = pending s /\
    forallb is_log t = true.
Proof.
  destruct s as [c ev out pend]. destruct c.
  destruct h; unfold dispatch, try_except, handler_of;
    try (eexists; eexists; split; [reflexivity|];
         cbn; rewrite ?orb_false_r, ?orb_true_r; repeat split; reflexivity).
  unfold speechRecognized, next, method, log, tell.
  destruct (Presenter.handle_speech_result data) as [[[]|e] printed];
    (eexists; eexists; split; [reflexivity|];
     cbn; rewrite ?orb_false_r; repeat split; reflexivity).
Qed.

Lemma same_capture_refl (c : client) : same_capture c c.
Proof. destruct c. unfold same_capture. repeat split; reflexivity. Qed.

Lemma same_capture_trans (a b c : client) :
  same_capture a b -> same_capture b c -> same_capture a c.
Proof.
  unfold same_capture. intros (H1 & H2 & H3 & H4) (G1 & G2 & G3 & G4).
  repeat split; try congruence.
  rewrite G4, H4. destruct a. reflexivity.
Qed.

Lemma run_batch_run (batch : list happening) :
  forall s : app,
  exists s' t,
    run_batch batch s = Some (Ok tt, s', t) /\
    same_capture (instance s) (instance s') /\
    is_connected (instance s') = linked batch (is_connected (instance s)) /\
    shutdown_event s' = shutdown_event s || existsb is_signal batch /\
    pending s' = pending s /\
    forallb is_log t = true.
Proof.
  induction batch as [|h rest IH]; intros s.
  - exists s, []. cbn. rewrite orb_false_r.
    split; [reflexivity|]. split; [apply same_capture_refl|]. repeat split; reflexivity.
  - destruct (dispatch_run h s) as (s1 & t1 & E1 & C1 & L1 & S1 & P1 & G1).
    destruct (IH s1) as (s2 & t2 & E2 & C2 & L2 & S2 & P2 & G2).
    exists s2, (t1 ++ t2). cbn [run_batch]. unfold next. rewrite E1, E2.
    split; [reflexivity|]. split; [eauto using same_capture_trans|].
    split; [rewrite L2, L1; reflexivity|].
    split; [cbn [existsb]; rewrite S2, S1, orb_assoc; reflexivity|].
    split; [congruence|].
    rewrite forallb_app, G1, G2. reflexivity.
Qed.

(** Whatever handlers run while [main] is suspended, a [disconnect]
    or a result event the presenter raises on among them, they return
    to the loop without stopping the capture: the recording flag, the
    stream and the PortAudio instance are untouched and no call but log
    records is made.  The connection flag is the one the last
    connection handler set, and the event is set exactly by a signal
    and never cleared. *)
Theorem handlers_leave_the_capture_alone (batch : list happening) (s : app) :
  exists s' t,
    run_batch batch s = Some (Ok tt, s', t) /\
    is_recording (instance s') = is_recording (instance s) /\
    audio_stream (instance s') = audio_stream (instance s) /\
    pyaudio_instance (instance s') = pyaudio_instance (instance s) /\
    is_connected (instance s') = linked batch (is_connected (instance s)) /\
    (shutdown_event s' = true <-> shutdown_event s = true \/ In Signal batch) /\
    forallb is_log t = true.
Proof.
  destruct (run_batch_run batch s) as (s' & t & E & (C1 & C2 & C3 & _) & L & S & _ & G).
  exists s', t. repeat split; auto.
  - rewrite S. intros H. apply orb_prop in H. destruct H as [H|H]; [left; exact H|].
    right. apply existsb_exists in H. destruct H as (h & Hin & Hh).
    destruct h; try discriminate. exact Hin.
  - rewrite S. intros [H|H]; [rewrite H; reflexivity|].
    apply orb_true_iff. right. apply existsb_exists. exists Signal. auto.
Qed.

Lemma suspend_run (s : app) :
  exists s' t,
    suspend s = Some (Ok tt, s', t) /\
    same_capture (instance s) (instance s') /\
    is_connected (instance s') = linked (hd [] (pending s)) (is_connected (instance s)) /\
    shutdown_event s' = shutdown_event s || existsb is_signal (hd [] (pending s)) /\
    pending s' = tl (pending s) /\
    forallb is_log t = true.
Proof.
  unfold suspend. destruct (pending s) as [|batch rest] eqn:E.
  - exists s, []. cbn. rewrite orb_false_r, E.
    split; [reflexivity|]. split; [apply same_capture_refl|]. repeat split; reflexivity.
  - destruct (run_batch_run batch (with_pending rest s)) as (s' & t & H).
    exists s', t. exact H.
Qed.

(** A suspension, as a step of a coroutine. *)
Lemma ends_suspend (total : bool) (s : app) (Q : res unit -> app -> list event -> Prop) :
  (forall s' t,
     same_capture (instance s) (instance s') ->
     is_connected (instance s') = linked (hd [] (pending s)) (is_connected (instance s)) ->
     shutdown_event s' = shutdown_event s || existsb is_signal (hd [] (pending s)) ->
     pending s' = tl (pending s) ->
     forallb is_log t = true ->
     Q (Ok tt) s' t) ->
  ends total suspend s Q.
Proof.
  intros H. unfold ends.
  destruct (suspend_run s) as (s' & t & E & H1 & H2 & H3 & H4 & H5).
  rewrite E. auto.
Qed.

(** An awaited call, as a step of a coroutine. *)
Lemma ends_await {A} (total : bool) (e : event) (answer : res A) (s : app)
  (Q : res A -> app -> list event -> Prop) :
  (forall s' t,
     same_capture (instance s) (instance s') ->
     is_connected (instance s') = linked (hd [] (pending s)) (is_connected (instance s)) ->
     shutdown_event s' = shutdown_event s || existsb is_signal (hd [] (pending s)) ->
     pending s' = tl (pending s) ->
     forallb is_log t = true ->
     Q answer s' (e :: t)) ->
  ends total (await e answer) s Q.
Proof.
  intros H. unfold await. pstep. pstep. pstep. pstep.
  apply ends_suspend. intros s' t H1 H2 H3 H4 H5. pstep. pstep. cbv beta iota.
  destruct s'; cbn in *. rewrite app_nil_r. apply (H _ t); auto.
Qed.

(** Takes a membership in a trace apart. *)
Ltac split_in :=
  repeat match goal with
         | H : In _ (_ ++ _) |- _ => apply in_app_or in H; destruct H as [H|H]
         | H : In _ (_ :: _) |- _ => destruct H as [H|H]; [subst|]
         | H : In _ [] |- _ => destruct H
         end.

(** Closes a goal about a call that belongs to a part of the trace with
    a known class of calls. *)
Ltac by_class :=
  match goal with
  | H : In ?x ?t, G : forallb ?p ?t = true |- _ =>
      let K := fresh in
      pose proof (proj1 (forallb_forall p t) G x H) as K;
      first [ discriminate K
            | cbn in K; discriminate K
            | destruct x; cbn in K |- *; solve [discriminate | reflexivity] ]
  end.

(** Proves that all calls of a trace belong to a class. *)
Ltac classify :=
  apply forallb_forall; intros ? ?; split_in; solve [reflexivity | by_class].

Section WithWorld.

Variable w : world.

Lemma ends_connect (total : bool) (s : app) (Q : res unit -> app -> list event -> Prop) :
  (forall s' t,
     same_capture (set_loop (Some tt) (instance s)) (instance s') ->
     is_connected (instance s') = linked (hd [] (pending s)) (is_connected (instance s)) ->
     shutdown_event s' = shutdown_event s || existsb is_signal (hd [] (pending s)) ->
     pending s' = tl (pending s) ->
     forallb connect_call t = true ->
     Q (sio_connect w (Transport.request (config (instance s)))) s' t) ->
  ends total (connect w) s Q.
Proof.
  intros H. unfold connect. repeat pstep.
  cbn [instance with_instance config set_loop].
  repeat pstep. apply ends_await. intros s1 t1 H1 H2 H3 H4 H5.
  cbn [instance with_instance pending shutdown_event is_connected set_loop] in *.
  destruct (sio_connect w (Transport.request (config (instance s)))) as [[]|e];
    repeat pstep; cbv beta iota;
    (apply H; [exact H1 | exact H2 | exact H3 | exact H4 | classify]).
Qed.

(** Walks through a coroutine body, by cases on the answers of the
    outside world and on the flags read. *)
Ltac walk :=
  repeat first
    [ pstep
    | progress cbn [instance with_instance set_is_recording set_audio_stream
                    set_pyaudio_instance audio_stream pyaudio_instance
                    is_connected is_recording negb]
    | apply ends_await; intros ? ? ? ? ? ? ?
    | match goal with
      | |- post (match ?x with _ => _ end) _ _ => destruct x eqn:?
      | |- ends _ (match ?x with _ => _ end) _ _ => destruct x eqn:?
      | |- match ?x with _ => _ end => destruct x eqn:?
      end ].

Lemma ends_stop_recording (total : bool) (s : app)
  (Q : res unit -> app -> list event -> Prop) :
  (forall s' t,
     is_recording (instance s') = false ->
     forallb shutdown_call t = true ->
     ~ In SioDisconnect t ->
     (is_recording (instance s) = false -> s' = s /\ t = []) ->
     (is_recording (instance s) = true -> audio_stream (instance s) <> None ->
      In StreamStop t) ->
     Q (Ok tt) s' t) ->
  ends total (stop_recording w) s Q.
Proof.
  intros H. unfold stop_recording. walk.
  all: cbv beta iota; apply H;
    [ first [ reflexivity
            | destruct (is_recording (instance s)); [discriminate|reflexivity]
            | match goal with
              | K : same_capture _ _ |- _ => destruct K as (K & _ & _); cbn in K; exact K
              end ]
    | classify
    | intros Hin; split_in; solve [discriminate | by_class]
    | intros Hf; first [ split; reflexivity
                       | match goal with
                         | K : negb _ = false |- _ => rewrite Hf in K; discriminate
                         end ]
    | intros Ht Hs;
      first [ congruence
            | match goal with
              | K : negb _ = true |- _ => rewrite Ht in K; discriminate
              end
            | rewrite ?in_app_iff; cbn [In]; tauto ] ].
Qed.

Lemma ends_disconnect (total : bool) (s : app) (Q : res unit -> app -> list event -> Prop) :
  (forall r s' t,
     is_recording (instance s') = false ->
     forallb shutdown_call t = true ->
     (r = Ok tt \/ (r = sio_disconnect w /\ In SioDisconnect t)) ->
     (is_recording (instance s) = false ->
      forallb keeps_resources t = true /\
      pyaudio_instance (instance s') = pyaudio_instance (instance s)) ->
     (is_recording (instance s) = true -> audio_stream (instance s) <> None ->
      In StreamStop t) ->
     Q r s' t) ->
  ends total (disconnect w) s Q.
Proof.
  intros H. unfold disconnect. repeat pstep.
  apply ends_stop_recording. intros s1 t1 R1 C1 N1 F1 S1.
  cbn [instance with_instance] in *. walk.
  all: cbv beta iota; apply H;
    [ cbn [instance with_instance];
      first [ exact R1
            | match goal with
              | K : same_capture _ _ |- _ => destruct K as (K & _ & _); rewrite K; exact R1
              end ]
    | classify
    | first [ left; reflexivity
            | right; split; [reflexivity | rewrite ?in_app_iff; cbn [In]; tauto] ]
    | intros Hf; destruct (F1 Hf) as [-> ->]; split;
      [ classify
      | first [ reflexivity
              | match goal with
                | K : same_capture _ _ |- _ => destruct K as (_ & _ & K & _); exact K
                end ] ]
    | intros Ht Hs; specialize (S1 Ht Hs); rewrite ?in_app_iff; cbn [In]; tauto ].
Qed.

Lemma open_calls (device : option nat) (rates : list Z) :
  forall (k : nat) (self : client),
    forallb open_call (calls (open_with_fallback w rates k device self)) = true.
Proof.
  induction rates as [|a rest IH]; intros k self; [reflexivity|].
  destruct (pa_open w k a device) as [[]|e] eqn:E.
  - rewrite (CaptureFacts.open_round_accepted w _ _ _ _ _ E).
    unfold calls. cbn [snd]. destruct (a =? input_sample_rate self); reflexivity.
  - rewrite (CaptureFacts.open_round_refused w _ _ _ _ _ _ E).
    destruct (a =? 16000); [reflexivity|].
    specialize (IH (S k) self). unfold calls in *. cbn [snd forallb open_call andb].
    exact IH.
Qed.

(** The loop over the rates, as a step of [start_recording]. *)
Lemma post_open_calls (device : option nat) (rates : list Z) (k : nat) (c : client)
  (Q : res unit -> client -> list event -> Prop) :
  (forall r c2 t2,
     is_recording c2 = is_recording c ->
     is_connected c2 = is_connected c ->
     pyaudio_instance c2 = pyaudio_instance c ->
     forallb open_call t2 = true ->
     Q r c2 t2) ->
  post (open_with_fallback w rates k device) c Q.
Proof.
  intros H. unfold post.
  destruct (CaptureMore.open_frame w device rates k c) as (H1 & H2 & H3 & _ & _).
  apply H; auto using open_calls.
Qed.

(** Walks through a method body. *)
Ltac mwalk :=
  repeat first
    [ step
    | progress cbn [set_is_recording set_audio_stream set_pyaudio_instance
                    set_input_sample_rate audio_stream pyaudio_instance
                    is_connected is_recording is_windows negb]
    | apply CaptureMore.post_selection; intros ? ? ? ?
    | apply post_open_calls; intros ? ? ? ? ? ? ?
    | match goal with
      | |- post (match ?x with _ => _ end) _ _ => destruct x eqn:?
      | |- match ?x with _ => _ end => destruct x eqn:?
      end ].

(** A run of [start_recording] on a client that is not recording. *)
Lemma post_start (c : client) (Q : res unit -> client -> list event -> Prop) :
  is_recording c = false ->
  (forall r c' t,
     is_connected c' = is_connected c ->
     forallb start_call t = true ->
     In PaInit t ->
     match r with
     | Ok _ =>
         is_recording c' = true /\ audio_stream c' <> None /\
         In StreamStart t /\ start_stream w = Ok tt
     | Raise _ =>
         is_recording c' = false /\
         (pa_init w = Ok tt -> pyaudio_instance c' = Some tt) /\
         (In StreamStart t -> start_stream w <> Ok tt)
     end ->
     Q r c' t) ->
  post (start_recording w) c Q.
Proof.
  intros Hrec H. unfold start_recording. step. step. cbv beta iota. rewrite Hrec.
  mwalk.
  all: cbv beta iota; apply H;
    [ cbn [set_is_recording set_input_sample_rate set_pyaudio_instance is_connected] in *;
      congruence
    | classify
    | rewrite ?in_app_iff; cbn [In]; tauto
    | cbn [set_is_recording set_input_sample_rate set_pyaudio_instance
           is_recording audio_stream pyaudio_instance] in *;
      repeat split;
      first [ congruence
            | rewrite ?in_app_iff; cbn [In]; tauto
            | match goal with |- Ok ?u = Ok tt => destruct u; reflexivity end
            | intros Hin; first [ discriminate
                                | exfalso; split_in; solve [discriminate | by_class] ] ] ].
Qed.

(** The wait loop only suspends.  It returns when its exit is due and
    the rounds outnumber the batches. *)
Lemma ends_wait (total : bool) (rounds : nat) :
  forall (s : app) (Q : res unit -> app -> list event -> Prop),
    (total = true -> exit_due s /\ (List.length (pending s) < rounds)%nat) ->
    (forall s' t,
       same_capture (instance s) (instance s') ->
       forallb is_log t = true ->
       Q (Ok tt) s' t) ->
    ends total (wait_for_shutdown rounds) s Q.
Proof.
  induction rounds as [|n IH]; intros s Q Ht H.
  - unfold ends, wait_for_shutdown, never.
    destruct total; [|reflexivity].
    destruct (Ht eq_refl) as [_ Hlt]. inversion Hlt.
  - cbn [wait_for_shutdown]. pstep. pstep.
    destruct (is_connected (instance s) && is_recording (instance s)
              && negb (shutdown_event s)) eqn:Hc.
    + pstep. apply ends_suspend. intros s1 t1 C1 L1 S1 P1 G1. pstep. pstep.
      destruct (shutdown_event s1) eqn:Hs.
      * pstep. apply H; [exact C1|classify].
      * apply IH.
        -- intros Htot. destruct (Ht Htot) as [Hdue Hlen].
           apply andb_prop in Hc. destruct Hc as [Hc Hev].
           apply andb_prop in Hc. destruct Hc as [Hcon _].
           apply negb_true_iff in Hev.
           destruct Hdue as [Hdue|[Hdue|Hdue]]; [congruence|congruence|].
           rewrite Hev in S1. cbn [orb] in S1. rewrite Hcon in L1.
           destruct (pending s) as [|batch rest]; [discriminate|].
           cbn [hd tl existsb List.length] in *.
           unfold leaving at 1 in Hdue. rewrite <- S1 in Hdue.
           unfold exit_due. rewrite P1, L1. split; [|lia].
           unfold drops in Hdue. destruct (linked batch true); [|left; reflexivity].
           right. right. exact Hdue.
        -- intros s' t C2 G2. apply H; [eauto using same_capture_trans|classify].
    + pstep. apply H; [apply same_capture_refl|reflexivity].
Qed.

Lemma signal_due_step (s s' : app) :
  signal_due s ->
  shutdown_event s' = shutdown_event s || existsb is_signal (hd [] (pending s)) ->
  pending s' = tl (pending s) ->
  signal_due s'.
Proof.
  unfold signal_due. intros [H|H] Hs Hp; rewrite Hs, Hp.
  - rewrite H. left. reflexivity.
  - destruct (pending s) as [|batch rest]; [discriminate|].
    cbn [hd tl existsb] in *.
    destruct (existsb is_signal batch); cbn [orb] in *.
    + left. apply orb_true_r.
    + right. exact H.
Qed.

Lemma signal_due_exit (s s' : app) :
  signal_due s ->
  shutdown_event s' = shutdown_event s ->
  pending s' = pending s ->
  exit_due s'.
Proof.
  unfold signal_due, exit_due. intros [H|H] Hs Hp; rewrite Hs, Hp; [auto|].
  right. right. apply existsb_exists in H. destruct H as (batch & Hin & Hb).
  apply existsb_exists. exists batch. split; [exact Hin|].
  unfold leaving. rewrite Hb. reflexivity.
Qed.

Lemma tl_length {A} (l : list A) : (List.length (tl l) <= List.length l)%nat.
Proof. destruct l; cbn; lia. Qed.

(** A run of [start_recording], with what it is of the method. *)
Lemma post_start_run (c : client) (Q : res unit -> client -> list event -> Prop) :
  is_recording c = false ->
  (forall r c' t,
     r = result (start_recording w c) ->
     is_connected c' = is_connected c ->
     forallb start_call t = true ->
     In PaInit t ->
     match r with
     | Ok _ =>
         is_recording c' = true /\ audio_stream c' <> None /\
         In StreamStart t /\ start_stream w = Ok tt
     | Raise _ =>
         is_recording c' = false /\
         (pa_init w = Ok tt -> pyaudio_instance c' = Some tt) /\
         (In StreamStart t -> start_stream w <> Ok tt)
     end ->
     Q r c' t) ->
  post (start_recording w) c Q.
Proof.
  intros Hrec H.
  pose proof (post_start c
    (fun r c' t =>
       is_connected c' = is_connected c /\
       forallb start_call t = true /\
       In PaInit t /\
       match r with
       | Ok _ =>
           is_recording c' = true /\ audio_stream c' <> None /\
           In StreamStart t /\ start_stream w = Ok tt
       | Raise _ =>
           is_recording c' = false /\
           (pa_init w = Ok tt -> pyaudio_instance c' = Some tt) /\
           (In StreamStart t -> start_stream w <> Ok tt)
       end) Hrec) as X.
  unfold post in *. destruct X as (X1 & X2 & X3 & X4); [intros; auto|].
  apply H; auto.
Qed.

(** Closes the run of [main] at a shutdown without a started capture. *)
Ltac unstarted :=
  apply ends_disconnect;
  let r4 := fresh "r" in let s4 := fresh "s" in let t4 := fresh "t" in
  let R4 := fresh "R" in let K4 := fresh "K" in let O4 := fresh "O" in
  let F4 := fresh "F" in let F5 := fresh "F" in let S4 := fresh "S" in
  intros r4 s4 t4 R4 K4 O4 F4 S4;
  cbn [instance with_instance] in F4;
  destruct F4 as [F4 F5]; [assumption|];
  eexists _, t4, false; split; [reflexivity|];
  split; [classify|]; split; [exact K4|]; split; [exact R4|];
  split;
  [ destruct O4 as [->|[-> ?]]; [left; reflexivity|];
    destruct (sio_disconnect w) as [[]|?]; [left; reflexivity|];
    right; split; [reflexivity|assumption]
  | split;
    [ unfold capture_due;
      first [ split; [auto|intros _; rewrite ?in_app_iff; tauto]
            | split; [ intros ?; exfalso; split_in; solve [discriminate|by_class]
                     | intros [? ?]; congruence ] ]
    | split;
      [ first [ left; rewrite ?in_app_iff; tauto | right; classify ]
      | split; [intros ?; discriminate|];
        split; [exact F4|]; split;
        [ intros ? ?;
          first [ rewrite F5;
                  match goal with K : _ -> pyaudio_instance _ = _ |- _ => apply K end;
                  assumption
                | exfalso; split_in; solve [discriminate|by_class] ]
        | intros ?; split_in;
          first [ by_class
                | match goal with K : In StreamStart _ -> _ |- _ => apply K end; assumption
                | discriminate ] ] ] ] ].

(** A run of [main] after the banner.  It returns when the capture is
    not started; with a started capture, when the exit of the wait loop
    is due. *)
Lemma main_body_run (total : bool) (system : string) (rounds : nat) (s : app) :
  is_recording (instance s) = false ->
  (total = true ->
   capture_due w (instance s) (pending s) ->
   result (start_recording w (ready (instance s))) = Ok tt ->
   (signal_due s \/ existsb leaving (tl (tl (pending s))) = true) /\
   (List.length (pending s) < rounds)%nat) ->
  ends total (main_body w system rounds) s (main_shape w (instance s) (pending s)).
Proof.
  intros Hrec Ht. unfold main_body, main_shape. pstep. pstep. pstep.
  apply ends_connect. intros s1 t1 C1 L1 S1 P1 G1.
  destruct (sio_connect w (Transport.request (config (instance s)))) as [[]|e] eqn:Econn.
  - pstep. apply ends_suspend. intros s2 t2 C2 L2 S2 P2 G2.
    assert (Hflag : is_connected (instance s2)
                    = linked (hd [] (tl (pending s)))
                        (linked (hd [] (pending s)) (is_connected (instance s))))
      by (rewrite L2, L1, P1; reflexivity).
    assert (Hrec2 : is_recording (instance s2) = false).
    { destruct C1 as (K1 & _), C2 as (K2 & _). cbn [set_loop is_recording] in K1.
      congruence. }
    pstep. pstep. rewrite Hflag.
    destruct (linked (hd [] (tl (pending s)))
                (linked (hd [] (pending s)) (is_connected (instance s)))) eqn:Hlink;
      cbn [negb].
    + assert (Hready : instance s2 = ready (instance s)).
      { destruct C1 as (_ & _ & _ & K1), C2 as (_ & _ & _ & K2).
        rewrite K2, Hflag, K1. reflexivity. }
      assert (Hdue : capture_due w (instance s) (pending s)).
      { unfold capture_due. rewrite Econn, Hlink. split; reflexivity. }
      pstep. pstep. apply post_start_run; [exact Hrec2|].
      intros r c t Hres Hcon Hcls Hpa Hr. rewrite Hready in Hres.
      destruct r as [[]|e].
      * destruct Hr as (Hon & Hstream & Hstart & Hok).
        pstep. pstep. cbv beta iota. apply ends_wait.
        { intros Htot. destruct (Ht Htot Hdue (eq_sym Hres)) as [Hexit Hlen].
          cbn [pending shutdown_event with_stdout with_instance].
          split.
          - destruct Hexit as [Hexit|Hexit].
            + apply (signal_due_exit s2); [|reflexivity|reflexivity].
              apply (signal_due_step s1); [apply (signal_due_step s)|..]; assumption.
            + right. right. cbn [pending with_stdout with_instance].
              rewrite P2, P1. exact Hexit.
          - rewrite P2, P1.
            pose proof (tl_length (pending s)). pose proof (tl_length (tl (pending s))).
            lia. }
        intros s3 t3 C3 G3. cbn [instance with_stdout with_instance] in C3.
        apply ends_disconnect. intros r4 s4 t4 R4 K4 O4 F4 S4.
        eexists _, t4, true. split; [reflexivity|].
        split; [classify|]. split; [exact K4|]. split; [exact R4|].
        split.
        { destruct O4 as [->|[-> Hin]]; [left; reflexivity|].
          destruct (sio_disconnect w) as [[]|e]; [left; reflexivity|].
          right. split; [reflexivity|exact Hin]. }
        split.
        { split; [intros _; exact Hdue|]. intros _. rewrite ?in_app_iff. tauto. }
        split; [left; rewrite ?in_app_iff; tauto|].
        split; [intros _; symmetry; exact Hres|].
        split; [rewrite ?in_app_iff; tauto|]. split; [exact Hok|].
        destruct C3 as (K1 & K2 & _). apply S4; congruence.
      * destruct Hr as (Hoff & Hinst & Hnostart).
        walk; unstarted.
    + walk. unstarted.
  - assert (Hrec1 : is_recording (instance s1) = false).
    { destruct C1 as (K1 & _). cbn [set_loop is_recording] in K1. congruence. }
    walk; unstarted.
Qed.

(** [main] from the start of the program: the client is the one
    [__init__] creates. *)
Lemma main_run (total : bool) (system : string) (rounds : nat)
  (script : list (list happening)) :
  let c := init CONFIG (String.eqb system "Windows") in
  (total = true ->
   capture_due w c script ->
   result (start_recording w (ready c)) = Ok tt ->
   (existsb (existsb is_signal) script = true \/
    existsb leaving (tl (tl script)) = true) /\
   (List.length script < rounds)%nat) ->
  match main w system rounds script with
  | Some (r, s', t) => main_shape w c script r s' t
  | None => total = false
  end.
Proof.
  intros c Ht. unfold main.
  match goal with
  | |- match ?m ?s with _ => _ end => change (ends total m s (main_shape w c script))
  end.
  do 6 pstep. cbv beta iota.
  eapply ends_weaken; [|apply main_body_run].
  - intros r s' t H. exact H.
  - reflexivity.
  - intros Htot Hdue Hres. destruct (Ht Htot Hdue Hres) as [[Hsig|Hdrop] Hlen];
      (split; [|exact Hlen]).
    + left. right. exact Hsig.
    + right. exact Hdrop.
Qed.

(** However [main] ends, the client is left not recording, and [main]
    raises nothing but what the final [sio.disconnect] raised: the
    errors of [connect] and of [start_recording] are logged and
    dropped. *)
Theorem main_outcome (system : string) (rounds : nat) (script : list (list happening))
  (r : res unit) (a : app) (t : list event) :
  main w system rounds script = Some (r, a, t) ->
  is_recording (instance a) = false /\
  (r = Ok tt \/ (r = sio_disconnect w /\ In SioDisconnect t)).
Proof.
  intros E. pose proof (main_run false system rounds script) as H.
  cbv zeta in H. rewrite E in H.
  destruct H as (tb & td & started & -> & _ & _ & Hrec & Hr & _); [discriminate|].
  split; [exact Hrec|].
  destruct Hr as [Hr|[Hr Hin]]; [left; exact Hr|].
  right. split; [exact Hr|]. apply in_or_app. right. exact Hin.
Qed.

(** A signal ends the program: when a handled signal is among what
    happens, [main] returns, within as many rounds of its wait loop as
    there are batches. *)
Theorem signal_ends_main (system : string) (rounds : nat) (script : list (list happening)) :
  (exists batch, In batch script /\ In Signal batch) ->
  (List.length script < rounds)%nat ->
  exists r a t, main w system rounds script = Some (r, a, t).
Proof.
  intros (batch & Hb & Hs) Hlen.
  pose proof (main_run true system rounds script) as H.
  destruct (main w system rounds script) as [[[r a] t]|].
  - exists r, a, t. reflexivity.
  - assert (X : true = false); [|discriminate X].
    apply H. intros _ _ _. split; [|exact Hlen]. left.
    apply existsb_exists. exists batch. split; [exact Hb|].
    apply existsb_exists. exists Signal. split; [exact Hs|reflexivity].
Qed.

(** A loss of the connection ends the program: when, after the settle
    delay, some batch leaves the client flagged disconnected, [main]
    returns. *)
Theorem connection_loss_ends_main (system : string) (rounds : nat)
  (script : list (list happening)) :
  (exists batch, In batch (skipn 2 script) /\ drops batch = true) ->
  (List.length script < rounds)%nat ->
  exists r a t, main w system rounds script = Some (r, a, t).
Proof.
  intros (batch & Hb & Hd) Hlen.
  pose proof (main_run true system rounds script) as H.
  destruct (main w system rounds script) as [[[r a] t]|].
  - exists r, a, t. reflexivity.
  - assert (X : true = false); [|discriminate X].
    apply H. intros _ _ _. split; [|exact Hlen]. right.
    replace (tl (tl script)) with (skipn 2 script)
      by (destruct script as [|? [|? ?]]; reflexivity).
    apply existsb_exists. exists batch. split; [exact Hb|].
    unfold leaving. rewrite Hd. apply orb_true_r.
Qed.

(** [main] starts the capture exactly when [sio.connect] returned and
    the client is flagged connected after the settle delay: the
    PortAudio library is initialised in no other run, and in those
    runs no call at all is made on the audio library. *)
Theorem capture_needs_connection (system : string) (rounds : nat)
  (script : list (list happening)) (r : res unit) (a : app) (t : list event) :
  main w system rounds script = Some (r, a, t) ->
  (In PaInit t <->
   sio_connect w (Transport.request CONFIG) = Ok tt /\ settled script = true) /\
  (~ (sio_connect w (Transport.request CONFIG) = Ok tt /\ settled script = true) ->
   forallb (fun e => negb (audio_call e)) t = true).
Proof.
  intros E. pose proof (main_run false system rounds script) as H.
  cbv zeta in H. rewrite E in H.
  destruct H as (tb & td & started & -> & _ & Htd & _ & _ & Hiff & Hcls & _ & Hs);
    [discriminate|].
  change (capture_due w (init CONFIG (String.eqb system "Windows")) script)
    with (sio_connect w (Transport.request CONFIG) = Ok tt /\ settled script = true)
    in Hiff.
  split.
  - rewrite <- Hiff. split.
    + intros Hin. split_in; [assumption|by_class].
    + intros Hin. apply in_or_app. left. exact Hin.
  - intros Hno. rewrite <- Hiff in Hno.
    destruct Hcls as [Hcls|Hcls]; [contradiction|].
    destruct started.
    { destruct Hs as (Hstart & _). by_class. }
    destruct Hs as (Hkeep & _).
    rewrite forallb_app. apply andb_true_intro. split.
    + apply forallb_forall. intros x Hx. by_class.
    + apply forallb_forall. intros x Hx.
      pose proof (proj1 (forallb_forall _ _) Htd x Hx) as K1.
      pose proof (proj1 (forallb_forall _ _) Hkeep x Hx) as K2.
      destruct x; cbn in *; solve [reflexivity | discriminate].
Qed.

(** A capture that could not be started is never cleaned up.  When
    [sio.connect] returned, the client is flagged connected after the
    settle delay and [start_recording] raises, [main] returns, whatever
    the rounds of its wait loop, which it does not reach: PortAudio was
    initialised, but there is no call of [stop_stream], [close] or
    [terminate], and the client, left not recording, still holds the
    PortAudio instance. *)
Theorem failed_start_is_not_cleaned_up (system : string) (rounds : nat)
  (script : list (list happening)) (e : exn) :
  sio_connect w (Transport.request CONFIG) = Ok tt ->
  settled script = true ->
  result (start_recording w (ready (init CONFIG (String.eqb system "Windows")))) = Raise e ->
  exists r a t,
    main w system rounds script = Some (r, a, t) /\
    In PaInit t /\
    forallb keeps_resources t = true /\
    (pa_init w = Ok tt -> pyaudio_instance (instance a) = Some tt) /\
    is_recording (instance a) = false.
Proof.
  intros Hconn Hset Hraise.
  pose proof (main_run true system rounds script) as H. cbv zeta in H.
  destruct (main w system rounds script) as [[[r a] t]|].
  2:{ assert (X : true = false); [|discriminate X].
      apply H. intros _ _ Hres. rewrite Hraise in Hres. discriminate Hres. }
  destruct H as (tb & td & started & -> & Htb & Htd & Hrec & _ & Hiff & _ & Hst & Hs).
  { intros _ _ Hres. rewrite Hraise in Hres. discriminate Hres. }
  assert (Hb : In PaInit tb) by (apply Hiff; split; assumption).
  destruct started.
  { specialize (Hst eq_refl). rewrite Hraise in Hst. discriminate Hst. }
  destruct Hs as (Hkeep & Hpa & _).
  exists r, a, (tb ++ td). split; [reflexivity|].
  split; [apply in_or_app; left; exact Hb|].
  split; [|split; [auto|exact Hrec]].
  rewrite forallb_app, Hkeep, andb_true_r.
  apply forallb_forall. intros x Hx. by_class.
Qed.

(** A capture that was started is stopped: when [start_stream]
    succeeded, the calls of [main] fall into those before the shutdown,
    which hold the start of the stream and give no resource back, and
    those of the shutdown, which hold [stop_stream]. *)
Theorem started_capture_is_stopped (system : string) (rounds : nat)
  (script : list (list happening)) (r : res unit) (a : app) (t : list event) :
  main w system rounds script = Some (r, a, t) ->
  In StreamStart t ->
  start_stream w = Ok tt ->
  exists t1 t2,
    t = t1 ++ t2 /\
    In StreamStart t1 /\ forallb keeps_resources t1 = true /\
    In StreamStop t2 /\ forallb shutdown_call t2 = true.
Proof.
  intros E Hin Hok.
  pose proof (main_run false system rounds script) as H.
  cbv zeta in H. rewrite E in H.
  destruct H as (tb & td & started & -> & Htb & Htd & _ & _ & _ & _ & _ & Hs);
    [discriminate|].
  assert (Hb : In StreamStart tb) by (split_in; [assumption|by_class]).
  destruct started.
  - destruct Hs as (_ & _ & Hstop). exists tb, td.
    repeat split; auto.
    apply forallb_forall. intros x Hx. by_class.
  - destruct Hs as (_ & _ & Hno). destruct (Hno Hb Hok).
Qed.

(** With nothing happening at its awaits, a coroutine is the method of
    the same name run to its end. *)
Lemma disconnect_alone (s : app) :
  pending s = [] ->
  disconnect w s = method (Transport.disconnect w) s.
Proof.
  destruct s as [c ev out pend]. cbn [pending]. intros ->.
  destruct c as [cfg con rec st pa lp q sr ch sw cs isr win fpb].
  unfold disconnect, Transport.disconnect, stop_recording, Capture.stop_recording,
    await, suspend, branch, try_except, next, method, get, done.
  run.
  destruct rec, con, st, pa,
    (stop_stream w) as [[]|?], (close_stream w) as [[]|?], (terminate w) as [[]|?],
    (sio_emit w "streamEnd") as [[]|?], (sio_disconnect w) as [[]|?];
    reflexivity.
Qed.

Lemma connect_alone (s : app) :
  pending s = [] ->
  connect w s = method (Transport.connect w) s.
Proof.
  destruct s as [c ev out pend]. cbn [pending]. intros ->.
  unfold connect, Transport.connect, await, suspend, try_except, next, method, throw.
  run. cbn [instance with_instance pending config set_loop].
  destruct (sio_connect w (Transport.request (config c))) as [[]|?]; reflexivity.
Qed.

End WithWorld.

(** Runs [main] on a script and hands the outcome to the proof. *)
Ltac run_main w system rounds script k :=
  let v := eval vm_compute in (main w system rounds script) in
  lazymatch v with
  | Some (?r, ?a, ?t) => k r a t
  end.

Lemma main_outcome_witness :
  exists r a t,
    main calm "Linux" 5 [[Connected]; []; []; [Signal]] = Some (r, a, t) /\
    is_recording (instance a) = false /\
    (r = Ok tt \/ (r = sio_disconnect calm /\ In SioDisconnect t)).
Proof.
  run_main calm "Linux" 5%nat [[Connected]; []; []; [Signal]] ltac:(fun r a t =>
    exists r, a, t; split; [vm_compute; reflexivity|];
    apply (main_outcome calm "Linux" 5 [[Connected]; []; []; [Signal]] r a t);
    vm_compute; reflexivity).
Defined.

Lemma signal_ends_main_witness :
  exists r a t, main calm "Linux" 5 [[Connected]; []; []; [Signal]] = Some (r, a, t).
Proof.
  apply (signal_ends_main calm "Linux" 5 [[Connected]; []; []; [Signal]]).
  - exists [Signal]. split; cbn; auto.
  - cbn. lia.
Defined.

Lemma connection_loss_ends_main_witness :
  exists r a t, main calm "Linux" 5 [[Connected]; []; []; [Disconnected]] = Some (r, a, t).
Proof.
  apply (connection_loss_ends_main calm "Linux" 5 [[Connected]; []; []; [Disconnected]]).
  - exists [Disconnected]. split; cbn; auto.
  - cbn. lia.
Defined.

Lemma capture_needs_connection_witness :
  exists r a t,
    main calm "Linux" 5 [[Connected]; []; []; [Signal]] = Some (r, a, t) /\
    (In PaInit t <->
     sio_connect calm (Transport.request CONFIG) = Ok tt /\
     settled [[Connected]; []; []; [Signal]] = true) /\
    (~ (sio_connect calm (Transport.request CONFIG) = Ok tt /\
        settled [[Connected]; []; []; [Signal]] = true) ->
     forallb (fun e => negb (audio_call e)) t = true).
Proof.
  run_main calm "Linux" 5%nat [[Connected]; []; []; [Signal]] ltac:(fun r a t =>
    exists r, a, t; split; [vm_compute; reflexivity|];
    apply (capture_needs_connection calm "Linux" 5 [[Connected]; []; []; [Signal]] r a t);
    vm_compute; reflexivity).
Defined.

Lemma failed_start_is_not_cleaned_up_witness :
  exists r a t,
    main (one_device [16000]) "Windows" 0 [[Connected]] = Some (r, a, t) /\
    In PaInit t /\
    forallb keeps_resources t = true /\
    (pa_init (one_device [16000]) = Ok tt -> pyaudio_instance (instance a) = Some tt) /\
    is_recording (instance a) = false.
Proof.
  exact (failed_start_is_not_cleaned_up (one_device [16000]) "Windows" 0 [[Connected]]
           OSError eq_refl eq_refl eq_refl).
Defined.

Lemma started_capture_is_stopped_witness :
  exists r a t t1 t2,
    main calm "Linux" 5 [[Connected]; []; []; [Signal]] = Some (r, a, t) /\
    t = t1 ++ t2 /\
    In StreamStart t1 /\ forallb keeps_resources t1 = true /\
    In StreamStop t2 /\ forallb shutdown_call t2 = true.
Proof.
  run_main calm "Linux" 5%nat [[Connected]; []; []; [Signal]] ltac:(fun r a t =>
    exists r, a, t;
    assert (E : main calm "Linux" 5 [[Connected]; []; []; [Signal]] = Some (r, a, t))
      by (vm_compute; reflexivity);
    assert (Hin : In StreamStart t)
      by (cbn [In]; repeat (first [left; reflexivity | right]));
    destruct (started_capture_is_stopped calm "Linux" 5 [[Connected]; []; []; [Signal]]
                r a t E Hin eq_refl) as (t1 & t2 & H);
    exists t1, t2; split; [exact E|exact H]).
Defined.

End OrchestratorFacts.
